(** * Agentcy 2.0: a shallow embedding of [agentcy.py]

    The development follows the layout of the Python module:
    - [PyStr]: the fragment of Python's [str] the module relies on;
    - [Py]: exceptions and the outcome of a call that may raise;
    - [Config]: [AgentcyConfig];
    - [Effects]: the external calls, the world that answers them, and a
      small monad that threads the log of calls and the raised exception;
    - [Tools]: [AdvancedResearchTools] and [VisualContentTools];
    - [Chat]: the user proxy, the agents and [AgentcyCore.__init__];
    - [Orchestrator]: the round loop of the design document, which
      [agentcy.py] delegates to the agent framework it imports;
    - [Session]: [run_creative_session].

    Strings are Rocq [string]s, one [ascii] per character.  The character
    tables of the Python runtime ([str.isalnum], [str.isspace],
    [str.lower]) belong to the world.  Exceptions are the subclasses of
    [Exception]; interrupts are not represented. *)

From stdpp Require Import base strings list gmap pretty.
From Stdlib Require Import Ascii String ZArith Lia.

#[local] Set Warnings "-abstract-large-number".

Local Open Scope string_scope.
Local Open Scope list_scope.

(* ===================================================================== *)
(** ** Python strings *)
(* ===================================================================== *)

Module PyStr.

(** [s.startswith(p)] *)
Fixpoint startswith (s p : string) {struct p} : bool :=
  match p, s with
  | EmptyString, _ => true
  | String _ _, EmptyString => false
  | String a p', String b s' =>
      if Ascii.eqb a b then startswith s' p' else false
  end.

(** [needle in hay] on two [str] values: plain substring search. *)
Fixpoint contains (needle hay : string) : bool :=
  startswith hay needle
  || match hay with
     | EmptyString => false
     | String _ hay' => contains needle hay'
     end.

(** [s[:n]] *)
Fixpoint take (n : nat) (s : string) : string :=
  match n, s with
  | S n', String a s' => String a (take n' s')
  | _, _ => EmptyString
  end.

(** [s[n:]] *)
Fixpoint drop (n : nat) (s : string) : string :=
  match n, s with
  | S n', String _ s' => drop n' s'
  | _, _ => s
  end.

(** ["".join(c for c in s if keep(c))] *)
Fixpoint filter (keep : ascii -> bool) (s : string) : string :=
  match s with
  | EmptyString => EmptyString
  | String a s' => if keep a then String a (filter keep s') else filter keep s'
  end.

(** [all(p(c) for c in s)] *)
Fixpoint forallb (p : ascii -> bool) (s : string) : bool :=
  match s with
  | EmptyString => true
  | String a s' => p a && forallb p s'
  end.

(** [s.rstrip()]: drop the trailing run of whitespace characters. *)
Fixpoint rstrip (isspace : ascii -> bool) (s : string) : string :=
  match s with
  | EmptyString => EmptyString
  | String a s' =>
      match rstrip isspace s' with
      | EmptyString => if isspace a then EmptyString else String a EmptyString
      | r => String a r
      end
  end.

(** [s.split()]: the maximal runs of non-whitespace characters.
    [cur] is the word being read, in reverse. *)
Fixpoint split_go (isspace : ascii -> bool) (cur : list ascii) (s : string)
  : list string :=
  let flush := match cur with
               | [] => []
               | _ => [string_of_list_ascii (rev cur)]
               end in
  match s with
  | EmptyString => flush
  | String a s' =>
      if isspace a then flush ++ split_go isspace [] s'
      else split_go isspace (a :: cur) s'
  end.

Definition split (isspace : ascii -> bool) (s : string) : list string :=
  split_go isspace [] s.

(** ["\n".join(parts)] and friends *)
Fixpoint join (sep : string) (parts : list string) : string :=
  match parts with
  | [] => EmptyString
  | [p] => p
  | p :: rest => p +:+ sep +:+ join sep rest
  end.

(** [[s[i:i+n] for i in range(0, len(s), n)]]; [fuel] bounds the number of
    chunks, [String.length s] is always enough. *)
Fixpoint chunks_go (fuel n : nat) (s : string) : list string :=
  match fuel with
  | O => []
  | S fuel' =>
      match s with
      | EmptyString => []
      | _ => take n s :: chunks_go fuel' n (drop n s)
      end
  end.

Definition chunks (n : nat) (s : string) : list string :=
  chunks_go (String.length s) n s.

(** Truthiness of a [str]: the empty string is falsy. *)
Definition truthy (s : string) : bool :=
  match s with EmptyString => false | _ => true end.

(** Truthiness of an [Optional[str]]: [None] and [""] are falsy. *)
Definition truthy_opt (o : option string) : bool :=
  match o with Some s => truthy s | None => false end.

(** f-string rendering of an [Optional[str]] *)
Definition fmt_opt (o : option string) : string :=
  match o with Some s => s | None => "None" end.

End PyStr.

(* ===================================================================== *)
(** ** Exceptions and outcomes *)
(* ===================================================================== *)

Module Py.

(** The classes of [Exception] the module distinguishes.  Subclasses of
    [requests.RequestException] (HTTPError, Timeout, ...) are folded into
    [RequestException]; [OtherException] is any remaining subclass of
    [Exception]. *)
Inductive exn_class :=
| RequestException | ValueError | TypeError | OSError | OtherException.

Record exn := Exn { exn_cls : exn_class; exn_msg : string }.

(** [str(e)] *)
Definition str (e : exn) : string := exn_msg e.

Definition is_RequestException (e : exn) : bool :=
  match exn_cls e with RequestException => true | _ => false end.

(** The outcome of evaluating a Python expression. *)
Inductive result (A : Type) :=
| Return (a : A)
| Raise (e : exn).
Arguments Return {A} a.
Arguments Raise {A} e.

Definition raises {A} (r : result A) : bool :=
  match r with Raise _ => true | Return _ => false end.

(** Values stored under a message key: a [str] or [None]. *)
Inductive pyval := PStr (s : string) | PNone.

End Py.

(* ===================================================================== *)
(** ** [AgentcyConfig] *)
(* ===================================================================== *)

Module Config.
Import Py.

(** [AgentcyConfig]: the four keys read with [os.getenv] and the output
    directories ([Path("output")] and its three children).  Directory
    creation and the model list are glue and are not represented. *)
Record AgentcyConfig := {
  openai_api_key : option string;
  serper_api_key : option string;
  browserless_api_key : option string;
  replicate_api_token : option string;
  output_dir : string;
  research_dir : string;
  content_dir : string;
  images_dir : string
}.

(** The attributes [AgentcyConfig.__init__] assigns, reading the process
    environment; the directories it then makes are in
    [Chat.AgentcyConfig_new]. *)
Definition AgentcyConfig_init (environ : gmap string string) : AgentcyConfig :=
  {| openai_api_key := environ !! "OPENAI_API_KEY";
     serper_api_key := environ !! "SERPER_API_KEY";
     browserless_api_key := environ !! "BROWSERLESS_API_KEY";
     replicate_api_token := environ !! "REPLICATE_API_TOKEN";
     output_dir := "output";
     research_dir := "output/research";
     content_dir := "output/content";
     images_dir := "output/images" |}.

(** [missing_keys = [key for key in required_keys if not key]] *)
Definition missing_keys (c : AgentcyConfig) : list (option string) :=
  List.filter (fun key => negb (PyStr.truthy_opt key))
              [openai_api_key c; serper_api_key c].

(** [AgentcyConfig.validate] *)
Definition validate (c : AgentcyConfig) : bool :=
  match missing_keys c with
  | [] => true
  | _ :: _ => false
  end.

(** The error [AgentcyCore.__init__] raises when validation fails. *)
Definition configuration_error : exn :=
  Exn ValueError "Configuration validation failed".

End Config.

(* ===================================================================== *)
(** ** External calls, the world and the effect monad *)
(* ===================================================================== *)

Module Effects.
Import Py.

(** One entry of the ["organic"] list of a search response. *)
Record organic_result := {
  o_title : option string;
  o_snippet : option string;
  o_link : option string
}.

(** One entry of the ["relatedSearches"] list. *)
Record related_search := { r_query : option string }.

(** The JSON object returned by the search API, restricted to the keys the
    module reads; [None] is an absent key. *)
Record search_results := {
  sr_error : option string;
  sr_organic : option (list organic_result);
  sr_related : option (list related_search)
}.

(** A [requests.Response]. *)
Record response := {
  status_code : Z;
  content : string;
  raise_for_status : option exn;
  json : result search_results
}.

(** The external calls a tool can make, as recorded in the log. *)
Inductive call :=
| CSerperPost (query : string)
| CBrowserlessPost (token url : string)
| CHttpGet (url : string)
| COpenAIChat (system user : string)
| CReplicateRun (model prompt : string)
| CNow (fmt : string)
| CFileWrite (path content : string)
| CFileOpenRead (path : string)
| CPathExists (path : string).

(** Everything outside the repository: the network, the file system, the
    clock, the third-party packages and the character tables of the Python
    runtime.  Stateful operations see the log of the calls made so far, so
    the same call may answer differently the second time. *)
Record World := {
  replicate_available : bool;
  str_isalnum : ascii -> bool;
  str_isspace : ascii -> bool;
  str_lower : string -> string;
  requests_post_serper : list call -> string -> result response;
  requests_post_browserless : list call -> string -> string -> result response;
  requests_get : list call -> string -> result response;
  soup_get_text : string -> result string;
  openai_client : option string -> result unit;
  openai_chat : list call -> string -> string -> result string;
  replicate_run : list call -> string -> string -> result (list string);
  now_strftime : list call -> string -> string;
  file_write : list call -> string -> string -> result unit;
  file_open_read : list call -> string -> result unit;
  path_exists : list call -> string -> bool
}.

(** A computation reads and extends the log and returns or raises. *)
Definition M (A : Type) : Type := list call -> result A * list call.

Definition ret {A} (a : A) : M A := fun log => (Return a, log).

Definition raise {A} (e : exn) : M A := fun log => (Raise e, log).

Definition bind {A B} (m : M A) (k : A -> M B) : M B :=
  fun log =>
    match m log with
    | (Return a, log') => k a log'
    | (Raise e, log') => (Raise e, log')
    end.

(** Lift a value that was computed without touching the outside. *)
Definition lift {A} (r : result A) : M A := fun log => (r, log).

(** Perform the external call [c], whose outcome the world decides from
    the log so far. *)
Definition perform {A} (c : call) (outcome : list call -> result A) : M A :=
  fun log => (outcome log, log ++ [c]).

(** [try: m  except Exception as e: handler(e)] *)
Definition try_except {A} (m : M A) (handler : exn -> M A) : M A :=
  fun log =>
    match m log with
    | (Return a, log') => (Return a, log')
    | (Raise e, log') => handler e log'
    end.

(** [try: m  except requests.RequestException as e: handler(e)] *)
Definition try_except_request {A} (m : M A) (handler : exn -> M A) : M A :=
  try_except m (fun e => if is_RequestException e then handler e else raise e).

Declare Scope eff_scope.
Delimit Scope eff_scope with eff.
Notation "x <-- m ;; k" := (bind m (fun x => k))
  (at level 100, m at next level, right associativity) : eff_scope.

(** The calls a computation adds when started from [log]. *)
Definition calls_from {A} (m : M A) (log : list call) : list call :=
  List.skipn (List.length log) (snd (m log)).

End Effects.

(* ===================================================================== *)
(** ** [AdvancedResearchTools] and [VisualContentTools] *)
(* ===================================================================== *)

Module Tools.
Import Py Config Effects.
Local Open Scope eff_scope.

(** The newline character of the Python literals. *)
Definition nl : string := String "010"%char EmptyString.

(** [directory / name] on [pathlib.Path]: an absolute right operand
    replaces the left one. *)
Definition path_join (directory name : string) : string :=
  if PyStr.startswith name "/" then name else directory +:+ "/" +:+ name.

Definition summarize_system : string :=
  "Summarize the following text for research purposes, maintaining key insights and factual information.".

Definition combine_system : string :=
  "Create a comprehensive summary from these research summaries.".

Definition sdxl_model : string :=
  "stability-ai/sdxl:c221b2b8ef527988fb59bf24a8b97c4561f1c671f73bd389f866bfb27c061316".

Definition llava_model : string :=
  "yorickvp/llava-13b:2facb4a474a0462c15041b78b1ad70952ea46b5ec6ad29583c0b29dbd4249591".

Definition max_chunk_size : nat := 15000.

Section WithWorld.

Variable w : World.
Variable config : AgentcyConfig.

(** [datetime.now().strftime(fmt)] *)
Definition now (fmt : string) : M string :=
  perform (CNow fmt) (fun log => Return (now_strftime w log fmt)).

(** One [client.chat.completions.create] call, returning
    [response.choices[0].message.content]. *)
Definition chat (system user : string) : M string :=
  perform (COpenAIChat system user) (fun log => openai_chat w log system user).

(** The body of [search]'s [try] block. *)
Definition search_body (query : string) : M search_results :=
  response <-- perform (CSerperPost query)
                 (fun log => requests_post_serper w log query) ;;
  _ <-- lift (match raise_for_status response with
              | Some e => Raise e
              | None => Return tt
              end) ;;
  lift (json response).

(** [AdvancedResearchTools.search] *)
Definition search (query : string) : M search_results :=
  try_except_request (search_body query)
    (fun e => ret {| sr_error := Some ("Search failed: " +:+ str e);
                     sr_organic := None;
                     sr_related := None |}).

(** [summaries.append(...)] for each chunk, in order. *)
Fixpoint summarize_chunks (chunks : list string) (summaries : list string)
  : M (list string) :=
  match chunks with
  | [] => ret summaries
  | chunk :: rest =>
      s <-- chat summarize_system chunk ;;
      summarize_chunks rest (summaries ++ [s])
  end.

(** The body of [summarize_text]'s [try] block. *)
Definition summarize_body (content : string) : M string :=
  _ <-- lift (openai_client w (openai_api_key config)) ;;
  if Nat.ltb max_chunk_size (String.length content) then
    summaries <-- summarize_chunks (PyStr.chunks max_chunk_size content) [] ;;
    let combined_summary := PyStr.join (nl +:+ nl) summaries in
    if Nat.ltb max_chunk_size (String.length combined_summary) then
      chat combine_system combined_summary
    else ret combined_summary
  else chat summarize_system content.

(** [AdvancedResearchTools.summarize_text] *)
Definition summarize_text (content : string) : M string :=
  try_except (summarize_body content)
    (fun e => ret ("Summarization failed: " +:+ str e
                   +:+ ". Original content (truncated): "
                   +:+ PyStr.take 1000 content +:+ "...")).

(** The body of [scrape_basic]'s [try] block. *)
Definition scrape_body (url : string) : M string :=
  response <--
    (if PyStr.truthy_opt (browserless_api_key config) then
       let token := PyStr.fmt_opt (browserless_api_key config) in
       perform (CBrowserlessPost token url)
         (fun log => requests_post_browserless w log token url)
     else
       perform (CHttpGet url) (fun log => requests_get w log url)) ;;
  if Z.eqb (status_code response) 200 then
    text <-- lift (soup_get_text w (content response)) ;;
    if Nat.ltb 8000 (String.length text) then summarize_text text
    else ret text
  else ret ("Error: HTTP " +:+ pretty (status_code response)).

(** [AdvancedResearchTools.scrape_basic] *)
Definition scrape_basic (url : string) : M string :=
  try_except (scrape_body url)
    (fun e => ret ("Scraping failed: " +:+ str e)).

(** The condition guarding the scrape of a search result:
    [any(keyword in title.lower() or keyword in snippet.lower()
         for keyword in query.lower().split())]. *)
Definition promising (query title snippet : string) : bool :=
  existsb (fun keyword =>
             PyStr.contains keyword (str_lower w title)
             || PyStr.contains keyword (str_lower w snippet))
          (PyStr.split (str_isspace w) (str_lower w query)).

(** The condition under which scraped content enters the report. *)
Definition usable (scraped_content : string) : bool :=
  PyStr.truthy scraped_content
  && negb (PyStr.startswith scraped_content "Error")
  && negb (PyStr.startswith scraped_content "Scraping failed").

(** The three lines every processed search result contributes. *)
Definition result_lines (i : nat) (title snippet link : string) : list string :=
  [ "### " +:+ pretty (i + 1)%nat +:+ ". " +:+ title;
    "**Source:** " +:+ link;
    "**Summary:** " +:+ snippet +:+ nl ].

(** One iteration of the loop over the search results. *)
Definition process_result (query : string) (research_data : list string)
    (i : nat) (result : organic_result) : M (list string) :=
  let title := default "No title" (o_title result) in
  let snippet := default "No description" (o_snippet result) in
  let link := default "" (o_link result) in
  let research_data := research_data ++ result_lines i title snippet link in
  if promising query title snippet then
    scraped_content <-- scrape_basic link ;;
    if usable scraped_content then
      ret (research_data
           ++ ["**Additional Content:** " +:+ PyStr.take 500 scraped_content
               +:+ "..." +:+ nl])
    else ret research_data
  else ret research_data.

(** [for i, result in enumerate(results): ...], [i] counting from [start]. *)
Fixpoint process_results (query : string) (research_data : list string)
    (start : nat) (results : list organic_result) : M (list string) :=
  match results with
  | [] => ret research_data
  | result :: rest =>
      research_data <-- process_result query research_data start result ;;
      process_results query research_data (S start) rest
  end.

(** The lines of the related searches section. *)
Definition related_lines (related : list related_search) : list string :=
  ("## Related Research Areas" +:+ nl)
  :: List.map (fun r => "- " +:+ default "" (r_query r)) related.

(** What [advanced_research] does once the search has answered without
    an error: assemble the report, save it, return it. *)
Definition report_body (query : string) (search_results : search_results)
  : M string :=
  generated <-- now "%Y-%m-%d %H:%M:%S" ;;
  let research_data :=
    [ "# Research Report: " +:+ query +:+ nl;
      "Generated on: " +:+ generated +:+ nl ] in
  research_data <--
    match sr_organic search_results with
    | Some organic =>
        process_results query
          (research_data ++ ["## Key Findings" +:+ nl])
          0 (List.firstn 5 organic)
    | None => ret research_data
    end ;;
  let research_data :=
    match sr_related search_results with
    | Some related => research_data ++ related_lines related
    | None => research_data
    end in
  let research_content := PyStr.join nl research_data in
  timestamp <-- now "%Y%m%d_%H%M%S" ;;
  let filename :=
    path_join (research_dir config) ("research_" +:+ timestamp +:+ ".md") in
  _ <-- perform (CFileWrite filename research_content)
          (fun log => file_write w log filename research_content) ;;
  ret research_content.

(** [AdvancedResearchTools.advanced_research] *)
Definition advanced_research (query : string) : M string :=
  search_results <-- search query ;;
  match sr_error search_results with
  | Some err => ret ("Research failed: " +:+ err)
  | None => report_body query search_results
  end.

(** [safe_prompt] of [generate_image]. *)
Definition safe_prompt (prompt : string) : string :=
  PyStr.rstrip (str_isspace w)
    (PyStr.filter
       (fun c => str_isalnum w c
                 || Ascii.eqb c " " || Ascii.eqb c "-" || Ascii.eqb c "_")
       (PyStr.take 30 prompt)).

(** The path under which [generate_image] saves the download. *)
Definition image_filename (prompt current_time : string) : string :=
  path_join (images_dir config)
    (safe_prompt prompt +:+ "_" +:+ current_time +:+ ".png").

(** The body of [generate_image]'s [try] block. *)
Definition generate_image_body (prompt : string) : M string :=
  if negb (replicate_available w) then
    ret "Image generation unavailable: replicate package not installed. Install with: pip install replicate"
  else if negb (PyStr.truthy_opt (replicate_api_token config)) then
    ret "Image generation unavailable: REPLICATE_API_TOKEN not set"
  else
    output <-- perform (CReplicateRun sdxl_model prompt)
                 (fun log => replicate_run w log sdxl_model prompt) ;;
    match output with
    | image_url :: _ =>
        current_time <-- now "%Y%m%d%H%M%S" ;;
        let filename := image_filename prompt current_time in
        response <-- perform (CHttpGet image_url)
                       (fun log => requests_get w log image_url) ;;
        if Z.eqb (status_code response) 200 then
          _ <-- perform (CFileWrite filename (content response))
                  (fun log => file_write w log filename (content response)) ;;
          ret ("Image generated and saved: " +:+ filename)
        else ret ("Image generated but download failed: " +:+ image_url)
    | [] => ret "Image generation failed"
    end.

(** [VisualContentTools.generate_image] *)
Definition generate_image (prompt : string) : M string :=
  try_except (generate_image_body prompt)
    (fun e => ret ("Image generation error: " +:+ str e)).

(** The prompt sent to the critique model. *)
Definition critique_prompt (original_prompt : string) : string :=
  "Analyze this image and rate how well it matches this prompt: '"
  +:+ original_prompt
  +:+ "'. Rate from 1-10 and explain how to improve it.".

(** The body of [critique_image]'s [try] block. *)
Definition critique_image_body (image_path original_prompt : string) : M string :=
  if negb (replicate_available w) then
    ret "Image critique unavailable: replicate package not installed. Install with: pip install replicate"
  else if negb (PyStr.truthy_opt (replicate_api_token config)) then
    ret "Image critique unavailable: REPLICATE_API_TOKEN not set"
  else
    present <-- perform (CPathExists image_path)
                  (fun log => Return (path_exists w log image_path)) ;;
    if negb present then ret ("Image file not found: " +:+ image_path)
    else
      _ <-- perform (CFileOpenRead image_path)
              (fun log => file_open_read w log image_path) ;;
      output <-- perform (CReplicateRun llava_model (critique_prompt original_prompt))
                   (fun log => replicate_run w log llava_model
                                 (critique_prompt original_prompt)) ;;
      ret (fold_left (fun result item => result +:+ item) output "").

(** [VisualContentTools.critique_image] *)
Definition critique_image (image_path original_prompt : string) : M string :=
  try_except (critique_image_body image_path original_prompt)
    (fun e => ret ("Image critique error: " +:+ str e)).

End WithWorld.

End Tools.

(* ===================================================================== *)
(** ** The process: terminal, directories, start-up *)
(* ===================================================================== *)

Module Terminal.
Import Py Config.

(** What the process does not decide itself.  Each oracle is given what
    the process has done so far, so that it may fail at any moment. *)
Record Host := {
  (** writing to [sys.stdout], behind [print] and behind the prompt of
      [input], given the lines written before: a stream that cannot encode
      the text or is closed raises *)
  write : list string -> string -> result unit;
  (** [Path.mkdir(exist_ok=True)], given the directories made before *)
  mkdir : list string -> string -> result unit;
  (** what [AgentcyCore.__init__] constructs once validation has passed:
      the two tool objects and, in [setup_agents], the agents, the group
      chat and the manager of the agent framework *)
  construct : AgentcyConfig -> result unit
}.

(** The state of the process: the lines still to be typed, what was
    written, the directories made, and the messages [initiate_chat] was
    called with. *)
Record console := {
  stdin : list string;
  stdout : list string;
  dirs : list string;
  chats : list string
}.

Definition IO (A : Type) : Type := console -> result A * console.

Definition ret {A} (a : A) : IO A := fun c => (Return a, c).

Definition raise {A} (e : exn) : IO A := fun c => (Raise e, c).

Definition bind {A B} (m : IO A) (k : A -> IO B) : IO B :=
  fun c =>
    match m c with
    | (Return a, c') => k a c'
    | (Raise e, c') => (Raise e, c')
    end.

Declare Scope io_scope.
Delimit Scope io_scope with io.
Notation "x <~ m ;; k" := (bind m (fun x => k))
  (at level 100, m at next level, right associativity) : io_scope.
Local Open Scope io_scope.

(** [print(s)]: the line is on the terminal only if the write succeeds. *)
Definition print (h : Host) (s : string) : IO unit :=
  fun c =>
    match write h (stdout c) s with
    | Return _ =>
        (Return tt,
         {| stdin := stdin c; stdout := stdout c ++ [s];
            dirs := dirs c; chats := chats c |})
    | Raise e => (Raise e, c)
    end.

(** [input(prompt)]: the prompt is written, then a line is read; at the
    end of the input [EOFError] is raised. *)
Definition input (h : Host) (prompt : string) : IO string :=
  _ <~ print h prompt ;;
  fun c =>
    match stdin c with
    | line :: rest =>
        (Return line,
         {| stdin := rest; stdout := stdout c;
            dirs := dirs c; chats := chats c |})
    | [] => (Raise (Exn OtherException "EOF when reading a line"), c)
    end.

(** [dir_path.mkdir(exist_ok=True)] *)
Definition make_dir (h : Host) (dir_path : string) : IO unit :=
  fun c =>
    match mkdir h (dirs c) dir_path with
    | Return _ =>
        (Return tt,
         {| stdin := stdin c; stdout := stdout c;
            dirs := dirs c ++ [dir_path]; chats := chats c |})
    | Raise e => (Raise e, c)
    end.

(** [try: m  except Exception as e: handler(e)] *)
Definition try_except {A} (m : IO A) (handler : exn -> IO A) : IO A :=
  fun c =>
    match m c with
    | (Return a, c') => (Return a, c')
    | (Raise e, c') => handler e c'
    end.

End Terminal.

(* ===================================================================== *)
(** ** The user proxy and [AgentcyCore] *)
(* ===================================================================== *)

Module Chat.
Import Py Config.

(** A chat message as the agents exchange it: a dictionary. *)
Abbreviation message := (gmap string pyval).

(** The user proxy's
    [is_termination_msg = lambda msg: "TERMINATE" in msg.get("content", "")].
    A [None] content makes [in] raise [TypeError]. *)
Definition is_termination_msg (msg : message) : result bool :=
  match default (PStr "") (msg !! "content") with
  | PStr content => Return (PyStr.contains "TERMINATE" content)
  | PNone => Raise (Exn TypeError "argument of type 'NoneType' is not iterable")
  end.

(** The methods the user proxy's [function_map] refers to. *)
Inductive tool := advanced_research | generate_image | critique_image.

(** [function_map] of the user proxy. *)
Definition function_map : gmap string tool :=
  {[ "research" := advanced_research;
     "generate_image" := generate_image;
     "critique_image" := critique_image ]}.

(** An agent of the group chat: an [AssistantAgent], or the
    [UserProxyAgent], which alone carries a function map. *)
Record agent := {
  agent_name : string;
  description : string;
  is_user_proxy : bool;
  agent_function_map : gmap string tool
}.

Definition assistant (name description : string) : agent :=
  {| agent_name := name; description := description;
     is_user_proxy := false; agent_function_map := ∅ |}.

Definition user_proxy : agent :=
  {| agent_name := "User_Proxy";
     description := "Represents the client and manages human interaction";
     is_user_proxy := true;
     agent_function_map := function_map |}.

Definition agency_manager : agent :=
  assistant "Agency_Manager"
    "Coordinates all agency activities and ensures project alignment".

(** [self.agents], in the order [setup_agents] lists them. *)
Definition agents : list agent :=
  [ user_proxy;
    agency_manager;
    assistant "Agency_Researcher"
      "Conducts comprehensive market research and competitive analysis";
    assistant "Agency_Strategist"
      "Develops strategic frameworks and positioning strategies";
    assistant "Agency_Copywriter"
      "Creates compelling copy using proven persuasion principles";
    assistant "Agency_Visual_Director"
      "Develops visual concepts and creates image content";
    assistant "Agency_Marketer"
      "Develops marketing campaigns and customer journey strategies";
    assistant "Agency_Media_Planner"
      "Optimizes media mix and channel strategies";
    assistant "Agency_Director"
      "Provides creative leadership and ensures excellence" ].

(** [GroupChat(agents=..., messages=[], max_round=25)] *)
Record GroupChat := {
  gc_agents : list agent;
  gc_messages : list message;
  max_round : nat
}.

Record AgentcyCore := {
  config : AgentcyConfig;
  group_chat : GroupChat
}.

(** [AgentcyCore.setup_agents], as far as the group chat goes. *)
Definition setup_agents : GroupChat :=
  {| gc_agents := agents; gc_messages := []; max_round := 25 |}.

(** [AgentcyConfig.__init__]: the keys are read from the environment and
    the four output directories are made, in this order, before anything
    is validated.  The [try] around [config_list_from_json] has a bare
    [except], so that call never raises out of the constructor. *)
Definition AgentcyConfig_new (h : Terminal.Host)
    (environ : gmap string string) : Terminal.IO AgentcyConfig :=
  let config := AgentcyConfig_init environ in
  Terminal.bind (Terminal.make_dir h (output_dir config)) (fun _ =>
  Terminal.bind (Terminal.make_dir h (research_dir config)) (fun _ =>
  Terminal.bind (Terminal.make_dir h (content_dir config)) (fun _ =>
  Terminal.bind (Terminal.make_dir h (images_dir config)) (fun _ =>
  Terminal.ret config)))).

(** The line [validate] prints when a required key is missing. *)
Definition missing_keys_message : string :=
  "Missing required API keys. Please set: "
  +:+ PyStr.join ", " ["OPENAI_API_KEY"; "SERPER_API_KEY"].

(** [AgentcyConfig.validate], with the line it prints. *)
Definition validate_io (h : Terminal.Host) (c : AgentcyConfig)
  : Terminal.IO bool :=
  match missing_keys c with
  | [] => Terminal.ret true
  | _ :: _ =>
      Terminal.bind (Terminal.print h missing_keys_message)
        (fun _ => Terminal.ret false)
  end.

(** [AgentcyCore.__init__]: the configuration is constructed, directories
    included, then validated; only after that are the tools and the group
    chat built. *)
Definition AgentcyCore_init (h : Terminal.Host)
    (environ : gmap string string) : Terminal.IO AgentcyCore :=
  Terminal.bind (AgentcyConfig_new h environ) (fun config =>
  Terminal.bind (validate_io h config) (fun valid =>
  if negb valid then Terminal.raise configuration_error
  else
    Terminal.bind (fun c => (Terminal.construct h config, c)) (fun _ =>
    Terminal.ret {| config := config; group_chat := setup_agents |}))).

End Chat.

(* ===================================================================== *)
(** ** The orchestration core of the design document *)
(* ===================================================================== *)

(** [agentcy.py] hands the round loop to the group chat of the agent
    framework it imports ([GroupChat], [GroupChatManager],
    [initiate_chat]); that loop is not part of the repository.  This module
    is the Orchestrator of the design document, sections 3 and 4; the
    termination predicate and the capability names are the ones of
    [agentcy.py]. *)
Module Orchestrator.
Import Py.

(** Modelled from the spec: the two participant variants (section 2). *)
Inductive Kind := LLM | Proxy.

(** Modelled from the spec: [Participant] of the data model (section 3);
    the orchestrator loop that consumes it is absent. *)
Record Participant := {
  name : string;
  role_description : string;
  kind : Kind;
  capabilities : gset string
}.

(** Modelled from the spec: a tool-call request carried by a message. *)
Record ToolCall := {
  tool_name : string;
  arguments : gmap string string
}.

(** Modelled from the spec: [ToolCallResult] (section 3). *)
Record ToolCallResult := { ok : bool; payload : string }.

(** Modelled from the spec: [Message] (section 3). *)
Record Message := {
  sender : string;
  content : string;
  tool_call : option ToolCall;
  tool_result : option ToolCallResult
}.

(** Modelled from the spec: [Conversation] (section 3). *)
Record Conversation := {
  messages : list Message;
  round_count : nat;
  max_rounds : nat
}.

(** Modelled from the spec: what a participant answers, plain text or text
    with a tool-call request (LLM completion interface, section 6). *)
Inductive Reply :=
| Plain (text : string)
| Request (text : string) (tc : ToolCall).

(** Modelled from the spec: the states of the speaker-selection state
    machine, INITIAL, ROUND(n) and TERMINAL (section 4.2); [n] is the
    conversation's [round_count]. *)
Inductive Phase := INITIAL | ROUND | TERMINAL.

(** Modelled from the spec: a [Message] in the dictionary form the
    termination predicate of [agentcy.py] reads; the framework code that
    builds these dictionaries is absent. *)
Definition as_dict (m : Message) : gmap string pyval :=
  {[ "content" := PStr (content m); "name" := PStr (sender m) ]}.

(** Modelled from the spec: the sentinel test on the latest appended
    message (termination policy (i)), decided by the user proxy's
    [is_termination_msg]. *)
Definition sentinel_seen (history : list Message) : bool :=
  match last history with
  | Some m =>
      match Chat.is_termination_msg (as_dict m) with
      | Return b => b
      | Raise _ => false
      end
  | None => false
  end.

(** Modelled from the spec: the error payload for an unregistered tool
    name (sections 4.3 and 7). *)
Definition unknown_capability (tool : string) : ToolCallResult :=
  {| ok := false; payload := "UnknownCapability: " +:+ tool |}.

Section Session.

(** The participant registry, in registration order, and the proxy. *)
Variable participants : list Participant.
Variable proxy : Participant.
(** The manager's proposal for the next speaker (the injectable chooser). *)
Variable chooser : list Message -> string.
(** The completion interface: attempt [k] on a history, [None] on failure. *)
Variable complete : Participant -> list Message -> nat -> option Reply.
(** How often a failed completion is retried. *)
Variable llm_retries : nat.
(** The capability interface of section 6. *)
Variable capability : string -> gmap string string -> ToolCallResult.
(** Termination policy (iii): the human declines to continue. *)
Variable human_declines : list Message -> bool.

(** Modelled from the spec: resolving a proposed name in the registry. *)
Definition resolve (proposed : string) : option Participant :=
  List.find (fun p => String.eqb (name p) proposed) participants.

(** Modelled from the spec: the previous speaker is the sender of the
    latest message. *)
Definition previous_speaker (history : list Message) : option string :=
  sender <$> last history.

(** Modelled from the spec: position of a name in the registry. *)
Fixpoint position (who : string) (ps : list Participant) : option nat :=
  match ps with
  | [] => None
  | p :: rest =>
      if String.eqb (name p) who then Some 0%nat
      else S <$> position who rest
  end.

(** Modelled from the spec: the deterministic fallback of section 4.1(a),
    round-robin after the previous speaker; the first registered
    participant when there is no previous speaker in the registry. *)
Definition fallback_speaker (history : list Message) : Participant :=
  match previous_speaker history ≫= (fun who => position who participants) with
  | Some i => nth (S i mod List.length participants) participants proxy
  | None => hd proxy participants
  end.

(** Modelled from the spec: speaker selection, section 4.1(a). *)
Definition select_speaker (history : list Message) : Participant :=
  match resolve (chooser history) with
  | Some p => p
  | None => fallback_speaker history
  end.

(** Modelled from the spec: a failed completion is retried with the same
    inputs, a bounded number of times (section 4.1, failure semantics). *)
Fixpoint attempt (budget k : nat) (p : Participant) (history : list Message)
  : option Reply :=
  match budget with
  | O => None
  | S budget' =>
      match complete p history k with
      | Some r => Some r
      | None => attempt budget' (S k) p history
      end
  end.

(** Modelled from the spec: invoking the selected participant with the
    full history, section 4.1(b), retries included. *)
Definition invoke_participant (p : Participant) (history : list Message)
  : option Reply :=
  attempt (S llm_retries) 0 p history.

(** Modelled from the spec: [ToolInvoker.invoke] (section 4.3): the name is
    validated against the proxy's declared capability set. *)
Definition invoke (tc : ToolCall) : ToolCallResult :=
  if bool_decide (tool_name tc ∈ capabilities proxy)
  then capability (tool_name tc) (arguments tc)
  else unknown_capability (tool_name tc).

(** Modelled from the spec: the messages one round appends, section
    4.1(b)-(c). *)
Definition round_messages (history : list Message) : list Message :=
  let speaker := select_speaker history in
  match invoke_participant speaker history with
  | Some (Plain text) =>
      [ {| sender := name speaker; content := text;
           tool_call := None; tool_result := None |} ]
  | Some (Request text tc) =>
      let r := invoke tc in
      [ {| sender := name speaker; content := text;
           tool_call := Some tc; tool_result := None |};
        {| sender := name proxy; content := payload r;
           tool_call := None; tool_result := Some r |} ]
  | None =>
      [ {| sender := "system";
           content := "UpstreamFailure: " +:+ name speaker +:+ " did not respond";
           tool_call := None; tool_result := None |} ]
  end.

(** Modelled from the spec: one round, section 4.1(a)-(d). *)
Definition round (c : Conversation) : Conversation :=
  {| messages := messages c ++ round_messages (messages c);
     round_count := S (round_count c);
     max_rounds := max_rounds c |}.

(** Modelled from the spec: the termination policy of section 4.1. *)
Definition terminated (c : Conversation) : bool :=
  sentinel_seen (messages c)
  || (max_rounds c <=? round_count c)%nat
  || human_declines (messages c).

(** Modelled from the spec: one transition of the round loop; termination
    is evaluated at the end of the round (section 4.1(e)), and TERMINAL has
    no successor. *)
Definition next (s : Phase * Conversation) : option (Phase * Conversation) :=
  match s.1 with
  | TERMINAL => None
  | INITIAL | ROUND =>
      let c := round s.2 in
      Some (if terminated c then TERMINAL else ROUND, c)
  end.

(** Modelled from the spec: the round loop, at most [fuel] rounds. *)
Fixpoint run (fuel : nat) (s : Phase * Conversation) : Phase * Conversation :=
  match fuel with
  | O => s
  | S fuel' =>
      match next s with
      | Some s' => run fuel' s'
      | None => s
      end
  end.

(** Modelled from the spec: the conversation [start] begins with, holding
    the initial message authored by the proxy. *)
Definition opening (initial_message : string) (max_rounds : nat) : Conversation :=
  {| messages := [ {| sender := name proxy; content := initial_message;
                      tool_call := None; tool_result := None |} ];
     round_count := 0;
     max_rounds := max_rounds |}.

(** Modelled from the spec: [start] (section 4.1); [max_rounds] rounds of
    fuel always reach TERMINAL. *)
Definition start (initial_message : string) (max_rounds : nat)
  : Phase * Conversation :=
  run max_rounds (INITIAL, opening initial_message max_rounds).

(** Modelled from the spec: the states the round loop passes through,
    INITIAL, ROUND(1), ROUND(2), ... up to TERMINAL. *)
Definition reachable (s0 s : Phase * Conversation) : Prop :=
  rtc (fun a b => next a = Some b) s0 s.

End Session.

End Orchestrator.

(* ===================================================================== *)
(** ** [run_creative_session] *)
(* ===================================================================== *)

Module Session.
Import Py Orchestrator.

(** The f-string [project_brief], line by line. *)
Definition project_brief (brand_name project_objective : string) : string :=
  PyStr.join Tools.nl
    [ "";
      "        CREATIVE PROJECT BRIEF";
      "        ";
      "        Brand: " +:+ brand_name;
      "        Objective: " +:+ project_objective;
      "        ";
      "        Project Requirements:";
      "        1. Conduct comprehensive research on the market, competitors, and target audience";
      "        2. Develop strategic positioning and messaging framework";
      "        3. Create compelling copy and content";
      "        4. Generate supporting visual concepts and imagery";
      "        5. Design comprehensive marketing and media strategy";
      "        6. Ensure all deliverables align with creative excellence standards";
      "        ";
      "        Expected Deliverables:";
      "        - Research report with market insights";
      "        - Strategic brief with positioning and messaging";
      "        - Creative copy and content recommendations  ";
      "        - Visual concepts and generated imagery";
      "        - Marketing campaign strategy";
      "        - Media planning and channel recommendations";
      "        - Final creative direction and implementation guide";
      "        ";
      "        Please coordinate as a team to deliver a comprehensive creative solution.";
      "        " ].

(** Modelled from the spec: an agent of [agentcy.py] as a [Participant];
    the user proxy is the proxy and declares the names of its function
    map. *)
Definition participant_of (a : Chat.agent) : Participant :=
  {| name := Chat.agent_name a;
     role_description := Chat.description a;
     kind := if Chat.is_user_proxy a then Proxy else LLM;
     capabilities := dom (Chat.agent_function_map a) |}.

Definition registry : list Participant := participant_of <$> Chat.agents.

Definition proxy : Participant := participant_of Chat.user_proxy.

(** [AgentcyCore.run_creative_session]: the user proxy opens the chat
    with the project brief; the group chat allows [max_round] rounds.
    Modelled from the spec: [initiate_chat] belongs to the framework and
    is rendered by [start]; the manager's choices, the completions, the
    capabilities and the human are the session's environment. *)
Definition run_creative_session
    (core : Chat.AgentcyCore)
    (chooser : list Message -> string)
    (complete : Participant -> list Message -> nat -> option Reply)
    (llm_retries : nat)
    (capability : string -> gmap string string -> ToolCallResult)
    (human_declines : list Message -> bool)
    (brand_name project_objective : string) : Phase * Conversation :=
  start (participant_of <$> Chat.gc_agents (Chat.group_chat core)) proxy
        chooser complete llm_retries capability human_declines
        (project_brief brand_name project_objective)
        (Chat.max_round (Chat.group_chat core)).

End Session.


(* ===================================================================== *)
(** ** Predicates used in the statements *)
(* ===================================================================== *)

Module Props.
Import Py Orchestrator.

(** The substring the termination predicate looks for. *)
Definition has_sentinel (s : string) : Prop :=
  exists pre post, s = pre +:+ "TERMINATE" +:+ post.

(** The content of the latest appended message. *)
Definition latest_content (c : Conversation) : string :=
  default "" (content <$> last (messages c)).

(** The invariant of the round loop for a session allowed [limit] rounds:
    the phase records whether termination was detected. *)
Definition loop_invariant (human_declines : list Message -> bool)
    (limit : nat) (s : Phase * Conversation) : Prop :=
  max_rounds s.2 = limit
  /\ (round_count s.2 <= limit)%nat
  /\ (round_count s.2 < List.length (messages s.2))%nat
  /\ match s.1 with
     | INITIAL => round_count s.2 = 0%nat
     | ROUND => terminated human_declines s.2 = false
     | TERMINAL => terminated human_declines s.2 = true
     end.

(** A required key is absent when the environment does not define it or
    defines it as the empty string: both are falsy for [validate]. *)
Definition key_absent (environ : gmap string string) (key : string) : Prop :=
  environ !! key = None \/ environ !! key = Some "".

(** Both required keys are there. *)
Definition keys_present (environ : gmap string string) : Prop :=
  ~ (key_absent environ "OPENAI_API_KEY" \/ key_absent environ "SERPER_API_KEY").

(** The terminal takes every line. *)
Definition writable (h : Terminal.Host) : Prop :=
  forall written s, Terminal.write h written s = Return tt.

(** Every directory can be made. *)
Definition dirs_creatable (h : Terminal.Host) : Prop :=
  forall made dir_path, Terminal.mkdir h made dir_path = Return tt.


End Props.

(** Predicates on the log of external calls. *)
Module LogProps.
Import Py Config Effects.

Definition is_replicate_run (c : call) : bool :=
  match c with CReplicateRun _ _ => true | _ => false end.

Definition is_serper_post (c : call) : bool :=
  match c with CSerperPost _ => true | _ => false end.

Definition is_file_write (c : call) : bool :=
  match c with CFileWrite _ _ => true | _ => false end.

(** The page request of [scrape_basic], through Browserless or direct. *)
Definition is_page_request (c : call) : bool :=
  match c with CBrowserlessPost _ _ | CHttpGet _ => true | _ => false end.

(** The URL a page request asks for. *)
Definition requested_url (c : call) : option string :=
  match c with
  | CBrowserlessPost _ url | CHttpGet url => Some url
  | _ => None
  end.

(** [how_many p calls]: the number of calls of kind [p]. *)
Definition how_many (p : call -> bool) (calls : list call) : nat :=
  List.length (List.filter p calls).

(** A computation only ever appends to the log, and what it appends
    satisfies [P]. *)
Definition only_adds {A} (P : call -> Prop) (m : M A) : Prop :=
  forall log, exists new, snd (m log) = log ++ new /\ Forall P new.

(** A computation only ever appends to the log, and at most [n] calls of
    kind [p]. *)
Definition adds_at_most {A} (p : call -> bool) (n : nat) (m : M A) : Prop :=
  forall log, exists new,
    snd (m log) = log ++ new /\ (how_many p new <= n)%nat.

(** What the page request of [scrape_basic] answers at [log]. *)
Definition page_request (w : World) (config : AgentcyConfig) (url : string)
    (log : list call) : call * result response :=
  if PyStr.truthy_opt (browserless_api_key config) then
    let token := PyStr.fmt_opt (browserless_api_key config) in
    (CBrowserlessPost token url, requests_post_browserless w log token url)
  else (CHttpGet url, requests_get w log url).

(** The characters [safe_prompt] lets through. *)
Definition safe_char (w : World) (c : ascii) : bool :=
  str_isalnum w c || Ascii.eqb c " " || Ascii.eqb c "-" || Ascii.eqb c "_".

(** A world whose search responses carry only the first five organic
    results. *)
Definition first_five (sr : search_results) : search_results :=
  {| sr_error := sr_error sr;
     sr_organic := List.firstn 5 <$> sr_organic sr;
     sr_related := sr_related sr |}.

Definition truncate_json (r : result search_results) : result search_results :=
  match r with
  | Return sr => Return (first_five sr)
  | Raise e => Raise e
  end.

Definition truncate_response (r : result response) : result response :=
  match r with
  | Return resp =>
      Return {| status_code := status_code resp;
                content := content resp;
                raise_for_status := raise_for_status resp;
                json := truncate_json (json resp) |}
  | Raise e => Raise e
  end.

Definition truncate_organic (w : World) : World :=
  {| replicate_available := replicate_available w;
     str_isalnum := str_isalnum w;
     str_isspace := str_isspace w;
     str_lower := str_lower w;
     requests_post_serper :=
       fun log query => truncate_response (requests_post_serper w log query);
     requests_post_browserless := requests_post_browserless w;
     requests_get := requests_get w;
     soup_get_text := soup_get_text w;
     openai_client := openai_client w;
     openai_chat := openai_chat w;
     replicate_run := replicate_run w;
     now_strftime := now_strftime w;
     file_write := file_write w;
     file_open_read := file_open_read w;
     path_exists := path_exists w |}.

(** A search result is scraped when the guard of the loop holds on its
    title and snippet, with the defaults of [dict.get]. *)
Definition scraped (w : World) (query : string) (r : organic_result) : bool :=
  Tools.promising w query
    (default "No title" (o_title r))
    (default "No description" (o_snippet r)).

(** The search results [advanced_research] walks through. *)
Definition processed (sr : search_results) : list organic_result :=
  List.firstn 5 (default [] (sr_organic sr)).

(** A call that, if it is a page request, asks for the link of one of
    [results] whose guard holds. *)
Definition asks_for_scraped (w : World) (query : string)
    (results : list organic_result) (c : call) : Prop :=
  is_page_request c = true ->
  exists r, r ∈ results /\ scraped w query r = true
            /\ requested_url c = Some (default "" (o_link r)).

(** The report line that carries scraped content. *)
Definition additional_content_line (scraped_content : string) : string :=
  "**Additional Content:** " +:+ PyStr.take 500 scraped_content
  +:+ "..." +:+ Tools.nl.

(** The lines one search result contributes, given what the scrape of its
    link returns. *)
Definition contributed (w : World) (query : string) (i : nat)
    (r : organic_result) (scraped_content : string) : list string :=
  Tools.result_lines i (default "No title" (o_title r))
    (default "No description" (o_snippet r)) (default "" (o_link r))
  ++ (if scraped w query r && Tools.usable scraped_content
      then [additional_content_line scraped_content] else []).

End LogProps.

(* ===================================================================== *)
(** ** Scripted sessions *)
(* ===================================================================== *)

(** Stubs in the manner of the design document's tests: a scripted
    completion interface, a manager that names nobody, capabilities that
    answer at once. *)
Module Scripted.
Import Py Orchestrator.

(** A manager whose answer never resolves: selection falls back. *)
Definition silent_chooser (history : list Message) : string := "".


(** The stub that says the sentinel on round 3: the opening holds one
    message and every round of this script appends one, so round 3 sees
    three. *)
Definition terminate_on_round_3 (p : Participant) (history : list Message)
    (k : nat) : option Reply :=
  Some (Plain (if Nat.eqb (List.length history) 3
               then "All objectives completed. TERMINATE"
               else "Work in progress")).

Definition unknown_request : ToolCall :=
  {| tool_name := "browse_web";
     arguments := {[ "url" := "http://example.org" ]} |}.

(** A stub that asks for a tool nobody registered. *)
Definition asks_unknown_tool (p : Participant) (history : list Message)
    (k : nat) : option Reply :=
  Some (Request "Let me look that up" unknown_request).

Definition instant_capability (tool : string) (arguments : gmap string string)
  : ToolCallResult :=
  {| ok := true; payload := "done: " +:+ tool |}.

Definition patient_human (history : list Message) : bool := false.

End Scripted.

(* ===================================================================== *)
(** ** Example worlds *)
(* ===================================================================== *)

Module Worlds.
Import Py Config Effects.

(** Character tables of the ASCII range. *)
Definition ascii_isalnum (c : ascii) : bool :=
  let n := nat_of_ascii c in
  (Nat.leb 48 n && Nat.leb n 57)
  || (Nat.leb 65 n && Nat.leb n 90)
  || (Nat.leb 97 n && Nat.leb n 122).

Definition ascii_isspace (c : ascii) : bool :=
  let n := nat_of_ascii c in
  Nat.eqb n 32 || (Nat.leb 9 n && Nat.leb n 13) || (Nat.leb 28 n && Nat.leb n 31).

Definition ascii_lower_char (c : ascii) : ascii :=
  let n := nat_of_ascii c in
  if Nat.leb 65 n && Nat.leb n 90 then ascii_of_nat (n + 32) else c.

Fixpoint ascii_lower (s : string) : string :=
  match s with
  | EmptyString => EmptyString
  | String a s' => String (ascii_lower_char a) (ascii_lower s')
  end.

(** A configuration with every key set. *)
Definition full_config : AgentcyConfig :=
  AgentcyConfig_init
    {[ "OPENAI_API_KEY" := "sk-test"; "SERPER_API_KEY" := "serper-test";
       "REPLICATE_API_TOKEN" := "r8-test" ]}.

Definition coffee_results : search_results :=
  {| sr_error := None;
     sr_organic :=
       Some [ {| o_title := Some "Coffee market report";
                 o_snippet := Some "Trends for roasters";
                 o_link := Some "http://example.org/coffee" |};
              {| o_title := Some "Tea market";
                 o_snippet := Some "Leaves and cups";
                 o_link := Some "http://example.org/tea" |} ];
     sr_related := None |}.

Definition page (status : Z) (body : string) : response :=
  {| status_code := status; content := body;
     raise_for_status := None; json := Raise (Exn ValueError "not JSON") |}.

Definition search_page : response :=
  {| status_code := 200; content := "";
     raise_for_status := None; json := Return coffee_results |}.

(** A world in which the network answers and everything else works,
    except what the three parameters decide: the page server's status, the
    image model and the file system. *)
Definition world (status : Z)
    (run_model : result (list string)) (write : result unit) : World :=
  {| replicate_available := true;
     str_isalnum := ascii_isalnum;
     str_isspace := ascii_isspace;
     str_lower := ascii_lower;
     requests_post_serper := fun _ _ => Return search_page;
     requests_post_browserless := fun _ _ _ => Return (page status "<p>Error</p>");
     requests_get := fun _ _ => Return (page status "<p>Roasters grow</p>");
     soup_get_text := fun html => Return html;
     openai_client := fun _ => Return tt;
     openai_chat := fun _ _ _ => Return "summary";
     replicate_run := fun _ _ _ => run_model;
     now_strftime := fun _ _ => "20240101120000";
     file_write := fun _ _ _ => write;
     file_open_read := fun _ _ => Return tt;
     path_exists := fun _ _ => true |}.

Definition one_image : result (list string) :=
  Return ["http://example.org/image.png"].

(** Everything works. *)
Definition calm : World := world 200 one_image (Return tt).

(** The output directory cannot be written. *)
Definition read_only : World :=
  world 200 one_image (Raise (Exn OSError "[Errno 30] Read-only file system")).

(** The image model is down. *)
Definition model_down : World :=
  world 200 (Raise (Exn OtherException "model unavailable")) (Return tt).

(** Pages answer 404. *)
Definition pages_missing : World := world 404 one_image (Return tt).

End Worlds.

(* ===================================================================== *)
(** ** The rest of the module: frameworks, function definitions, [main] *)
(* ===================================================================== *)

(** More of Python's [str]. *)
Module PyStrMore.

(** [s.lstrip()] *)
Fixpoint lstrip (isspace : ascii -> bool) (s : string) : string :=
  match s with
  | EmptyString => EmptyString
  | String a s' => if isspace a then lstrip isspace s' else s
  end.

(** [s.strip()] *)
Definition strip (isspace : ascii -> bool) (s : string) : string :=
  PyStr.rstrip isspace (lstrip isspace s).

(** ["".join(parts)] *)
Fixpoint concat (parts : list string) : string :=
  match parts with
  | [] => EmptyString
  | p :: rest => p +:+ concat rest
  end.

(** [c * n] for a one-character string [c]. *)
Fixpoint repeat_char (c : ascii) (n : nat) : string :=
  match n with
  | O => EmptyString
  | S n' => String c (repeat_char c n')
  end.

(** The last character of a string. *)
Fixpoint last_char (s : string) : option ascii :=
  match s with
  | EmptyString => None
  | String a EmptyString => Some a
  | String _ s' => last_char s'
  end.

End PyStrMore.

(** [MarketingFrameworks] *)
Module MarketingFrameworks.

Definition COPYWRITING_PRINCIPLES : list string :=
  [ "Reciprocity"; "Scarcity"; "Authority"; "Commitment";
    "Consistency"; "Consensus/Social Proof"; "Liking" ].

(** The dictionaries, as their items in insertion order. *)
Definition MARKETING_FRAMEWORKS : list (string * string) :=
  [ ("4Ps", "Product, Price, Place, Promotion");
    ("STP", "Segmentation, Targeting, Positioning");
    ("AIDA", "Attention, Interest, Desire, Action");
    ("Customer Journey",
     "Awareness, Consideration, Purchase, Retention, Advocacy");
    ("Marketing Funnel",
     "Awareness, Interest, Consideration, Intent, Evaluation, Purchase") ].

Definition MEDIA_FRAMEWORKS : list (string * string) :=
  [ ("RACE", "Reach, Act, Convert, Engage");
    ("STDC", "See, Think, Do, Care (Google Framework)");
    ("POEM", "Paid, Owned, Earned Media");
    ("OST", "Objectives, Strategy, Tactics") ].

(** [[f"{k}: {v}" for k, v in items]] *)
Definition render_items (items : list (string * string)) : list string :=
  List.map (fun kv => kv.1 +:+ ": " +:+ kv.2) items.

(** [get_copywriting_guidance] *)
Definition get_copywriting_guidance : string :=
  "Apply these persuasive principles: "
  +:+ PyStr.join ", " COPYWRITING_PRINCIPLES.

(** [get_marketing_guidance] *)
Definition get_marketing_guidance : string :=
  "Use appropriate marketing frameworks: "
  +:+ PyStr.join "; " (render_items MARKETING_FRAMEWORKS).

(** [get_media_guidance] *)
Definition get_media_guidance : string :=
  "Apply media planning frameworks: "
  +:+ PyStr.join "; " (render_items MEDIA_FRAMEWORKS).

End MarketingFrameworks.

(** [AgentcyCore._get_function_definitions] and the methods behind
    [function_map]. *)
Module Functions.

(** One entry of the list: its name, its description, the names of its
    properties (all of type string) and the required ones. *)
Record function_definition := {
  fd_name : string;
  fd_description : string;
  fd_properties : list string;
  fd_required : list string
}.

Definition _get_function_definitions : list function_definition :=
  [ {| fd_name := "research";
       fd_description :=
         "Conduct comprehensive research on a topic using web search and scraping";
       fd_properties := ["query"];
       fd_required := ["query"] |};
    {| fd_name := "generate_image";
       fd_description := "Generate visual content using AI image generation";
       fd_properties := ["prompt"];
       fd_required := ["prompt"] |};
    {| fd_name := "critique_image";
       fd_description := "Analyze and critique generated images";
       fd_properties := ["image_path"; "original_prompt"];
       fd_required := ["image_path"; "original_prompt"] |} ].

(** The parameters of the method a tool stands for, after [self]. *)
Definition parameters (t : Chat.tool) : list string :=
  match t with
  | Chat.advanced_research => ["query"]
  | Chat.generate_image => ["prompt"]
  | Chat.critique_image => ["image_path"; "original_prompt"]
  end.

(** The agents [setup_agents] builds with [llm_config_with_functions];
    the others get the plain [llm_config]. *)
Definition agents_with_functions : list string :=
  [ "Agency_Researcher"; "Agency_Strategist"; "Agency_Copywriter";
    "Agency_Visual_Director" ].

End Functions.

(** [run_creative_session] and [main] on the terminal. *)
Module Main.
Import Py Config Terminal.
Local Open Scope io_scope.

Section WithSession.

Variable h : Host.
(** [str.isspace] of the runtime, and what [initiate_chat] does with the
    opening message. *)
Variable isspace : ascii -> bool.
Variable initiate_chat : string -> result unit.

(** [self.user_proxy.initiate_chat(self.manager, message=project_brief)] *)
Definition chat (message : string) : IO unit :=
  fun c => (initiate_chat message,
            {| stdin := stdin c; stdout := stdout c; dirs := dirs c;
               chats := chats c ++ [message] |}).

(** [AgentcyCore.run_creative_session] *)
Definition run_creative_session (core : Chat.AgentcyCore)
    (brand_name project_objective : string) : IO bool :=
  _ <~ print h (Tools.nl +:+ "🎨 Starting Agentcy 2.0 Creative Session") ;;
  _ <~ print h ("📍 Brand: " +:+ brand_name) ;;
  _ <~ print h ("🎯 Objective: " +:+ project_objective) ;;
  _ <~ print h ("📁 Output Directory: " +:+ output_dir (Chat.config core)) ;;
  _ <~ print h (PyStrMore.repeat_char "=" 60) ;;
  _ <~ chat (Session.project_brief brand_name project_objective) ;;
  _ <~ print h (Tools.nl +:+ "✅ Creative session completed!") ;;
  _ <~ print h ("📁 All outputs saved to: " +:+ output_dir (Chat.config core)) ;;
  ret true.

(** The body of [main]'s [try] block. *)
Definition main_body (environ : gmap string string) : IO unit :=
  agentcy <~ Chat.AgentcyCore_init h environ ;;
  typed <~ input h (Tools.nl +:+ "📍 Enter the brand or company name: ") ;;
  let brand_name := PyStrMore.strip isspace typed in
  let brand_name := if PyStr.truthy brand_name then brand_name else "YourBrand" in
  typed <~ input h "🎯 Enter your goal, brief, or problem statement: " ;;
  let project_objective := PyStrMore.strip isspace typed in
  if negb (PyStr.truthy project_objective) then
    print h "❌ Project objective is required!"
  else
    _ <~ run_creative_session agentcy brand_name project_objective ;;
    ret tt.

(** [main]: the three banner lines are printed before the [try]; the
    handler is the [except Exception] clause and prints two lines itself.
    Every exception of the model is a subclass of [Exception]; a
    [KeyboardInterrupt] is not among them. *)
Definition main (environ : gmap string string) : IO unit :=
  _ <~ print h "🎨 Welcome to Agentcy 2.0 - Multi-Agent Creative Collaboration Platform" ;;
  _ <~ print h "Powered by AG2 with advanced research, strategy, and visual capabilities" ;;
  _ <~ print h (PyStrMore.repeat_char "-" 70) ;;
  try_except (main_body environ)
    (fun e =>
       _ <~ print h (Tools.nl +:+ "❌ Error: " +:+ str e) ;;
       print h "Please check your configuration and try again.").

End WithSession.

End Main.

(** More predicates on the log, and more worlds. *)
Module MoreProps.
Import Py Config Effects.

Definition is_chat (c : call) : bool :=
  match c with COpenAIChat _ _ => true | _ => false end.

(** A string of whitespace only (the empty string included). *)
Definition blank (isspace : ascii -> bool) (s : string) : bool :=
  PyStr.forallb isspace s.

(** The error dictionary [search] builds from an exception. *)
Definition search_error (e : exn) : search_results :=
  {| sr_error := Some ("Search failed: " +:+ str e);
     sr_organic := None;
     sr_related := None |}.

(** The brand [main] passes on for a typed line. *)
Definition brand_of (isspace : ascii -> bool) (typed : string) : string :=
  if blank isspace typed then "YourBrand" else PyStrMore.strip isspace typed.

(** The banner [main] prints first. *)
Definition banner : list string :=
  [ "🎨 Welcome to Agentcy 2.0 - Multi-Agent Creative Collaboration Platform";
    "Powered by AG2 with advanced research, strategy, and visual capabilities";
    PyStrMore.repeat_char "-" 70 ].

(** The two lines [main] prints for an exception it caught. *)
Definition report (e : exn) : list string :=
  [ Tools.nl +:+ "❌ Error: " +:+ str e;
    "Please check your configuration and try again." ].

(** The console after more lines were printed. *)
Definition printed (lines : list string) (c : Terminal.console)
  : Terminal.console :=
  {| Terminal.stdin := Terminal.stdin c;
     Terminal.stdout := Terminal.stdout c ++ lines;
     Terminal.dirs := Terminal.dirs c;
     Terminal.chats := Terminal.chats c |}.

(** A computation that reads at most [r] lines, in the order they were
    typed, starts at most [k] chats and only adds to what is written. *)
Definition bounded {A} (r k : nat) (m : Terminal.IO A) : Prop :=
  forall c,
    (exists read, Terminal.stdin c = read ++ Terminal.stdin (snd (m c))
                  /\ (List.length read <= r)%nat)
    /\ (exists started,
          Terminal.chats (snd (m c)) = Terminal.chats c ++ started
          /\ (List.length started <= k)%nat)
    /\ (exists shown, Terminal.stdout (snd (m c)) = Terminal.stdout c ++ shown).

(** A computation that raises only exceptions of one kind. *)
Definition raises_only {A} (Q : exn -> Prop) (m : Terminal.IO A) : Prop :=
  forall c e, fst (m c) = Raise e -> Q e.

(** An exception raised by a write to the terminal. *)
Definition write_error (h : Terminal.Host) (e : exn) : Prop :=
  exists written s, Terminal.write h written s = Raise e.

End MoreProps.

Module MoreWorlds.
Import Py Config Effects.

(** The network is down: every request times out. *)
Definition offline : World :=
  {| replicate_available := true;
     str_isalnum := Worlds.ascii_isalnum;
     str_isspace := Worlds.ascii_isspace;
     str_lower := Worlds.ascii_lower;
     requests_post_serper :=
       fun _ _ => Raise (Exn RequestException "Connection timed out");
     requests_post_browserless :=
       fun _ _ _ => Raise (Exn RequestException "Connection timed out");
     requests_get := fun _ _ => Raise (Exn RequestException "Connection timed out");
     soup_get_text := fun html => Return html;
     openai_client := fun _ => Return tt;
     openai_chat := fun _ _ _ => Raise (Exn OtherException "Connection error.");
     replicate_run := fun _ _ _ => Raise (Exn OtherException "Connection error.");
     now_strftime := fun _ _ => "20240101120000";
     file_write := fun _ _ _ => Return tt;
     file_open_read := fun _ _ => Return tt;
     path_exists := fun _ _ => false |}.

(** An environment with both required keys. *)
Definition complete_environ : gmap string string :=
  {[ "OPENAI_API_KEY" := "sk-test"; "SERPER_API_KEY" := "serper-test" ]}.

(** A terminal on which a brand and an objective are typed. *)
Definition typed_session : Terminal.console :=
  {| Terminal.stdin := ["  Acme  "; "Launch the new roast"];
     Terminal.stdout := [];
     Terminal.dirs := [];
     Terminal.chats := [] |}.

(** A chat that runs to its end. *)
Definition quiet_chat (message : string) : result unit := Return tt.

(** A host on which everything works. *)
Definition helpful : Terminal.Host :=
  {| Terminal.write := fun _ _ => Return tt;
     Terminal.mkdir := fun _ _ => Return tt;
     Terminal.construct := fun _ => Return tt |}.

(** The working directory cannot be written: no directory can be made. *)
Definition locked : Terminal.Host :=
  {| Terminal.write := fun _ _ => Return tt;
     Terminal.mkdir :=
       fun _ _ => Raise (Exn OSError "[Errno 30] Read-only file system: 'output'");
     Terminal.construct := fun _ => Return tt |}.

(** The terminal cannot encode what is printed. *)
Definition mute : Terminal.Host :=
  {| Terminal.write :=
       fun _ _ => Raise (Exn OtherException "'ascii' codec can't encode character");
     Terminal.mkdir := fun _ _ => Return tt;
     Terminal.construct := fun _ => Return tt |}.

(** The agent framework refuses to build its agents. *)
Definition no_agents : Terminal.Host :=
  {| Terminal.write := fun _ _ => Return tt;
     Terminal.mkdir := fun _ _ => Return tt;
     Terminal.construct :=
       fun _ => Raise (Exn OtherException "Docker is not running") |}.

End MoreWorlds.
(* ===================================================================== *)
(** ** Facts about the string functions *)
(* ===================================================================== *)

Module PyStrFacts.
Import PyStr.

Lemma startswith_spec (s p : string) :
  startswith s p = true <-> exists post, s = p +:+ post.
Proof.
  revert s; induction p as [|a p IH]; intros s; simpl.
  - split; [intros _; exists s; reflexivity | reflexivity].
  - destruct s as [|b s].
    + split; [discriminate | intros [post H]; discriminate].
    + destruct (Ascii.eqb_spec a b) as [->|Hne].
      * rewrite IH. split; intros [post H]; exists post.
        -- simpl. now rewrite H.
        -- simpl in H. now inversion H.
      * split; [discriminate|]. intros [post H]. simpl in H.
        inversion H. congruence.
Qed.

Lemma contains_spec (needle hay : string) :
  contains needle hay = true <-> exists pre post, hay = pre +:+ needle +:+ post.
Proof.
  induction hay as [|b hay IH].
  - simpl. rewrite orb_false_r, startswith_spec. split.
    + intros [post H]. exists EmptyString, post. exact H.
    + intros [pre [post H]]. destruct pre; [exists post; exact H|discriminate].
  - cbn [contains]. rewrite orb_true_iff, IH, startswith_spec. split.
    + intros [[post H]|[pre [post H]]].
      * exists EmptyString, post. exact H.
      * exists (String b pre), post. simpl. now rewrite H.
    + intros [pre [post H]]. destruct pre as [|c pre].
      * left. exists post. exact H.
      * right. simpl in H. inversion H. eauto.
Qed.

Lemma length_take (n : nat) (s : string) :
  String.length (take n s) = Nat.min n (String.length s).
Proof.
  revert s; induction n as [|n IH]; intros [|a s]; simpl; auto.
Qed.

Lemma forallb_filter (keep : ascii -> bool) (s : string) :
  forallb keep (filter keep s) = true.
Proof.
  induction s as [|a s IH]; simpl; [reflexivity|].
  destruct (keep a) eqn:E; simpl; [rewrite E|]; auto.
Qed.

Lemma forallb_rstrip (isspace p : ascii -> bool) (s : string) :
  forallb p s = true -> forallb p (rstrip isspace s) = true.
Proof.
  induction s as [|a s IH]; simpl; [reflexivity|].
  intros [Ha Hs]%andb_true_iff. specialize (IH Hs).
  destruct (rstrip isspace s) as [|b r].
  - destruct (isspace a); simpl; [reflexivity | now rewrite Ha].
  - cbn [forallb] in *. now rewrite Ha.
Qed.

End PyStrFacts.

(* ===================================================================== *)
(** ** The round loop: termination, counters and reachability *)
(* ===================================================================== *)

Module OrchestratorFacts.
Import Py Orchestrator Props.

Lemma is_termination_msg_content (msg : gmap string pyval) (text : string) :
  Chat.is_termination_msg (<["content" := PStr text]> msg)
  = Return (PyStr.contains "TERMINATE" text).
Proof.
  unfold Chat.is_termination_msg. now rewrite lookup_insert_eq.
Qed.

(** A message without content is not a termination message; a message
    whose content is [None] makes the predicate raise. *)
Lemma is_termination_msg_no_content (msg : gmap string pyval) :
  msg !! "content" = None -> Chat.is_termination_msg msg = Return false.
Proof. unfold Chat.is_termination_msg. now intros ->. Qed.

Lemma is_termination_msg_none_content (msg : gmap string pyval) :
  raises (Chat.is_termination_msg (<["content" := PNone]> msg)) = true.
Proof. unfold Chat.is_termination_msg. now rewrite lookup_insert_eq. Qed.

Lemma is_termination_msg_as_dict (m : Message) :
  Chat.is_termination_msg (as_dict m)
  = Return (PyStr.contains "TERMINATE" (content m)).
Proof. apply is_termination_msg_content. Qed.

Lemma sentinel_seen_latest (c : Conversation) :
  messages c <> [] ->
  sentinel_seen (messages c) = PyStr.contains "TERMINATE" (latest_content c).
Proof.
  unfold sentinel_seen, latest_content. intros Hne.
  destruct (last (messages c)) as [m|] eqn:E.
  - now rewrite is_termination_msg_as_dict.
  - apply last_None in E. contradiction.
Qed.

Lemma sentinel_seen_snoc (history : list Message) (m : Message) :
  sentinel_seen (history ++ [m]) = PyStr.contains "TERMINATE" (content m).
Proof.
  unfold sentinel_seen. now rewrite last_snoc, is_termination_msg_as_dict.
Qed.

Section Loop.

Variable participants : list Participant.
Variable proxy : Participant.
Variable chooser : list Message -> string.
Variable complete : Participant -> list Message -> nat -> option Reply.
Variable llm_retries : nat.
Variable capability : string -> gmap string string -> ToolCallResult.
Variable human_declines : list Message -> bool.

Local Abbreviation round_messages :=
  (round_messages participants proxy chooser complete llm_retries capability).
Local Abbreviation round :=
  (round participants proxy chooser complete llm_retries capability).
Local Abbreviation terminated := (terminated human_declines).
Local Abbreviation next :=
  (next participants proxy chooser complete llm_retries capability human_declines).
Local Abbreviation run :=
  (run participants proxy chooser complete llm_retries capability human_declines).
Local Abbreviation reachable :=
  (reachable participants proxy chooser complete llm_retries capability
     human_declines).
Local Abbreviation loop_invariant := (loop_invariant human_declines).

Lemma round_messages_length (history : list Message) :
  (1 <= List.length (round_messages history) <= 2)%nat.
Proof.
  unfold Orchestrator.round_messages.
  destruct (invoke_participant _ _ _ _) as [[text|text tc]|]; simpl; lia.
Qed.

Lemma round_messages_nonempty (c : Conversation) : messages (round c) <> [].
Proof.
  simpl. intros H. apply (f_equal (@List.length _)) in H.
  rewrite length_app in H. pose proof (round_messages_length (messages c)).
  simpl in H. lia.
Qed.

Lemma loop_invariant_next (limit : nat) (s s' : Phase * Conversation) :
  (0 < limit)%nat -> loop_invariant limit s -> next s = Some s' ->
  loop_invariant limit s' /\ round_count s'.2 = S (round_count s.2).
Proof.
  destruct s as [ph c], s' as [ph' c'].
  intros Hpos (Hmax & Hle & Hlen & Hph) Hnext.
  unfold Orchestrator.next in Hnext. simpl in *.
  assert (Hlt : (round_count c < limit)%nat).
  { destruct ph; try discriminate.
    - lia.
    - unfold Orchestrator.terminated in Hph.
      apply orb_false_iff in Hph as [[_ Hb]%orb_false_iff _].
      apply Nat.leb_gt in Hb. lia. }
  assert (Hs' : c' = round c /\
                ph' = if terminated (round c) then TERMINAL else ROUND).
  { destruct ph; try discriminate; inversion Hnext; auto. }
  destruct Hs' as [-> ->]. split; [|reflexivity].
  unfold Props.loop_invariant. cbn [fst snd].
  split; [exact Hmax|]. split; [simpl; lia|]. split.
  - simpl. rewrite length_app.
    pose proof (round_messages_length (messages c)). lia.
  - destruct (terminated (round c)) eqn:E; reflexivity.
Qed.

Lemma loop_invariant_reachable (limit : nat) (s0 s : Phase * Conversation) :
  (0 < limit)%nat -> loop_invariant limit s0 -> reachable s0 s ->
  loop_invariant limit s.
Proof.
  intros Hpos H0 Hr. induction Hr as [|a b c Hab _ IH]; [exact H0|].
  apply IH. eapply loop_invariant_next; eauto.
Qed.

Lemma run_reachable (fuel : nat) (s : Phase * Conversation) :
  reachable s (run fuel s).
Proof.
  revert s; induction fuel as [|fuel IH]; intros s; simpl.
  - apply rtc_refl.
  - destruct (next s) as [s'|] eqn:E; [|apply rtc_refl].
    eapply rtc_l; [exact E | apply IH].
Qed.

Lemma run_terminal (limit fuel : nat) (s : Phase * Conversation) :
  (0 < limit)%nat -> loop_invariant limit s ->
  (limit <= round_count s.2 + fuel)%nat ->
  (run fuel s).1 = TERMINAL.
Proof.
  intros Hpos. revert s; induction fuel as [|fuel IH]; intros s Hinv Hfuel.
  - simpl. destruct Hinv as (Hmax & Hle & _ & Hph).
    destruct s.1 eqn:E; [lia| |reflexivity].
    unfold Orchestrator.terminated in Hph. rewrite Hmax in Hph.
    apply orb_false_iff in Hph as [[_ Hb]%orb_false_iff _].
    apply Nat.leb_gt in Hb. lia.
  - simpl. destruct (next s) as [s'|] eqn:E.
    + destruct (loop_invariant_next limit s s' Hpos Hinv E) as [Hinv' Hcnt].
      apply IH; [exact Hinv'|lia].
    + unfold Orchestrator.next in E. destruct s.1; congruence.
Qed.

Lemma opening_invariant (initial_message : string) (limit : nat) :
  loop_invariant limit (INITIAL, opening proxy initial_message limit).
Proof. unfold loop_invariant; simpl. repeat split; lia. Qed.

Lemma next_shape (s s' : Phase * Conversation) :
  next s = Some s' ->
  s'.2 = round s.2
  /\ s'.1 = (if terminated (round s.2) then TERMINAL else ROUND)
  /\ s.1 <> TERMINAL.
Proof.
  unfold Orchestrator.next. destruct s as [[] c]; simpl; intros H;
    inversion H; simpl; repeat split; discriminate.
Qed.

Lemma run_terminal_fixed (fuel : nat) (c : Conversation) :
  run fuel (TERMINAL, c) = (TERMINAL, c).
Proof. destruct fuel; reflexivity. Qed.

Lemma run_continue (fuel : nat) (ph : Phase) (c : Conversation) :
  ph <> TERMINAL -> terminated (round c) = false ->
  run (S fuel) (ph, c) = run fuel (ROUND, round c).
Proof.
  intros Hph Ht. cbn [Orchestrator.run]. unfold Orchestrator.next.
  cbn [fst snd]. rewrite Ht. destruct ph; congruence.
Qed.

Lemma run_stop (fuel : nat) (ph : Phase) (c : Conversation) :
  ph <> TERMINAL -> terminated (round c) = true ->
  run (S fuel) (ph, c) = (TERMINAL, round c).
Proof.
  intros Hph Ht. cbn [Orchestrator.run]. unfold Orchestrator.next.
  cbn [fst snd]. rewrite Ht.
  destruct ph; try congruence; apply run_terminal_fixed.
Qed.

(** C1.  The user proxy's termination predicate is the plain substring
    test for TERMINATE on the message content, the policy reports the
    sentinel exactly when the latest appended message contains that
    substring, and a session that is still running after rounds 1 and 2 and
    whose round 3 appends a message containing the sentinel ends in round
    3, whatever the round limit (25 included). *)
Theorem sentinel_terminates_session (initial_message : string) (limit : nat) :
  let c0 := opening proxy initial_message limit in
  let c1 := round c0 in
  let c2 := round c1 in
  let c3 := round c2 in
  (3 <= limit)%nat ->
  terminated c1 = false ->
  terminated c2 = false ->
  PyStr.contains "TERMINATE" (latest_content c3) = true ->
  (forall (msg : gmap string pyval) (text : string),
      Chat.is_termination_msg (<["content" := PStr text]> msg) = Return true
      <-> has_sentinel text)
  /\ (forall c, messages c <> [] ->
        sentinel_seen (messages c) = true <-> has_sentinel (latest_content c))
  /\ start participants proxy chooser complete llm_retries capability
        human_declines initial_message limit = (TERMINAL, c3)
  /\ round_count c3 = 3%nat.
Proof.
  intros c0 c1 c2 c3 Hlimit H1 H2 H3.
  split; [|split; [|split]].
  - intros msg text. rewrite is_termination_msg_content.
    unfold has_sentinel. rewrite <- PyStrFacts.contains_spec.
    split; congruence.
  - intros c Hne. rewrite sentinel_seen_latest by exact Hne.
    unfold has_sentinel. now rewrite <- PyStrFacts.contains_spec.
  - assert (Ht3 : terminated c3 = true).
    { unfold Orchestrator.terminated.
      rewrite sentinel_seen_latest by apply round_messages_nonempty.
      fold c3. now rewrite H3. }
    assert (Hrun : forall fuel, (3 <= fuel)%nat ->
                     run fuel (INITIAL, c0) = (TERMINAL, c3)).
    { intros [|[|[|fuel]]] Hfuel; try lia.
      rewrite run_continue by (discriminate || exact H1).
      rewrite run_continue by (discriminate || exact H2).
      now rewrite run_stop by (discriminate || exact Ht3). }
    unfold start. fold c0. now apply Hrun.
  - reflexivity.
Qed.

(** C2.  In a session started with a positive round limit: the loop ends
    in TERMINAL with [round_count <= max_rounds]; in every state the loop
    passes through, [round_count <= max_rounds] and
    [round_count <= len(messages)]; every transition is one round and adds
    exactly one to [round_count]; and once the evaluation at the end of a
    round detects termination, no further round executes. *)
Theorem round_count_bounded (initial_message : string) (limit : nat) :
  (0 < limit)%nat ->
  let s0 := (INITIAL, opening proxy initial_message limit) in
  let final := start participants proxy chooser complete llm_retries
                 capability human_declines initial_message limit in
  (final.1 = TERMINAL /\ reachable s0 final
   /\ (round_count final.2 <= max_rounds final.2)%nat
   /\ max_rounds final.2 = limit
   /\ next final = None)
  /\ (forall s, reachable s0 s ->
        (round_count s.2 <= max_rounds s.2)%nat
        /\ (round_count s.2 <= List.length (messages s.2))%nat)
  /\ (forall s s', reachable s0 s -> next s = Some s' ->
        s'.2 = round s.2 /\ round_count s'.2 = S (round_count s.2))
  /\ (forall s s', reachable s0 s -> next s = Some s' ->
        terminated s'.2 = true -> s'.1 = TERMINAL /\ next s' = None).
Proof.
  intros Hpos s0 final.
  pose proof (opening_invariant initial_message limit) as H0. fold s0 in H0.
  assert (Hfin : final.1 = TERMINAL).
  { apply (run_terminal limit limit s0 Hpos H0). simpl. lia. }
  assert (Hreach : reachable s0 final) by apply run_reachable.
  split; [|split; [|split]].
  - destruct (loop_invariant_reachable limit s0 final Hpos H0 Hreach)
      as (Hmax & Hle & _ & _).
    repeat split; auto; [lia|].
    unfold Orchestrator.next. now rewrite Hfin.
  - intros s Hs.
    destruct (loop_invariant_reachable limit s0 s Hpos H0 Hs)
      as (Hmax & Hle & Hlen & _). lia.
  - intros s s' Hs Hn. split; [apply (next_shape s s' Hn)|].
    apply (loop_invariant_next limit s s' Hpos); [|exact Hn].
    now apply (loop_invariant_reachable limit s0).
  - intros s s' Hs Hn Ht.
    destruct (next_shape s s' Hn) as (Hc & Hp & _).
    rewrite <- Hc, Ht in Hp. split; [exact Hp|].
    unfold Orchestrator.next. now rewrite Hp.
Qed.

End Loop.

(** The scripted session of the design document's test: the sentinel on
    round 3 under a limit of 25 rounds. *)
Lemma sentinel_terminates_session_witness :
  round_count
    (start Session.registry Session.proxy Scripted.silent_chooser
       Scripted.terminate_on_round_3 2 Scripted.instant_capability
       Scripted.patient_human "brief" 25).2 = 3%nat
  /\ (start Session.registry Session.proxy Scripted.silent_chooser
        Scripted.terminate_on_round_3 2 Scripted.instant_capability
        Scripted.patient_human "brief" 25).1 = TERMINAL.
Proof.
  destruct (sentinel_terminates_session Session.registry Session.proxy
              Scripted.silent_chooser Scripted.terminate_on_round_3 2
              Scripted.instant_capability Scripted.patient_human "brief" 25)
    as (_ & _ & Hstart & Hcount).
  - lia.
  - vm_compute; reflexivity.
  - vm_compute; reflexivity.
  - vm_compute; reflexivity.
  - rewrite Hstart. split; [exact Hcount | reflexivity].
Defined.

Lemma round_count_bounded_witness :
  (0 < 25)%nat
  /\ (round_count
        (start Session.registry Session.proxy Scripted.silent_chooser
           Scripted.terminate_on_round_3 2 Scripted.instant_capability
           Scripted.patient_human "brief" 25).2 <= 25)%nat.
Proof.
  split; [lia|].
  destruct (round_count_bounded Session.registry Session.proxy
              Scripted.silent_chooser Scripted.terminate_on_round_3 2
              Scripted.instant_capability Scripted.patient_human "brief" 25)
    as ((_ & _ & Hle & Hmax & _) & _); [lia|].
  rewrite Hmax in Hle. exact Hle.
Defined.

End OrchestratorFacts.

(* ===================================================================== *)
(** ** Tool routing and speaker selection *)
(* ===================================================================== *)

Module RoutingFacts.
Import Py Orchestrator Props.

(** The capability set the user proxy declares is the key set of its
    function map. *)
Lemma proxy_capabilities (tool : string) :
  tool ∈ capabilities Session.proxy
  <-> tool = "research" \/ tool = "generate_image" \/ tool = "critique_image".
Proof.
  unfold Session.proxy, Session.participant_of. simpl.
  unfold Chat.function_map. rewrite !dom_insert_L, dom_singleton_L.
  rewrite !elem_of_union, !elem_of_singleton. reflexivity.
Qed.

Section Routing.

Variable participants : list Participant.
Variable chooser : list Message -> string.
Variable complete : Participant -> list Message -> nat -> option Reply.
Variable llm_retries : nat.
Variable capability : string -> gmap string string -> ToolCallResult.
Variable human_declines : list Message -> bool.

Local Abbreviation round :=
  (round participants Session.proxy chooser complete llm_retries capability).
Local Abbreviation next :=
  (next participants Session.proxy chooser complete llm_retries capability
     human_declines).

(** C4.  A tool-call request whose name is none of research,
    generate_image, critique_image is answered by the invoker with
    [ok = false] and the UnknownCapability payload; the round that carried
    the request appends the calling message and that result as ordinary
    messages, counts as a round, and the loop goes on to the next round
    unless the termination policy ends the session. *)
Theorem unknown_capability_reported
    (tc : ToolCall) (text : string) (ph : Phase) (c : Conversation) :
  tool_name tc <> "research" ->
  tool_name tc <> "generate_image" ->
  tool_name tc <> "critique_image" ->
  ph <> TERMINAL ->
  invoke_participant complete llm_retries
    (select_speaker participants Session.proxy chooser (messages c))
    (messages c) = Some (Request text tc) ->
  let r := invoke Session.proxy capability tc in
  ok r = false
  /\ payload r = "UnknownCapability: " +:+ tool_name tc
  /\ (exists calling,
        messages (round c)
        = messages c
          ++ [ calling;
               {| sender := name Session.proxy; content := payload r;
                  tool_call := None; tool_result := Some r |} ]
        /\ tool_call calling = Some tc)
  /\ round_count (round c) = S (round_count c)
  /\ (exists ph', next (ph, c) = Some (ph', round c)
        /\ (ph' = TERMINAL <-> terminated human_declines (round c) = true)
        /\ (terminated human_declines (round c) = false ->
            exists s, next (ph', round c) = Some s)).
Proof.
  intros H1 H2 H3 Hph Hreply r.
  assert (Hr : r = unknown_capability (tool_name tc)).
  { unfold r, invoke. rewrite bool_decide_eq_false_2; [reflexivity|].
    rewrite proxy_capabilities. intros [H|[H|H]]; contradiction. }
  split; [now rewrite Hr|]. split; [now rewrite Hr|]. split; [|split].
  - eexists. unfold Orchestrator.round, round_messages. cbn [messages].
    rewrite Hreply. fold r. split; reflexivity.
  - reflexivity.
  - exists (if terminated human_declines (round c) then TERMINAL else ROUND).
    split; [|split].
    + unfold Orchestrator.next. destruct ph; [reflexivity..|contradiction].
    + destruct (terminated _ _); split; congruence.
    + intros ->. eexists. reflexivity.
Qed.

End Routing.

(** Places in the registry. *)
Lemma position_lt (who : string) (ps : list Participant) (i : nat) :
  position who ps = Some i -> (i < List.length ps)%nat.
Proof.
  revert i; induction ps as [|p ps IH]; intros i; cbn [position];
    [discriminate|].
  destruct (String.eqb (name p) who).
  - intros [= <-]. simpl. lia.
  - destruct (position who ps) as [j|]; [|discriminate].
    intros [= <-]. specialize (IH j eq_refl). simpl. lia.
Qed.






(** The unregistered tool of the scripted session, on the opening round. *)
Lemma unknown_capability_reported_witness :
  ok (invoke Session.proxy Scripted.instant_capability Scripted.unknown_request)
  = false
  /\ round_count
       (round Session.registry Session.proxy Scripted.silent_chooser
          Scripted.asks_unknown_tool 2 Scripted.instant_capability
          (opening Session.proxy "brief" 25)) = 1%nat.
Proof.
  destruct (unknown_capability_reported Session.registry
              Scripted.silent_chooser Scripted.asks_unknown_tool 2
              Scripted.instant_capability Scripted.patient_human
              Scripted.unknown_request "Let me look that up" INITIAL
              (opening Session.proxy "brief" 25))
    as (Hok & _ & _ & Hcount & _).
  - vm_compute; discriminate.
  - vm_compute; discriminate.
  - vm_compute; discriminate.
  - discriminate.
  - vm_compute; reflexivity.
  - split; [exact Hok | exact Hcount].
Defined.


End RoutingFacts.

(* ===================================================================== *)
(** ** The effect monad: what a computation adds to the log *)
(* ===================================================================== *)

Module EffectFacts.
Import Py Config Effects LogProps.

Lemma calls_from_app {A} (m : M A) (log new : list call) :
  snd (m log) = log ++ new -> calls_from m log = new.
Proof.
  unfold calls_from. intros ->. apply drop_app_length.
Qed.

Section OnlyAdds.

Context {A B : Type}.
Variable P : call -> Prop.

Lemma only_adds_ret (a : A) : only_adds P (ret a).
Proof. intros log. exists []. split; [now rewrite app_nil_r | constructor]. Qed.

Lemma only_adds_raise (e : exn) : only_adds P (@raise A e).
Proof. intros log. exists []. split; [now rewrite app_nil_r | constructor]. Qed.

Lemma only_adds_lift (r : result A) : only_adds P (lift r).
Proof. intros log. exists []. split; [now rewrite app_nil_r | constructor]. Qed.

Lemma only_adds_perform (c : call) (outcome : list call -> result A) :
  P c -> only_adds P (perform c outcome).
Proof. intros Hc log. exists [c]. split; [reflexivity | now repeat constructor]. Qed.

Lemma only_adds_bind (m : M A) (k : A -> M B) :
  only_adds P m -> (forall a, only_adds P (k a)) -> only_adds P (bind m k).
Proof.
  intros Hm Hk log. unfold bind. destruct (Hm log) as (new & Hlog & Hnew).
  destruct (m log) as [[a|e] log'] eqn:E; simpl in Hlog; subst log'.
  - destruct (Hk a (log ++ new)) as (new' & Hlog' & Hnew').
    exists (new ++ new'). rewrite Hlog', app_assoc. split; [reflexivity|].
    now apply Forall_app.
  - exists new. now split.
Qed.

(** The continuation only has to behave on the values [m] can return. *)
Lemma only_adds_bind_returned (m : M A) (k : A -> M B) :
  only_adds P m ->
  (forall a, (exists log, fst (m log) = Return a) -> only_adds P (k a)) ->
  only_adds P (bind m k).
Proof.
  intros Hm Hk log. unfold bind. destruct (Hm log) as (new & Hlog & Hnew).
  destruct (m log) as [[a|e] log'] eqn:E; simpl in Hlog; subst log'.
  - assert (Ha : exists log0, fst (m log0) = Return a)
      by (exists log; now rewrite E).
    destruct (Hk a Ha (log ++ new)) as (new' & Hlog' & Hnew').
    exists (new ++ new'). rewrite Hlog', app_assoc. split; [reflexivity|].
    now apply Forall_app.
  - exists new. now split.
Qed.

Lemma only_adds_try_except (m : M A) (handler : exn -> M A) :
  only_adds P m -> (forall e, only_adds P (handler e)) ->
  only_adds P (try_except m handler).
Proof.
  intros Hm Hh log. unfold try_except. destruct (Hm log) as (new & Hlog & Hnew).
  destruct (m log) as [[a|e] log'] eqn:E; simpl in Hlog; subst log'.
  - exists new. now split.
  - destruct (Hh e (log ++ new)) as (new' & Hlog' & Hnew').
    exists (new ++ new'). rewrite Hlog', app_assoc. split; [reflexivity|].
    now apply Forall_app.
Qed.

End OnlyAdds.

Lemma only_adds_weaken {A} (P Q : call -> Prop) (m : M A) :
  (forall c, P c -> Q c) -> only_adds P m -> only_adds Q m.
Proof.
  intros HPQ Hm log. destruct (Hm log) as (new & Hlog & Hnew).
  exists new. split; [exact Hlog|]. eapply Forall_impl; eauto.
Qed.

Lemma only_adds_calls_from {A} (P : call -> Prop) (m : M A) (log : list call) :
  only_adds P m -> Forall P (calls_from m log).
Proof.
  intros Hm. destruct (Hm log) as (new & Hlog & Hnew).
  now rewrite (calls_from_app m log new Hlog).
Qed.

Lemma how_many_app (p : call -> bool) (l l' : list call) :
  how_many p (l ++ l') = (how_many p l + how_many p l')%nat.
Proof. unfold how_many. now rewrite List.filter_app, length_app. Qed.

Section AtMost.

Context {A B : Type}.
Variable p : call -> bool.

Lemma at_most_ret (n : nat) (a : A) : adds_at_most p n (ret a).
Proof.
  intros log. exists []. split; [now rewrite app_nil_r | unfold how_many; simpl; lia].
Qed.

Lemma at_most_raise (n : nat) (e : exn) : adds_at_most p n (@raise A e).
Proof.
  intros log. exists []. split; [now rewrite app_nil_r | unfold how_many; simpl; lia].
Qed.

Lemma at_most_lift (n : nat) (r : result A) : adds_at_most p n (lift r).
Proof.
  intros log. exists []. split; [now rewrite app_nil_r | unfold how_many; simpl; lia].
Qed.

Lemma at_most_perform (n : nat) (c : call) (outcome : list call -> result A) :
  ((if p c then 1 else 0) <= n)%nat -> adds_at_most p n (perform c outcome).
Proof.
  intros Hn log. exists [c]. split; [reflexivity|].
  unfold how_many. simpl. destruct (p c); simpl; lia.
Qed.

Lemma at_most_bind (n k t : nat) (m : M A) (f : A -> M B) :
  adds_at_most p n m -> (forall a, adds_at_most p k (f a)) ->
  (n + k <= t)%nat -> adds_at_most p t (bind m f).
Proof.
  intros Hm Hf Ht log. unfold bind. destruct (Hm log) as (new & Hlog & Hnew).
  destruct (m log) as [[a|e] log'] eqn:E; simpl in Hlog; subst log'.
  - destruct (Hf a (log ++ new)) as (new' & Hlog' & Hnew').
    exists (new ++ new'). rewrite Hlog', app_assoc. split; [reflexivity|].
    rewrite how_many_app. lia.
  - exists new. split; [reflexivity | lia].
Qed.

Lemma at_most_try_except (n k t : nat) (m : M A) (handler : exn -> M A) :
  adds_at_most p n m -> (forall e, adds_at_most p k (handler e)) ->
  (n + k <= t)%nat -> adds_at_most p t (try_except m handler).
Proof.
  intros Hm Hh Ht log. unfold try_except.
  destruct (Hm log) as (new & Hlog & Hnew).
  destruct (m log) as [[a|e] log'] eqn:E; simpl in Hlog; subst log'.
  - exists new. split; [reflexivity | lia].
  - destruct (Hh e (log ++ new)) as (new' & Hlog' & Hnew').
    exists (new ++ new'). rewrite Hlog', app_assoc. split; [reflexivity|].
    rewrite how_many_app. lia.
Qed.

End AtMost.

Lemma at_most_calls_from {A} (p : call -> bool) (n : nat) (m : M A)
    (log : list call) :
  adds_at_most p n m -> (how_many p (calls_from m log) <= n)%nat.
Proof.
  intros Hm. destruct (Hm log) as (new & Hlog & Hnew).
  now rewrite (calls_from_app m log new Hlog).
Qed.

(** A handler that returns makes the whole [try] return. *)
Lemma try_except_returns {A} (m : M A) (f : exn -> A) (log : list call) :
  exists a, fst (try_except m (fun e => ret (f e)) log) = Return a.
Proof.
  unfold try_except. destruct (m log) as [[a|e] log']; simpl; eauto.
Qed.

End EffectFacts.

(* ===================================================================== *)
(** ** The tools: what they return and what they call *)
(* ===================================================================== *)

Module ToolFacts.
Import Py Config Effects Tools LogProps EffectFacts.

Section AnyWorld.

Variable w : World.
Variable config : AgentcyConfig.

Lemma summarize_text_returns (content : string) (log : list call) :
  exists s, fst (summarize_text w config content log) = Return s.
Proof. unfold summarize_text. apply try_except_returns. Qed.

Lemma scrape_basic_returns (url : string) (log : list call) :
  exists s, fst (scrape_basic w config url log) = Return s.
Proof. unfold scrape_basic. apply try_except_returns. Qed.

Lemma generate_image_returns (prompt : string) (log : list call) :
  exists s, fst (generate_image w config prompt log) = Return s.
Proof. unfold generate_image. apply try_except_returns. Qed.

Lemma critique_image_returns (image_path original_prompt : string)
    (log : list call) :
  exists s, fst (critique_image w config image_path original_prompt log)
            = Return s.
Proof. unfold critique_image. apply try_except_returns. Qed.

Lemma scrape_body_request (url : string) (log : list call) :
  scrape_body w config url log
  = bind (perform (page_request w config url log).1
            (fun _ => (page_request w config url log).2))
      (fun response =>
         if Z.eqb (status_code response) 200 then
           bind (lift (soup_get_text w (content response)))
             (fun text =>
                if Nat.ltb 8000 (String.length text)
                then summarize_text w config text
                else ret text)
         else ret ("Error: HTTP " +:+ pretty (status_code response)))
      log.
Proof.
  unfold scrape_body, page_request, bind, perform.
  destruct (PyStr.truthy_opt (browserless_api_key config)); reflexivity.
Qed.

(** C8.  [scrape_basic] returns a string on every URL and in every world:
    a failed request or a failed parse gives "Scraping failed: " and the
    exception's text, a status other than 200 gives "Error: HTTP " and the
    status code, and on status 200 the extracted text comes back unchanged
    when it has at most 8000 characters and as [summarize_text] of it
    otherwise. *)
Theorem scrape_basic_total (url : string) (log : list call) :
  let request := page_request w config url log in
  let out := fst (scrape_basic w config url log) in
  (exists s, out = Return s)
  /\ (forall e, request.2 = Raise e ->
        out = Return ("Scraping failed: " +:+ str e))
  /\ (forall r, request.2 = Return r -> status_code r <> 200%Z ->
        out = Return ("Error: HTTP " +:+ pretty (status_code r)))
  /\ (forall r e, request.2 = Return r -> status_code r = 200%Z ->
        soup_get_text w (content r) = Raise e ->
        out = Return ("Scraping failed: " +:+ str e))
  /\ (forall r text, request.2 = Return r -> status_code r = 200%Z ->
        soup_get_text w (content r) = Return text ->
        ((String.length text <= 8000)%nat -> out = Return text)
        /\ ((8000 < String.length text)%nat ->
            out = fst (summarize_text w config text (log ++ [request.1]))
            /\ exists summary, out = Return summary)).
Proof.
  intros request out. split; [apply scrape_basic_returns|].
  unfold out, scrape_basic, try_except. rewrite scrape_body_request.
  fold request. unfold bind, perform, lift, ret.
  split; [|split; [|split]].
  - intros e ->. reflexivity.
  - intros r -> Hs. apply Z.eqb_neq in Hs. now rewrite Hs.
  - intros r e -> Hs He. rewrite Hs, He. reflexivity.
  - intros r text -> Hs Ht. rewrite Hs, Ht. cbn [Z.eqb Pos.eqb]. split.
    + intros Hlen. apply Nat.ltb_ge in Hlen. now rewrite Hlen.
    + intros Hlen. apply Nat.ltb_lt in Hlen. rewrite Hlen.
      destruct (summarize_text_returns text (log ++ [request.1])) as [s Hs'].
      destruct (summarize_text w config text (log ++ [request.1]))
        as [[s'|e] log'] eqn:E; simpl in *; [eauto | discriminate].
Qed.

Lemma process_result_returns (query : string) (research_data : list string)
    (i : nat) (r : organic_result) (log : list call) :
  exists data,
    fst (process_result w config query research_data i r log) = Return data.
Proof.
  unfold process_result. destruct (promising w query _ _); [|simpl; eauto].
  unfold bind.
  destruct (scrape_basic_returns (default "" (o_link r)) log) as [s Hs].
  destruct (scrape_basic w config (default "" (o_link r)) log)
    as [[s'|e] log']; simpl in Hs; [|discriminate].
  destruct (usable s'); simpl; eauto.
Qed.

Lemma process_results_returns (query : string) (results : list organic_result)
    (research_data : list string) (start : nat) (log : list call) :
  exists data,
    fst (process_results w config query research_data start results log)
    = Return data.
Proof.
  revert research_data start log; induction results as [|r rest IH];
    intros research_data start log; cbn [process_results]; [simpl; eauto|].
  unfold bind.
  destruct (process_result_returns query research_data start r log) as [d Hd].
  destruct (process_result w config query research_data start r log)
    as [[d'|e] log']; simpl in Hd; [apply IH | discriminate].
Qed.

(** Whenever the search answers without an error and the file system
    refuses the report, [advanced_research] raises what [open] raised. *)
Lemma report_body_write_failure (query : string) (sr : search_results)
    (log : list call) (e : exn) :
  (forall log' path data, file_write w log' path data = Raise e) ->
  fst (report_body w config query sr log) = Raise e.
Proof.
  intros Hwrite. unfold report_body, now, bind, perform. cbv beta iota.
  set (log1 := log ++ [CNow "%Y-%m-%d %H:%M:%S"]).
  assert (Hloop : exists data log2,
            match sr_organic sr with
            | Some organic =>
                process_results w config query
                  ([ "# Research Report: " +:+ query +:+ nl;
                     "Generated on: "
                     +:+ now_strftime w log "%Y-%m-%d %H:%M:%S" +:+ nl ]
                   ++ ["## Key Findings" +:+ nl]) 0 (List.firstn 5 organic)
            | None =>
                ret [ "# Research Report: " +:+ query +:+ nl;
                      "Generated on: "
                      +:+ now_strftime w log "%Y-%m-%d %H:%M:%S" +:+ nl ]
            end log1 = (Return data, log2)).
  { destruct (sr_organic sr) as [organic|]; [|simpl; eauto].
    match goal with |- exists _ _, ?m = _ =>
      destruct (process_results_returns query (List.firstn 5 organic)
                  ([ "# Research Report: " +:+ query +:+ nl;
                     "Generated on: "
                     +:+ now_strftime w log "%Y-%m-%d %H:%M:%S" +:+ nl ]
                   ++ ["## Key Findings" +:+ nl]) 0 log1) as [d Hd];
      destruct m as [[d'|e'] log2] eqn:E
    end; simpl in Hd; [eauto | discriminate]. }
  destruct Hloop as (data & log2 & ->). now rewrite Hwrite.
Qed.

(** [search] makes the one request and always returns. *)
Lemma search_calls (query : string) (log : list call) :
  snd (search w query log) = log ++ [CSerperPost query].
Proof.
  unfold search, try_except_request, try_except, search_body, bind, perform,
    lift, raise, ret.
  destruct (requests_post_serper w log query) as [r|e]; simpl.
  - destruct (raise_for_status r) as [e|]; simpl.
    + destruct (is_RequestException e); reflexivity.
    + destruct (json r) as [sr|e]; simpl; [reflexivity|].
      destruct (is_RequestException e); reflexivity.
  - destruct (is_RequestException e); reflexivity.
Qed.

Section Counting.

Variable p : call -> bool.
Hypothesis p_chat : forall system user, p (COpenAIChat system user) = false.
Hypothesis p_now : forall fmt, p (CNow fmt) = false.

Lemma summarize_chunks_at_most (chunks summaries : list string) :
  adds_at_most p 0 (summarize_chunks w chunks summaries).
Proof.
  revert summaries; induction chunks as [|chunk rest IH]; intros summaries;
    simpl.
  - apply at_most_ret.
  - apply (at_most_bind p 0 0); [|intros s; apply IH|lia].
    apply at_most_perform. now rewrite p_chat.
Qed.

Lemma summarize_text_at_most (content : string) :
  adds_at_most p 0 (summarize_text w config content).
Proof.
  unfold summarize_text.
  apply (at_most_try_except p 0 0); [|intros e; apply at_most_ret|lia].
  unfold summarize_body.
  apply (at_most_bind p 0 0); [apply at_most_lift| |lia]. intros _.
  destruct (Nat.ltb _ _).
  - apply (at_most_bind p 0 0); [apply summarize_chunks_at_most| |lia].
    intros summaries. destruct (Nat.ltb _ _); [|apply at_most_ret].
    apply at_most_perform. now rewrite p_chat.
  - apply at_most_perform. now rewrite p_chat.
Qed.

Lemma scrape_basic_at_most (url : string) :
  (forall token, p (CBrowserlessPost token url) = false) ->
  p (CHttpGet url) = false ->
  adds_at_most p 0 (scrape_basic w config url).
Proof.
  intros Hpost Hget. unfold scrape_basic.
  apply (at_most_try_except p 0 0); [|intros e; apply at_most_ret|lia].
  unfold scrape_body.
  apply (at_most_bind p 0 0); [| |lia].
  - destruct (PyStr.truthy_opt _); apply at_most_perform;
      [now rewrite Hpost | now rewrite Hget].
  - intros r. destruct (Z.eqb _ _); [|apply at_most_ret].
    apply (at_most_bind p 0 0); [apply at_most_lift| |lia].
    intros text. destruct (Nat.ltb _ _);
      [apply summarize_text_at_most | apply at_most_ret].
Qed.

Hypothesis p_page : forall c, is_page_request c = true -> p c = false.

Lemma process_results_at_most (query : string) (results : list organic_result)
    (research_data : list string) (start : nat) :
  adds_at_most p 0 (process_results w config query research_data start results).
Proof.
  revert research_data start;
    induction results as [|r rest IH]; intros research_data start; simpl.
  - apply at_most_ret.
  - apply (at_most_bind p 0 0); [|intros data; apply IH|lia].
    unfold process_result. destruct (promising _ _ _ _); [|apply at_most_ret].
    apply (at_most_bind p 0 0); [| |lia].
    + apply scrape_basic_at_most; [intros token|]; now apply p_page.
    + intros s. destruct (usable s); apply at_most_ret.
Qed.

Variables ns nw nr : nat.
Hypothesis p_serper :
  forall query, ((if p (CSerperPost query) then 1 else 0) <= ns)%nat.
Hypothesis p_write :
  forall path data, ((if p (CFileWrite path data) then 1 else 0) <= nw)%nat.
Hypothesis p_run :
  forall model prompt,
    ((if p (CReplicateRun model prompt) then 1 else 0) <= nr)%nat.
Hypothesis p_exists : forall path, p (CPathExists path) = false.
Hypothesis p_open : forall path, p (CFileOpenRead path) = false.

Lemma advanced_research_at_most (query : string) :
  adds_at_most p (ns + nw) (advanced_research w config query).
Proof.
  unfold advanced_research.
  apply (at_most_bind p ns nw); [| |lia].
  - intros log. exists [CSerperPost query]. split; [apply search_calls|].
    unfold how_many. simpl. specialize (p_serper query).
    destruct (p _); simpl; lia.
  - intros sr. destruct (sr_error sr); [apply at_most_ret|].
    unfold report_body.
    apply (at_most_bind p 0 nw); [| |lia].
    { apply at_most_perform. now rewrite p_now. }
    intros generated.
    apply (at_most_bind p 0 nw); [| |lia].
    { destruct (sr_organic sr);
        [apply process_results_at_most | apply at_most_ret]. }
    intros data.
    apply (at_most_bind p 0 nw); [| |lia].
    { apply at_most_perform. now rewrite p_now. }
    intros timestamp.
    apply (at_most_bind p nw 0); [| |lia].
    { apply at_most_perform. apply p_write. }
    intros _. apply at_most_ret.
Qed.

Lemma generate_image_at_most (prompt : string) :
  adds_at_most p (nr + nw) (generate_image w config prompt).
Proof.
  unfold generate_image.
  apply (at_most_try_except p (nr + nw) 0); [|intros e; apply at_most_ret|lia].
  unfold generate_image_body.
  destruct (negb _); [apply at_most_ret|].
  destruct (negb _); [apply at_most_ret|].
  apply (at_most_bind p nr nw); [| |lia].
  { apply at_most_perform. apply p_run. }
  intros [|image_url output]; [apply at_most_ret|].
  apply (at_most_bind p 0 nw); [| |lia].
  { apply at_most_perform. now rewrite p_now. }
  intros current_time.
  apply (at_most_bind p 0 nw); [| |lia].
  { apply at_most_perform. now rewrite p_page. }
  intros r. destruct (Z.eqb _ _); [|apply at_most_ret].
  apply (at_most_bind p nw 0); [| |lia].
  { apply at_most_perform. apply p_write. }
  intros _. apply at_most_ret.
Qed.

Lemma critique_image_at_most (image_path original_prompt : string) :
  adds_at_most p nr (critique_image w config image_path original_prompt).
Proof.
  unfold critique_image.
  apply (at_most_try_except p nr 0); [|intros e; apply at_most_ret|lia].
  unfold critique_image_body.
  destruct (negb _); [apply at_most_ret|].
  destruct (negb _); [apply at_most_ret|].
  apply (at_most_bind p 0 nr); [| |lia].
  { apply at_most_perform. now rewrite p_exists. }
  intros present. destruct (negb present); [apply at_most_ret|].
  apply (at_most_bind p 0 nr); [| |lia].
  { apply at_most_perform. now rewrite p_open. }
  intros _.
  apply (at_most_bind p nr 0); [| |lia].
  { apply at_most_perform. apply p_run. }
  intros output. apply at_most_ret.
Qed.

End Counting.

Lemma replicate_run_at_most_once :
  (forall prompt,
      adds_at_most is_replicate_run 1 (generate_image w config prompt))
  /\ (forall image_path original_prompt,
        adds_at_most is_replicate_run 1
          (critique_image w config image_path original_prompt)).
Proof.
  split; intros.
  - apply (generate_image_at_most is_replicate_run) with (nr := 1%nat) (nw := 0%nat);
      try reflexivity; try (intros; simpl; lia).
    intros [] Hc; try discriminate; reflexivity.
  - apply (critique_image_at_most is_replicate_run) with (nr := 1%nat);
      try reflexivity; try (intros; simpl; lia).
Qed.

Lemma search_request_at_most_once (query : string) :
  adds_at_most is_serper_post 1 (advanced_research w config query).
Proof.
  apply (advanced_research_at_most is_serper_post) with (ns := 1%nat) (nw := 0%nat);
    try reflexivity; try (intros; simpl; lia).
  intros [] Hc; try discriminate; reflexivity.
Qed.

Lemma file_write_at_most_once :
  (forall query, adds_at_most is_file_write 1 (advanced_research w config query))
  /\ (forall prompt, adds_at_most is_file_write 1 (generate_image w config prompt)).
Proof.
  split; intros.
  - apply (advanced_research_at_most is_file_write) with (ns := 0%nat) (nw := 1%nat);
      try reflexivity; try (intros; simpl; lia).
    intros [] Hc; try discriminate; reflexivity.
  - apply (generate_image_at_most is_file_write) with (nr := 0%nat) (nw := 1%nat);
      try reflexivity; try (intros; simpl; lia).
    intros [] Hc; try discriminate; reflexivity.
Qed.

(** C7.  One call of a tool attempts its capability at most once,
    whatever the world answers: [advanced_research] posts at most one
    search request, [generate_image] and [critique_image] run their model
    at most once, and no tool writes more than one file.  A failed attempt
    is reported, not repeated: when the model run raises,
    [generate_image] returns the error text after that single run, and when
    the search request raises a request exception, [advanced_research]
    returns the failure text after that single request. *)
Theorem capability_attempted_once
    (query prompt image_path original_prompt : string) (log : list call) :
  (how_many is_serper_post
     (calls_from (advanced_research w config query) log) <= 1)%nat
  /\ (how_many is_replicate_run
        (calls_from (generate_image w config prompt) log) <= 1)%nat
  /\ (how_many is_replicate_run
        (calls_from (critique_image w config image_path original_prompt) log)
      <= 1)%nat
  /\ (how_many is_file_write
        (calls_from (advanced_research w config query) log) <= 1)%nat
  /\ (how_many is_file_write
        (calls_from (generate_image w config prompt) log) <= 1)%nat
  /\ (forall e,
        replicate_available w = true ->
        PyStr.truthy_opt (replicate_api_token config) = true ->
        replicate_run w log sdxl_model prompt = Raise e ->
        generate_image w config prompt log
        = (Return ("Image generation error: " +:+ str e),
           log ++ [CReplicateRun sdxl_model prompt]))
  /\ (forall e,
        requests_post_serper w log query = Raise e ->
        is_RequestException e = true ->
        advanced_research w config query log
        = (Return ("Research failed: Search failed: " +:+ str e),
           log ++ [CSerperPost query])).
Proof.
  repeat split.
  - apply at_most_calls_from, search_request_at_most_once.
  - apply at_most_calls_from, replicate_run_at_most_once.
  - apply at_most_calls_from, replicate_run_at_most_once.
  - apply at_most_calls_from, file_write_at_most_once.
  - apply at_most_calls_from, file_write_at_most_once.
  - intros e Hav Htok Hrun.
    unfold generate_image, try_except, generate_image_body, bind, perform, ret.
    rewrite Hav, Htok. cbn [negb]. now rewrite Hrun.
  - intros e Hpost Hreq.
    unfold advanced_research, search, try_except_request, try_except,
      search_body, bind, perform, ret.
    cbv beta. rewrite Hpost. cbv beta iota. now rewrite Hreq.
Qed.

End AnyWorld.

(** The image model is down: one run, then the error text. *)
Lemma capability_attempted_once_witness :
  generate_image Worlds.model_down Worlds.full_config "A cup of coffee" []
  = (Return "Image generation error: model unavailable",
     [CReplicateRun sdxl_model "A cup of coffee"]).
Proof.
  destruct (capability_attempted_once Worlds.model_down Worlds.full_config
              "coffee" "A cup of coffee" "out.png" "cup" [])
    as (_ & _ & _ & _ & _ & Hfail & _).
  apply (Hfail (Exn OtherException "model unavailable")); reflexivity.
Defined.

(** A page that answers 404. *)
Lemma scrape_basic_total_witness :
  fst (scrape_basic Worlds.pages_missing Worlds.full_config
         "http://example.org/coffee" [])
  = Return "Error: HTTP 404".
Proof.
  destruct (scrape_basic_total Worlds.pages_missing Worlds.full_config
              "http://example.org/coffee" [])
    as (_ & _ & Hstatus & _).
  apply (Hstatus (Worlds.page 404 "<p>Roasters grow</p>"));
    [reflexivity | discriminate].
Defined.

End ToolFacts.

(* ===================================================================== *)
(** ** The research report and the image file name *)
(* ===================================================================== *)

Module ReportFacts.
Import Py Config Effects Tools LogProps EffectFacts ToolFacts.

Section Truncation.

Variable w : World.
Variable config : AgentcyConfig.

Lemma summarize_chunks_truncate (chunks summaries : list string)
    (log : list call) :
  summarize_chunks (truncate_organic w) chunks summaries log
  = summarize_chunks w chunks summaries log.
Proof.
  revert summaries log; induction chunks as [|chunk rest IH];
    intros summaries log; [reflexivity|].
  cbn [summarize_chunks]. unfold bind.
  change (chat (truncate_organic w) summarize_system chunk log)
    with (chat w summarize_system chunk log).
  destruct (chat w summarize_system chunk log) as [[s|e] log'];
    [apply IH | reflexivity].
Qed.

Lemma summarize_text_truncate (content : string) (log : list call) :
  summarize_text (truncate_organic w) config content log
  = summarize_text w config content log.
Proof.
  unfold summarize_text, try_except, summarize_body, bind, lift.
  cbn [openai_client truncate_organic].
  destruct (openai_client w (openai_api_key config)); [|reflexivity].
  destruct (Nat.ltb max_chunk_size (String.length content)); [|reflexivity].
  now rewrite summarize_chunks_truncate.
Qed.

Lemma scrape_basic_truncate (url : string) (log : list call) :
  scrape_basic (truncate_organic w) config url log
  = scrape_basic w config url log.
Proof.
  unfold scrape_basic, try_except. rewrite !scrape_body_request.
  change (page_request (truncate_organic w) config url log)
    with (page_request w config url log).
  unfold bind, perform, lift.
  destruct (page_request w config url log).2 as [r|e]; [|reflexivity].
  destruct (Z.eqb (status_code r) 200); [|reflexivity].
  cbn [soup_get_text truncate_organic].
  destruct (soup_get_text w (content r)) as [text|e]; [|reflexivity].
  destruct (Nat.ltb 8000 (String.length text)); [|reflexivity].
  now rewrite summarize_text_truncate.
Qed.

Lemma process_results_truncate (query : string)
    (results : list organic_result) (research_data : list string)
    (start : nat) (log : list call) :
  process_results (truncate_organic w) config query research_data start
    results log
  = process_results w config query research_data start results log.
Proof.
  revert research_data start log; induction results as [|r rest IH];
    intros research_data start log; [reflexivity|].
  cbn [process_results]. unfold bind.
  assert (H : process_result (truncate_organic w) config query research_data
                start r log
              = process_result w config query research_data start r log).
  { unfold process_result.
    change (promising (truncate_organic w)) with (promising w).
    destruct (promising w query _ _); [|reflexivity].
    unfold bind. now rewrite scrape_basic_truncate. }
  rewrite H.
  destruct (process_result w config query research_data start r log)
    as [[data|e] log']; [apply IH | reflexivity].
Qed.

Lemma report_body_first_five (query : string) (sr : search_results)
    (log : list call) :
  report_body (truncate_organic w) config query (first_five sr) log
  = report_body w config query sr log.
Proof.
  unfold report_body, now, bind, perform. cbv beta iota.
  cbn [now_strftime file_write truncate_organic first_five sr_organic
       sr_related].
  destruct (sr_organic sr) as [organic|]; cbn [fmap option_fmap option_map];
    [|reflexivity].
  rewrite process_results_truncate.
  replace (List.firstn 5 (List.firstn 5 organic)) with (List.firstn 5 organic);
    [reflexivity|].
  change (@List.firstn) with (@take). now rewrite take_take.
Qed.

Lemma search_truncate (query : string) (log : list call) :
  search (truncate_organic w) query log
  = (truncate_json (search w query log).1, (search w query log).2).
Proof.
  unfold search, try_except_request, try_except, search_body, bind, perform,
    lift, raise, ret.
  cbn [requests_post_serper truncate_organic].
  destruct (requests_post_serper w log query) as [r|e];
    cbn [truncate_response raise_for_status json].
  - destruct (raise_for_status r) as [e|].
    + destruct (is_RequestException e); reflexivity.
    + destruct (json r) as [sr|e]; cbn [truncate_json]; [reflexivity|].
      destruct (is_RequestException e); reflexivity.
  - destruct (is_RequestException e); reflexivity.
Qed.

(** Search results beyond the fifth have no influence on the outcome or
    on the calls of [advanced_research]. *)
Lemma advanced_research_first_five (query : string) (log : list call) :
  advanced_research (truncate_organic w) config query log
  = advanced_research w config query log.
Proof.
  unfold advanced_research, bind. rewrite search_truncate.
  destruct (search w query log) as [[sr|e] log']; cbn [fst snd truncate_json];
    [|reflexivity].
  cbn [first_five sr_error]. destruct (sr_error sr); [reflexivity|].
  apply report_body_first_five.
Qed.

End Truncation.

Section Scraping.

Variable w : World.
Variable config : AgentcyConfig.

Lemma summarize_text_no_page (content : string) :
  adds_at_most is_page_request 0 (summarize_text w config content).
Proof. now apply summarize_text_at_most. Qed.

Lemma at_most_0_only_adds {A} (p : call -> bool) (P : call -> Prop) (m : M A) :
  (forall c, p c = false -> P c) -> adds_at_most p 0 m -> only_adds P m.
Proof.
  intros HP Hm log. destruct (Hm log) as (new & Hlog & Hnew).
  exists new. split; [exact Hlog|].
  apply Forall_forall. intros c Hc. apply HP.
  destruct (p c) eqn:E; [|reflexivity].
  unfold how_many in Hnew.
  assert (Hin : c ∈ List.filter p new).
  { apply list_elem_of_In, filter_In. split; [now apply list_elem_of_In|exact E]. }
  destruct (List.filter p new); [now apply not_elem_of_nil in Hin|].
  simpl in Hnew. lia.
Qed.

Lemma scrape_basic_only_adds (url : string) :
  only_adds (fun c => is_page_request c = true -> requested_url c = Some url)
    (scrape_basic w config url).
Proof.
  unfold scrape_basic.
  apply only_adds_try_except; [|intros e; apply only_adds_ret].
  unfold scrape_body. apply only_adds_bind.
  - destruct (PyStr.truthy_opt _); now apply only_adds_perform.
  - intros r. destruct (Z.eqb _ _); [|apply only_adds_ret].
    apply only_adds_bind; [apply only_adds_lift|]. intros text.
    destruct (Nat.ltb _ _); [|apply only_adds_ret].
    apply (at_most_0_only_adds is_page_request);
      [intros c Hc; congruence | apply summarize_text_no_page].
Qed.

Lemma asks_for_scraped_mono (query : string) (l l' : list organic_result)
    (c : call) :
  (forall r, r ∈ l -> r ∈ l') ->
  asks_for_scraped w query l c -> asks_for_scraped w query l' c.
Proof.
  intros Hsub H Hc. destruct (H Hc) as (r & Hr & Hs & Hu). eauto.
Qed.

Lemma process_result_only_adds (query : string) (research_data : list string)
    (i : nat) (r : organic_result) :
  only_adds (asks_for_scraped w query [r])
    (process_result w config query research_data i r).
Proof.
  unfold process_result. destruct (promising w query _ _) eqn:E;
    [|apply only_adds_ret].
  apply only_adds_bind.
  - eapply only_adds_weaken; [|apply scrape_basic_only_adds].
    intros c Hc Hpage. exists r. split; [apply list_elem_of_here|].
    split; [exact E | now apply Hc].
  - intros s. destruct (usable s); apply only_adds_ret.
Qed.

Lemma process_results_only_adds (query : string)
    (results : list organic_result) (research_data : list string)
    (start : nat) :
  only_adds (asks_for_scraped w query results)
    (process_results w config query research_data start results).
Proof.
  revert research_data start; induction results as [|r rest IH];
    intros research_data start; cbn [process_results].
  - apply only_adds_ret.
  - apply only_adds_bind.
    + eapply only_adds_weaken; [|apply process_result_only_adds].
      intros c. apply asks_for_scraped_mono. intros r' Hr'.
      apply list_elem_of_singleton in Hr' as ->. apply list_elem_of_here.
    + intros data. eapply only_adds_weaken; [|apply IH].
      intros c. apply asks_for_scraped_mono. intros r' Hr'.
      now apply list_elem_of_further.
Qed.

Lemma report_body_only_adds (query : string) (sr : search_results) :
  only_adds (asks_for_scraped w query (processed sr))
    (report_body w config query sr).
Proof.
  unfold report_body. apply only_adds_bind.
  { apply only_adds_perform. discriminate. }
  intros generated. apply only_adds_bind.
  { unfold processed. destruct (sr_organic sr); cbn [default];
      [apply process_results_only_adds | apply only_adds_ret]. }
  intros data. apply only_adds_bind.
  { apply only_adds_perform. discriminate. }
  intros timestamp. apply only_adds_bind.
  { apply only_adds_perform. discriminate. }
  intros _. apply only_adds_ret.
Qed.

Lemma process_result_contributed (query : string) (research_data : list string)
    (i : nat) (r : organic_result) (log : list call) (s : string) :
  fst (scrape_basic w config (default "" (o_link r)) log) = Return s ->
  fst (process_result w config query research_data i r log)
  = Return (research_data ++ contributed w query i r s).
Proof.
  intros Hs. unfold process_result, contributed, scraped.
  destruct (promising w query _ _); cbn [andb].
  - unfold bind.
    destruct (scrape_basic w config (default "" (o_link r)) log)
      as [[s'|e] log'] eqn:E; simpl in Hs; [|discriminate].
    injection Hs as ->.
    destruct (usable s); cbn [fst ret]; unfold additional_content_line;
      now rewrite <- ?app_assoc.
  - cbn [fst ret]. now rewrite app_nil_r.
Qed.

Lemma usable_error (s : string) :
  PyStr.startswith s "Error" = true
  \/ PyStr.startswith s "Scraping failed" = true ->
  usable s = false.
Proof.
  unfold usable. intros [-> | ->]; cbn [negb]; now rewrite ?andb_false_r.
Qed.

(** C9.  [advanced_research] walks through the first five organic results
    only: later entries change neither the report nor the calls; every page
    request it makes asks for the link of one of those five whose title or
    snippet, lowercased, contains a word of the lowercased query; and a
    result whose scraped content starts with "Error" or "Scraping failed"
    contributes its three standard lines and nothing else. *)
Theorem research_report_shape (query : string) (sr : search_results)
    (log : list call) :
  fst (search w query log) = Return sr ->
  advanced_research (truncate_organic w) config query log
  = advanced_research w config query log
  /\ (List.length (processed sr) <= 5)%nat
  /\ (forall c, c ∈ calls_from (advanced_research w config query) log ->
        asks_for_scraped w query (processed sr) c)
  /\ (forall r, scraped w query r = true <->
        exists keyword,
          keyword ∈ PyStr.split (str_isspace w) (str_lower w query)
          /\ (PyStr.contains keyword
                (str_lower w (default "No title" (o_title r))) = true
              \/ PyStr.contains keyword
                   (str_lower w (default "No description" (o_snippet r)))
                 = true))
  /\ (forall research_data i r log' s,
        fst (scrape_basic w config (default "" (o_link r)) log') = Return s ->
        fst (process_result w config query research_data i r log')
        = Return (research_data ++ contributed w query i r s)
        /\ (PyStr.startswith s "Error" = true
            \/ PyStr.startswith s "Scraping failed" = true ->
            contributed w query i r s
            = result_lines i (default "No title" (o_title r))
                (default "No description" (o_snippet r))
                (default "" (o_link r)))).
Proof.
  intros Hsearch. split; [apply advanced_research_first_five|].
  split; [unfold processed; apply firstn_le_length|].
  split; [|split].
  - intros c Hc. unfold calls_from in Hc.
    unfold advanced_research, bind in Hc.
    pose proof (search_calls w query log) as Hlog.
    destruct (search w query log) as [[sr'|e] log1]; simpl in Hsearch, Hlog;
      [|discriminate].
    injection Hsearch as ->. subst log1.
    destruct (sr_error sr).
    + cbn [ret snd] in Hc. rewrite drop_app_length in Hc.
      apply list_elem_of_singleton in Hc as ->. discriminate.
    + destruct (report_body_only_adds query sr (log ++ [CSerperPost query]))
        as (new & Hnew & HP).
      rewrite Hnew, <- app_assoc, drop_app_length in Hc.
      apply elem_of_cons in Hc as [-> | Hc]; [discriminate|].
      rewrite Forall_forall in HP. now apply HP.
  - intros r. unfold scraped, promising. rewrite existsb_exists.
    split; intros (keyword & Hin & Hk); exists keyword.
    + split; [now apply list_elem_of_In|]. now apply orb_true_iff.
    + split; [now apply list_elem_of_In|]. now apply orb_true_iff.
  - intros research_data i r log' s Hs.
    split; [now apply process_result_contributed|].
    intros Herr. unfold contributed.
    now rewrite (usable_error s Herr), andb_false_r, app_nil_r.
Qed.

End Scraping.

(** The coffee search: two results, the second one unrelated to the query,
    so only the first link is requested. *)
Lemma research_report_shape_witness :
  fst (search Worlds.calm "coffee trends" []) = Return Worlds.coffee_results
  /\ asks_for_scraped Worlds.calm "coffee trends"
       (processed Worlds.coffee_results) (CHttpGet "http://example.org/coffee").
Proof.
  split; [reflexivity|].
  destruct (research_report_shape Worlds.calm Worlds.full_config
              "coffee trends" Worlds.coffee_results [])
    as (_ & _ & Hcalls & _).
  - reflexivity.
  - apply Hcalls. apply list_elem_of_In. vm_compute.
    right; right; left; reflexivity.
Defined.

End ReportFacts.

(* ===================================================================== *)
(** ** The file name of a generated image *)
(* ===================================================================== *)

Module ImageFacts.
Import Py Config Effects Tools LogProps EffectFacts.

Lemma length_filter_le (keep : ascii -> bool) (s : string) :
  (String.length (PyStr.filter keep s) <= String.length s)%nat.
Proof.
  induction s as [|a s IH]; simpl; [lia|]. destruct (keep a); simpl; lia.
Qed.

Lemma length_rstrip_le (isspace : ascii -> bool) (s : string) :
  (String.length (PyStr.rstrip isspace s) <= String.length s)%nat.
Proof.
  induction s as [|a s IH]; simpl; [lia|].
  destruct (PyStr.rstrip isspace s); [destruct (isspace a)|]; simpl in *; lia.
Qed.

Section AnyWorld.

Variable w : World.
Variable config : AgentcyConfig.

Lemma safe_prompt_chars (prompt : string) :
  PyStr.forallb (safe_char w) (safe_prompt w prompt) = true.
Proof.
  unfold safe_prompt. apply PyStrFacts.forallb_rstrip.
  apply (PyStrFacts.forallb_filter (safe_char w)).
Qed.

Lemma safe_prompt_length (prompt : string) :
  (String.length (safe_prompt w prompt) <= 30)%nat.
Proof.
  unfold safe_prompt.
  etransitivity; [apply length_rstrip_le|].
  etransitivity; [apply length_filter_le|].
  rewrite PyStrFacts.length_take. lia.
Qed.

Lemma image_name_relative (prompt rest : string) :
  str_isalnum w "/" = false ->
  PyStr.startswith (safe_prompt w prompt +:+ "_" +:+ rest) "/" = false.
Proof.
  intros Hslash. pose proof (safe_prompt_chars prompt) as Hsafe.
  destruct (safe_prompt w prompt) as [|a s]; [reflexivity|].
  cbn [PyStr.forallb] in Hsafe. apply andb_true_iff in Hsafe as [Ha _].
  change (String a s +:+ "_" +:+ rest) with (String a (s +:+ "_" +:+ rest)).
  cbn [PyStr.startswith].
  destruct (Ascii.eqb_spec "/" a) as [<-|]; [|reflexivity].
  unfold safe_char in Ha. rewrite Hslash in Ha. discriminate.
Qed.

Lemma image_filename_inside (prompt current_time : string) :
  str_isalnum w "/" = false ->
  image_filename w config prompt current_time
  = images_dir config +:+ "/" +:+ safe_prompt w prompt +:+ "_"
    +:+ current_time +:+ ".png".
Proof.
  intros Hslash. unfold image_filename, path_join.
  now rewrite image_name_relative.
Qed.

Lemma generate_image_writes (prompt : string) :
  only_adds
    (fun c => forall path data, c = CFileWrite path data ->
       exists log',
         path = image_filename w config prompt
                  (now_strftime w log' "%Y%m%d%H%M%S"))
    (generate_image w config prompt).
Proof.
  unfold generate_image.
  apply only_adds_try_except; [|intros e; apply only_adds_ret].
  unfold generate_image_body.
  destruct (negb _); [apply only_adds_ret|].
  destruct (negb _); [apply only_adds_ret|].
  apply only_adds_bind; [apply only_adds_perform; discriminate|].
  intros [|image_url output]; [apply only_adds_ret|].
  apply only_adds_bind_returned; [apply only_adds_perform; discriminate|].
  intros current_time [log' Hnow]. injection Hnow as <-.
  apply only_adds_bind; [apply only_adds_perform; discriminate|].
  intros r. destruct (Z.eqb _ _); [|apply only_adds_ret].
  apply only_adds_bind; [|intros _; apply only_adds_ret].
  apply only_adds_perform. intros path data [= <- _]. eauto.
Qed.

(** C10.  Every file [generate_image] writes sits directly in the images
    directory under the name made of [safe_prompt], an underscore, the
    clock's timestamp and ".png"; [safe_prompt] is the first 30 characters
    of the prompt, filtered to alphanumerics, space, hyphen and underscore,
    with trailing whitespace stripped, so it has at most 30 characters and
    each of them is one of those. *)
Theorem image_filename_safe (prompt : string) (log : list call) :
  str_isalnum w "/" = false ->
  let safe := safe_prompt w prompt in
  safe = PyStr.rstrip (str_isspace w)
           (PyStr.filter (safe_char w) (PyStr.take 30 prompt))
  /\ PyStr.forallb (safe_char w) safe = true
  /\ (String.length safe <= 30)%nat
  /\ (forall path data,
        CFileWrite path data ∈ calls_from (generate_image w config prompt) log ->
        exists log',
          path = images_dir config +:+ "/" +:+ safe +:+ "_"
                 +:+ now_strftime w log' "%Y%m%d%H%M%S" +:+ ".png").
Proof.
  intros Hslash safe. split; [reflexivity|].
  split; [apply safe_prompt_chars|]. split; [apply safe_prompt_length|].
  intros path data Hin.
  pose proof (only_adds_calls_from _ _ log (generate_image_writes prompt)) as H.
  rewrite Forall_forall in H.
  destruct (H _ Hin path data eq_refl) as [log' ->].
  exists log'. now apply image_filename_inside.
Qed.

End AnyWorld.

(** A prompt with a slash, an exclamation mark and trailing blanks. *)
Lemma image_filename_safe_witness :
  str_isalnum Worlds.calm "/" = false
  /\ exists log',
       "output/images/A cupof coffee_20240101120000.png"
       = "output/images" +:+ "/" +:+ "A cupof coffee" +:+ "_"
         +:+ now_strftime Worlds.calm log' "%Y%m%d%H%M%S" +:+ ".png".
Proof.
  split; [reflexivity|].
  destruct (image_filename_safe Worlds.calm Worlds.full_config
              "A cup/of coffee!  " [])
    as (_ & _ & _ & Hpath).
  - reflexivity.
  - apply (Hpath _ "<p>Roasters grow</p>"). apply list_elem_of_In. vm_compute.
    right; right; right; left; reflexivity.
Defined.

End ImageFacts.

(* ===================================================================== *)
(** ** Configuration errors *)
(* ===================================================================== *)

Module ConfigFacts.
Import Py Config Effects Props Terminal.

Lemma truthy_opt_false (environ : gmap string string) (key : string) :
  PyStr.truthy_opt (environ !! key) = false <-> key_absent environ key.
Proof.
  unfold key_absent. destruct (environ !! key) as [[|a s]|]; simpl.
  - split; auto.
  - split; [discriminate | intros [H|H]; discriminate].
  - split; auto.
Qed.

Lemma validate_false (environ : gmap string string) :
  validate (AgentcyConfig_init environ) = false
  <-> key_absent environ "OPENAI_API_KEY" \/ key_absent environ "SERPER_API_KEY".
Proof.
  rewrite <- !truthy_opt_false.
  unfold validate, missing_keys, AgentcyConfig_init. simpl.
  destruct (PyStr.truthy_opt (environ !! "OPENAI_API_KEY"));
    destruct (PyStr.truthy_opt (environ !! "SERPER_API_KEY")); simpl;
    split; auto; intros [H|H]; discriminate.
Qed.

Lemma validate_true (environ : gmap string string) :
  validate (AgentcyConfig_init environ) = true <-> keys_present environ.
Proof.
  unfold keys_present. rewrite <- validate_false.
  destruct (validate (AgentcyConfig_init environ)); split; congruence.
Qed.

(** Making the directories touches neither the terminal nor the chats. *)
Lemma AgentcyConfig_new_spec (h : Host) (environ : gmap string string)
    (c : console) :
  let out := Chat.AgentcyConfig_new h environ c in
  stdin (snd out) = stdin c
  /\ stdout (snd out) = stdout c
  /\ chats (snd out) = chats c
  /\ (forall config, fst out = Return config ->
        config = AgentcyConfig_init environ)
  /\ (forall e, fst out = Raise e ->
        exists made dir_path, mkdir h made dir_path = Raise e)
  /\ (dirs_creatable h -> fst out = Return (AgentcyConfig_init environ)).
Proof.
  unfold Chat.AgentcyConfig_new, bind, make_dir, ret.
  cbn [AgentcyConfig_init output_dir research_dir content_dir images_dir].
  repeat match goal with
         | |- context [mkdir h ?made ?d] =>
             let E := fresh "E" in
             destruct (mkdir h made d) as [[]|?] eqn:E;
             cbn [fst snd stdin stdout chats dirs]
         end;
    (split; [reflexivity|]; split; [reflexivity|]; split; [reflexivity|];
     split; [intros config [= <-]; reflexivity || discriminate
            | split; [intros e' [= <-]; eauto|]]);
    try (intros e'; discriminate);
    try (intros Hdirs; reflexivity);
    intros Hdirs;
    repeat match goal with
           | E : mkdir h ?made ?d = Raise _ |- _ =>
               rewrite (Hdirs made d) in E; discriminate
           end.
Qed.

(** [validate] prints only when a key is missing. *)
Lemma validate_io_spec (h : Host) (config : AgentcyConfig) (c : console) :
  let out := Chat.validate_io h config c in
  stdin (snd out) = stdin c
  /\ chats (snd out) = chats c
  /\ (validate config = true -> out = (Return true, c))
  /\ (validate config = false ->
      match write h (stdout c) Chat.missing_keys_message with
      | Return _ =>
          fst out = Return false
          /\ stdout (snd out) = stdout c ++ [Chat.missing_keys_message]
      | Raise e => out = (Raise e, c)
      end).
Proof.
  unfold Chat.validate_io, validate.
  destruct (missing_keys config) as [|k ks].
  - repeat split; intros; discriminate || reflexivity.
  - unfold bind, print, ret.
    destruct (write h (stdout c) Chat.missing_keys_message) as [[]|e];
      cbn [fst snd stdin stdout chats];
      repeat split; intros; discriminate || reflexivity.
Qed.

Lemma bind_run {A B} (m : IO A) (k : A -> IO B) (c : console) :
  bind m k c
  = match m c with
    | (Return a, c') => k a c'
    | (Raise e, c') => (Raise e, c')
    end.
Proof. reflexivity. Qed.

(** The outcomes of the constructor, in the order of its steps. *)
Lemma AgentcyCore_init_outcome (h : Host) (environ : gmap string string)
    (c : console) :
  let made := Chat.AgentcyConfig_new h environ c in
  let out := Chat.AgentcyCore_init h environ c in
  match fst made with
  | Raise e => out = (Raise e, snd made)
  | Return config =>
      if validate config then
        out = (match construct h config with
               | Return _ =>
                   Return {| Chat.config := config;
                             Chat.group_chat := Chat.setup_agents |}
               | Raise e => Raise e
               end, snd made)
      else
        match write h (stdout (snd made)) Chat.missing_keys_message with
        | Return _ =>
            fst out = Raise configuration_error
            /\ stdin (snd out) = stdin (snd made)
            /\ chats (snd out) = chats (snd made)
            /\ stdout (snd out)
               = stdout (snd made) ++ [Chat.missing_keys_message]
        | Raise e => out = (Raise e, snd made)
        end
  end.
Proof.
  cbv zeta. unfold Chat.AgentcyCore_init.
  rewrite (bind_run (Chat.AgentcyConfig_new h environ)).
  destruct (Chat.AgentcyConfig_new h environ c) as [[config|e] c1];
    cbn [fst snd]; [|reflexivity].
  destruct (validate_io_spec h config c1) as (Hin & Hch & Htrue & Hfalse).
  rewrite (bind_run (Chat.validate_io h config)).
  destruct (validate config) eqn:V.
  - rewrite (Htrue eq_refl). cbn [negb]. unfold bind, ret.
    destruct (construct h config) as [[]|e]; reflexivity.
  - specialize (Hfalse eq_refl).
    destruct (write h (stdout c1) Chat.missing_keys_message) as [[]|e].
    + destruct Hfalse as (Hret & Hout).
      destruct (Chat.validate_io h config c1) as [[b|e] c2];
        cbn [fst snd] in *; [|discriminate].
      injection Hret as ->. cbn [negb]. unfold raise. cbn [fst snd]. auto.
    + now rewrite Hfalse.
Qed.

(** C5, as the code has it.  [AgentcyCore()] never returns a core when a
    required key (OPENAI_API_KEY, SERPER_API_KEY) is absent.  The output
    directories are made before anything is validated: when making them
    raises, that exception is what the constructor raises, nothing is
    printed and the keys are not looked at.  When the directories can be
    made and the terminal takes the missing-keys line, an absent key raises
    the configuration error; with both keys the outcome is that of building
    the tools and the agents.  A core is returned exactly when both keys
    are there, the directories were made and that building succeeded; its
    configuration then validates, its group chat holds no message and
    allows 25 rounds, and nothing was printed.  Whatever the outcome, the
    constructor reads no input and starts no chat.  Mid-session the image
    tool raises nothing, whatever the configuration, and returns a missing
    optional token as a message; the group chat a core holds is the same
    for every environment, so sessions run from any two cores coincide. *)
Theorem configuration_error_at_setup (h : Host)
    (environ : gmap string string) (c : console) :
  let required_absent :=
    key_absent environ "OPENAI_API_KEY" \/ key_absent environ "SERPER_API_KEY" in
  let made := Chat.AgentcyConfig_new h environ c in
  let out := Chat.AgentcyCore_init h environ c in
  (required_absent -> exists e, fst out = Raise e)
  /\ (forall e, fst made = Raise e ->
        fst out = Raise e /\ stdout (snd out) = stdout c)
  /\ (dirs_creatable h -> writable h ->
      (required_absent -> fst out = Raise configuration_error)
      /\ (keys_present environ ->
          match construct h (AgentcyConfig_init environ) with
          | Return _ => exists core, fst out = Return core
          | Raise e => fst out = Raise e
          end))
  /\ ((exists core, fst out = Return core)
      <-> keys_present environ
          /\ (exists config, fst made = Return config)
          /\ construct h (AgentcyConfig_init environ) = Return tt)
  /\ (forall core, fst out = Return core ->
        Chat.config core = AgentcyConfig_init environ
        /\ validate (Chat.config core) = true
        /\ Chat.gc_messages (Chat.group_chat core) = []
        /\ Chat.max_round (Chat.group_chat core) = 25%nat
        /\ stdout (snd out) = stdout c)
  /\ (stdin (snd out) = stdin c /\ chats (snd out) = chats c)
  /\ (forall w prompt log,
        (exists s, fst (Tools.generate_image w (AgentcyConfig_init environ)
                          prompt log) = Return s)
        /\ (replicate_available w = true ->
            key_absent environ "REPLICATE_API_TOKEN" ->
            Tools.generate_image w (AgentcyConfig_init environ) prompt log
            = (Return "Image generation unavailable: REPLICATE_API_TOKEN not set",
               log)))
  /\ (forall core h' environ' c' core' chooser complete llm_retries capability
             human_declines brand_name project_objective,
        fst out = Return core ->
        fst (Chat.AgentcyCore_init h' environ' c') = Return core' ->
        Session.run_creative_session core chooser complete llm_retries
          capability human_declines brand_name project_objective
        = Session.run_creative_session core' chooser complete llm_retries
            capability human_declines brand_name project_objective).
Proof.
  intros required_absent made out.
  pose proof (AgentcyCore_init_outcome h environ c) as Hout.
  destruct (AgentcyConfig_new_spec h environ c)
    as (Hin & Hso & Hch & Hconf & Hexn & Hdirs).
  fold made in Hin, Hso, Hch, Hconf, Hexn, Hdirs.
  cbv zeta in Hout. fold made out in Hout.
  assert (Habs : required_absent
                 <-> validate (AgentcyConfig_init environ) = false)
    by (symmetry; apply validate_false).
  assert (Hpres : keys_present environ
                  <-> validate (AgentcyConfig_init environ) = true)
    by (symmetry; apply validate_true).
  destruct made as [[config|e] c1]; cbn [fst snd] in *.
  - specialize (Hconf config eq_refl). subst config.
    destruct (validate (AgentcyConfig_init environ)) eqn:V.
    + (* both keys *)
      assert (Hno : ~ required_absent) by (rewrite Habs; discriminate).
      assert (Hyes : keys_present environ) by now apply Hpres.
      rewrite Hout. cbn [fst snd].
      split; [intros H; contradiction|].
      split; [discriminate|].
      split.
      { intros _ _. split; [intros H; contradiction|]. intros _.
        destruct (construct h (AgentcyConfig_init environ)) as [[]|e]; eauto. }
      split.
      { split.
        - intros [core Hcore].
          destruct (construct h (AgentcyConfig_init environ)) as [[]|e];
            [eauto | discriminate].
        - intros (_ & _ & ->). eauto. }
      split.
      { intros core Hcore.
        destruct (construct h (AgentcyConfig_init environ)) as [[]|e];
          [|discriminate].
        injection Hcore as <-. cbn. auto. }
      split; [auto|]. split.
      { intros w prompt log.
      split; [apply ToolFacts.generate_image_returns|].
      intros Hav Hmiss. apply truthy_opt_false in Hmiss.
        unfold Tools.generate_image, try_except, Tools.generate_image_body.
        rewrite Hav. cbn [negb replicate_api_token AgentcyConfig_init].
        now rewrite Hmiss. }
      intros core h' environ' c' core' chooser complete llm_retries capability
        human_declines brand_name project_objective Hcore Hcore'.
      destruct (construct h (AgentcyConfig_init environ)) as [[]|e];
        [|discriminate].
      injection Hcore as <-.
      pose proof (AgentcyCore_init_outcome h' environ' c') as Hout'.
      cbv zeta in Hout'.
      destruct (Chat.AgentcyConfig_new h' environ' c') as [[config'|e'] c1'];
        cbn [fst snd] in Hout'.
      * destruct (validate config').
        -- rewrite Hout' in Hcore'. cbn [fst] in Hcore'.
           destruct (construct h' config') as [[]|e']; [|discriminate].
           injection Hcore' as <-. reflexivity.
        -- destruct (write h' (stdout c1') Chat.missing_keys_message)
             as [[]|e'].
           ++ destruct Hout' as (Hraise & _). congruence.
           ++ rewrite Hout' in Hcore'. discriminate.
      * rewrite Hout' in Hcore'. discriminate.
    + (* a key is missing *)
      assert (Hyes : required_absent) by now apply Habs.
      assert (Hno : ~ keys_present environ) by (rewrite Hpres; discriminate).
      assert (Hfail : exists e, fst out = Raise e).
      { destruct (write h (stdout c1) Chat.missing_keys_message) as [[]|e].
        - destruct Hout as (Hraise & _). eauto.
        - rewrite Hout. eauto. }
      split; [intros _; exact Hfail|].
      split; [discriminate|].
      split.
      { intros _ Hw. split; [|intros H; contradiction]. intros _.
        rewrite (Hw (stdout c1) Chat.missing_keys_message) in Hout.
        now destruct Hout. }
      split.
      { split.
        - intros [core Hcore]. destruct Hfail as [e He]. congruence.
        - intros (H & _). contradiction. }
      split.
      { intros core Hcore. destruct Hfail as [e He]. congruence. }
      split.
      { destruct (write h (stdout c1) Chat.missing_keys_message) as [[]|e].
        - destruct Hout as (_ & Hi & Hc & _). split; congruence.
        - rewrite Hout. cbn [snd]. auto. }
      split.
      { intros w prompt log.
      split; [apply ToolFacts.generate_image_returns|].
      intros Hav Hmiss. apply truthy_opt_false in Hmiss.
        unfold Tools.generate_image, try_except, Tools.generate_image_body.
        rewrite Hav. cbn [negb replicate_api_token AgentcyConfig_init].
        now rewrite Hmiss. }
      intros core h' environ' c' core' chooser complete llm_retries capability
        human_declines brand_name project_objective Hcore.
      destruct Hfail as [e He]. congruence.
  - (* a directory cannot be made *)
    rewrite Hout. cbn [fst snd].
    split; [eauto|]. split; [intros e' [= <-]; auto|].
    split.
    { intros Hd. specialize (Hdirs Hd). discriminate. }
    split.
    { split; [intros [core H]; discriminate|].
      intros (_ & [config H] & _). discriminate. }
    split; [discriminate|]. split; [auto|]. split.
    { intros w prompt log.
      split; [apply ToolFacts.generate_image_returns|].
      intros Hav Hmiss. apply truthy_opt_false in Hmiss.
      unfold Tools.generate_image, try_except, Tools.generate_image_body.
      rewrite Hav. cbn [negb replicate_api_token AgentcyConfig_init].
      now rewrite Hmiss. }
    discriminate.
Qed.


(** Both keys are set and construction fails all the same: the working
    directory cannot be written, or the framework refuses to build the
    agents.  With the search key missing and the directory locked the
    exception is the file system's, not the configuration error. *)
Lemma construction_fails_with_both_keys :
  keys_present MoreWorlds.complete_environ
  /\ fst (Chat.AgentcyCore_init MoreWorlds.locked MoreWorlds.complete_environ
            MoreWorlds.typed_session)
     = Raise (Exn OSError "[Errno 30] Read-only file system: 'output'")
  /\ fst (Chat.AgentcyCore_init MoreWorlds.no_agents
            MoreWorlds.complete_environ MoreWorlds.typed_session)
     = Raise (Exn OtherException "Docker is not running")
  /\ fst (Chat.AgentcyCore_init MoreWorlds.locked
            {[ "OPENAI_API_KEY" := "sk-test" ]} MoreWorlds.typed_session)
     = Raise (Exn OSError "[Errno 30] Read-only file system: 'output'")
  /\ Exn OSError "[Errno 30] Read-only file system: 'output'"
     <> configuration_error.
Proof.
  split.
  { intros [[H|H]|[H|H]]; vm_compute in H; discriminate. }
  repeat split; try (vm_compute; reflexivity). discriminate.
Qed.

(** An environment without the search key, on a host where everything
    else works. *)
Lemma configuration_error_at_setup_witness :
  dirs_creatable MoreWorlds.helpful
  /\ writable MoreWorlds.helpful
  /\ fst (Chat.AgentcyCore_init MoreWorlds.helpful
            {[ "OPENAI_API_KEY" := "sk-test" ]} MoreWorlds.typed_session)
     = Raise configuration_error.
Proof.
  assert (Hd : dirs_creatable MoreWorlds.helpful) by (intros made d; reflexivity).
  assert (Hw : writable MoreWorlds.helpful) by (intros out s; reflexivity).
  split; [exact Hd|]. split; [exact Hw|].
  destruct (configuration_error_at_setup MoreWorlds.helpful
              {[ "OPENAI_API_KEY" := "sk-test" ]} MoreWorlds.typed_session)
    as (_ & _ & Hsetup & _).
  destruct (Hsetup Hd Hw) as (Hfail & _).
  apply Hfail. right. left. reflexivity.
Defined.

End ConfigFacts.
(* ===================================================================== *)
(** ** Failures inside the tools *)
(* ===================================================================== *)

Module FailureFacts.
Import Py Config Effects Tools LogProps EffectFacts.

Lemma try_except_converts {A} (m : M A) (f : exn -> A) (log : list call)
    (e : exn) :
  fst (m log) = Raise e ->
  fst (try_except m (fun e => ret (f e)) log) = Return (f e).
Proof.
  unfold try_except. destruct (m log) as [[a|e'] log']; simpl; [discriminate|].
  now intros [= ->].
Qed.

Section Failures.

Variable w : World.
Variable config : AgentcyConfig.

(** The download of [generate_image] cannot be saved: the exception of
    [open] is caught by the tool's [except] clause. *)
Lemma generate_image_write_failure (prompt image_url : string)
    (rest : list string) (response : response) (log : list call) (e : exn) :
  replicate_available w = true ->
  PyStr.truthy_opt (replicate_api_token config) = true ->
  (forall log', replicate_run w log' sdxl_model prompt
                = Return (image_url :: rest)) ->
  (forall log', requests_get w log' image_url = Return response) ->
  status_code response = 200%Z ->
  (forall log' path data, file_write w log' path data = Raise e) ->
  fst (generate_image w config prompt log)
  = Return ("Image generation error: " +:+ str e).
Proof.
  intros Hav Htoken Hrun Hget Hstatus Hwrite. unfold generate_image.
  apply (try_except_converts _ (fun e => "Image generation error: " +:+ str e)).
  unfold generate_image_body. rewrite Hav, Htoken. cbn [negb].
  unfold now, bind, perform. cbv beta iota. rewrite Hrun. cbv beta iota.
  rewrite Hget. cbv beta iota. rewrite Hstatus. cbn [Z.eqb Pos.eqb].
  now rewrite Hwrite.
Qed.

(** C3.  The claim fails on [advanced_research].  When the search has
    answered without an error and the file system refuses the report, the
    exception of the unguarded [open] at the end of [advanced_research]
    leaves the tool function: nothing converts it into a result.  The
    sibling tool [generate_image] does what the claim says on the same
    failure: it returns on every input, and when its download cannot be
    saved the same exception comes back as the text
    "Image generation error: " followed by the exception's text. *)
Theorem research_write_failure_escapes
    (query prompt image_url : string) (rest : list string)
    (response : response) (sr : search_results) (log : list call) (e : exn) :
  (forall log' path data, file_write w log' path data = Raise e) ->
  fst (search w query log) = Return sr ->
  sr_error sr = None ->
  replicate_available w = true ->
  PyStr.truthy_opt (replicate_api_token config) = true ->
  (forall log', replicate_run w log' sdxl_model prompt
                = Return (image_url :: rest)) ->
  (forall log', requests_get w log' image_url = Return response) ->
  status_code response = 200%Z ->
  fst (advanced_research w config query log) = Raise e
  /\ fst (generate_image w config prompt log)
     = Return ("Image generation error: " +:+ str e)
  /\ (forall prompt' log',
        exists s, fst (generate_image w config prompt' log') = Return s).
Proof.
  intros Hwrite Hsearch Herr Hav Htoken Hrun Hget Hstatus.
  split; [|split].
  - unfold advanced_research, bind.
    destruct (search w query log) as [[sr'|e'] log1]; cbn [fst] in Hsearch;
      [|discriminate].
    injection Hsearch as ->. rewrite Herr.
    now apply ToolFacts.report_body_write_failure.
  - now apply (generate_image_write_failure prompt image_url rest response).
  - intros prompt' log'. apply ToolFacts.generate_image_returns.
Qed.

End Failures.

(** The research directory is read-only: the research call raises what
    [open] raised, the image call reports it. *)
Lemma research_write_failure_escapes_witness :
  fst (advanced_research Worlds.read_only Worlds.full_config "coffee trends" [])
  = Raise (Exn OSError "[Errno 30] Read-only file system")
  /\ fst (generate_image Worlds.read_only Worlds.full_config
            "A cup of coffee" [])
     = Return "Image generation error: [Errno 30] Read-only file system".
Proof.
  destruct (research_write_failure_escapes Worlds.read_only Worlds.full_config
              "coffee trends" "A cup of coffee"
              "http://example.org/image.png" []
              (Worlds.page 200 "<p>Roasters grow</p>")
              Worlds.coffee_results []
              (Exn OSError "[Errno 30] Read-only file system"))
    as (Hresearch & Himage & _);
    try reflexivity.
  split; [exact Hresearch | exact Himage].
Defined.

End FailureFacts.

(* ===================================================================== *)
(** ** More facts about the string functions *)
(* ===================================================================== *)

Module PyStrMoreFacts.
Import PyStr PyStrMore.

Lemma take_drop (n : nat) (s : string) : take n s +:+ drop n s = s.
Proof.
  revert s; induction n as [|n IH]; intros [|a s]; simpl; try reflexivity.
  change (String a (take n s +:+ drop n s) = String a s). now rewrite IH.
Qed.

Lemma length_drop (n : nat) (s : string) :
  String.length (drop n s) = (String.length s - n)%nat.
Proof.
  revert s; induction n as [|n IH]; intros [|a s]; simpl; auto.
Qed.

Lemma chunks_go_spec (n fuel : nat) (s : string) :
  (0 < n)%nat -> (String.length s <= fuel)%nat ->
  concat (chunks_go fuel n s) = s
  /\ Forall (fun c => (0 < String.length c <= n)%nat) (chunks_go fuel n s)
  /\ (String.length s <= n * List.length (chunks_go fuel n s))%nat
  /\ (s <> EmptyString ->
      (n * (List.length (chunks_go fuel n s) - 1) < String.length s)%nat).
Proof.
  intros Hn. revert s; induction fuel as [|fuel IH]; intros s Hfuel.
  - destruct s; simpl in *; [|lia].
    repeat split; [constructor | lia | congruence].
  - destruct s as [|a s]; [simpl; repeat split; [constructor|lia|congruence]|].
    cbn [chunks_go].
    set (t := String a s) in *.
    assert (Ht : (0 < String.length t)%nat) by (unfold t; simpl; lia).
    assert (Hd : (String.length (drop n t) <= fuel)%nat).
    { rewrite length_drop. simpl in Hfuel. unfold t in *. simpl in *. lia. }
    destruct (IH (drop n t) Hd) as (Hcat & Hall & Hup & Hlow).
    cbn [concat List.length]. rewrite Hcat, take_drop.
    split; [reflexivity|]. split; [|split].
    + constructor; [|exact Hall]. rewrite PyStrFacts.length_take. lia.
    + rewrite length_drop in Hup. nia.
    + intros _. rewrite length_drop in Hup, Hlow.
      destruct (drop n t) as [|b d] eqn:E.
      * destruct fuel; simpl; lia.
      * specialize (Hlow ltac:(congruence)).
        assert (String.length (String b d) = (String.length t - n)%nat)
          by (rewrite <- E; apply length_drop).
        simpl in H. nia.
Qed.

(** Splitting. *)
Lemma split_go_blank (isspace : ascii -> bool) (cur : list ascii) (s : string) :
  forallb isspace s = true ->
  split_go isspace cur s
  = match cur with [] => [] | _ => [string_of_list_ascii (rev cur)] end.
Proof.
  induction s as [|a s IH]; intros Hs; [reflexivity|].
  cbn [forallb] in Hs. apply andb_true_iff in Hs as [Ha Hs].
  cbn [split_go]. rewrite Ha. specialize (IH Hs).
  assert (H0 : split_go isspace [] s = []).
  { clear IH. revert Hs. induction s as [|b s IHs]; intros Hs; [reflexivity|].
    cbn [forallb] in Hs. apply andb_true_iff in Hs as [Hb Hs].
    cbn [split_go]. rewrite Hb. now apply IHs. }
  rewrite H0. now rewrite app_nil_r.
Qed.

Lemma forallb_string_of_list (p : ascii -> bool) (l : list ascii) :
  forallb p (string_of_list_ascii l) = List.forallb p l.
Proof. induction l as [|a l IH]; simpl; [reflexivity | now rewrite IH]. Qed.

Lemma string_of_list_nonempty (l : list ascii) :
  l <> [] -> string_of_list_ascii l <> EmptyString.
Proof. destruct l; [congruence | discriminate]. Qed.

Lemma split_go_words (isspace : ascii -> bool) (cur : list ascii) (s : string) :
  List.forallb (fun c => negb (isspace c)) cur = true ->
  Forall (fun word => word <> EmptyString
                      /\ forallb (fun c => negb (isspace c)) word = true)
    (split_go isspace cur s).
Proof.
  revert cur; induction s as [|a s IH]; intros cur Hcur; cbn [split_go].
  - destruct cur as [|c cur]; [constructor|].
    constructor; [|constructor]. split.
    + apply string_of_list_nonempty. intros H.
      apply (f_equal (@List.length _)) in H. rewrite length_rev in H.
      discriminate.
    + rewrite forallb_string_of_list.
      rewrite List.forallb_forall in *. intros x Hx.
      apply Hcur. now apply in_rev in Hx.
  - destruct (isspace a) eqn:Ea.
    + apply Forall_app. split; [|now apply IH].
      destruct cur as [|c cur]; [constructor|].
      constructor; [|constructor]. split.
      * apply string_of_list_nonempty. intros H.
        apply (f_equal (@List.length _)) in H. rewrite length_rev in H.
        discriminate.
      * rewrite forallb_string_of_list.
        rewrite List.forallb_forall in *. intros x Hx.
        apply Hcur. now apply in_rev in Hx.
    + apply IH. simpl. now rewrite Ea.
Qed.

(** Stripping. *)
Lemma rstrip_blank (isspace : ascii -> bool) (s : string) :
  rstrip isspace s = EmptyString <-> forallb isspace s = true.
Proof.
  induction s as [|a s IH]; simpl; [tauto|].
  destruct (rstrip isspace s) as [|b r] eqn:E.
  - destruct (isspace a); simpl.
    + rewrite <- IH. tauto.
    + split; [discriminate | discriminate].
  - split; [discriminate|]. intros [_ H]%andb_true_iff.
    apply IH in H. discriminate.
Qed.

Lemma lstrip_blank (isspace : ascii -> bool) (s : string) :
  lstrip isspace s = EmptyString <-> forallb isspace s = true.
Proof.
  induction s as [|a s IH]; simpl; [tauto|].
  destruct (isspace a); simpl; [exact IH|].
  split; discriminate.
Qed.

Lemma forallb_lstrip (isspace : ascii -> bool) (s : string) :
  forallb isspace (lstrip isspace s) = true -> forallb isspace s = true.
Proof.
  induction s as [|a s IH]; simpl; [auto|].
  destruct (isspace a) eqn:E; simpl; [auto|]. now rewrite E.
Qed.

Lemma strip_blank (isspace : ascii -> bool) (s : string) :
  strip isspace s = EmptyString <-> forallb isspace s = true.
Proof.
  unfold strip. rewrite rstrip_blank. split.
  - apply forallb_lstrip.
  - intros H. apply lstrip_blank in H. now rewrite H.
Qed.

Lemma rstrip_last (isspace : ascii -> bool) (s : string) (c : ascii) :
  last_char (rstrip isspace s) = Some c -> isspace c = false.
Proof.
  induction s as [|a s IH]; simpl; [discriminate|].
  destruct (rstrip isspace s) as [|b r] eqn:E.
  - destruct (isspace a) eqn:Ea; simpl; [discriminate|]. now intros [= <-].
  - cbn [last_char]. exact IH.
Qed.

Lemma rstrip_fixed (isspace : ascii -> bool) (s : string) :
  (forall c, last_char s = Some c -> isspace c = false) ->
  rstrip isspace s = s.
Proof.
  induction s as [|a s IH]; intros Hlast; simpl; [reflexivity|].
  destruct s as [|b s].
  - simpl. now rewrite (Hlast a eq_refl).
  - rewrite IH by (intros c Hc; apply Hlast; exact Hc). reflexivity.
Qed.

Lemma filter_fixed (keep : ascii -> bool) (s : string) :
  forallb keep s = true -> filter keep s = s.
Proof.
  induction s as [|a s IH]; simpl; [reflexivity|].
  intros [Ha Hs]%andb_true_iff. now rewrite Ha, IH.
Qed.

Lemma take_fixed (n : nat) (s : string) :
  (String.length s <= n)%nat -> take n s = s.
Proof.
  revert s; induction n as [|n IH]; intros [|a s]; simpl; intros H;
    try reflexivity; [lia|]. rewrite IH; [reflexivity | lia].
Qed.

(** Substrings of joined and appended strings. *)
Lemma append_assoc (a b c : string) : (a +:+ b) +:+ c = a +:+ b +:+ c.
Proof.
  induction a as [|x a IH]; [reflexivity|].
  change (String x ((a +:+ b) +:+ c) = String x (a +:+ b +:+ c)).
  now rewrite IH.
Qed.

Lemma append_empty_r (a : string) : a +:+ EmptyString = a.
Proof.
  induction a as [|x a IH]; [reflexivity|].
  change (String x (a +:+ EmptyString) = String x a). now rewrite IH.
Qed.

Lemma contains_refl (s : string) : contains s s = true.
Proof.
  apply PyStrFacts.contains_spec. exists EmptyString, EmptyString.
  simpl. now rewrite append_empty_r.
Qed.

Lemma contains_app_l (needle s t : string) :
  contains needle s = true -> contains needle (s +:+ t) = true.
Proof.
  rewrite !PyStrFacts.contains_spec. intros (pre & post & ->).
  exists pre, (post +:+ t). now rewrite !append_assoc.
Qed.

Lemma contains_app_r (needle s t : string) :
  contains needle t = true -> contains needle (s +:+ t) = true.
Proof.
  rewrite !PyStrFacts.contains_spec. intros (pre & post & ->).
  exists (s +:+ pre), post. now rewrite !append_assoc.
Qed.

Lemma contains_trans (a b c : string) :
  contains a b = true -> contains b c = true -> contains a c = true.
Proof.
  rewrite !PyStrFacts.contains_spec.
  intros (p1 & q1 & ->) (p2 & q2 & ->).
  exists (p2 +:+ p1), (q1 +:+ q2). now rewrite !append_assoc.
Qed.

Lemma contains_join (sep part : string) (parts : list string) :
  part ∈ parts -> contains part (join sep parts) = true.
Proof.
  induction parts as [|p rest IH]; intros Hin.
  - now apply not_elem_of_nil in Hin.
  - apply elem_of_cons in Hin as [-> | Hin].
    + destruct rest; cbn [join]; [apply contains_refl|].
      apply contains_app_l, contains_refl.
    + destruct rest as [|q rest]; [now apply not_elem_of_nil in Hin|].
      cbn [join]. apply contains_app_r, contains_app_r. now apply IH.
Qed.

Lemma startswith_app (s t : string) : startswith (s +:+ t) s = true.
Proof. apply PyStrFacts.startswith_spec. now exists t. Qed.

End PyStrMoreFacts.

(* ===================================================================== *)
(** ** Summaries and searches *)
(* ===================================================================== *)

Module SummaryFacts.
Import Py Config Effects Tools LogProps MoreProps EffectFacts PyStrMoreFacts.

(** X3.  The chunks [summarize_text] cuts a long text into lose nothing: joined
    again they give the text back, none is empty or longer than the chunk
    size, and their number is the text length divided by the chunk size,
    rounded up. *)
Theorem chunks_partition (n : nat) (s : string) :
  (0 < n)%nat ->
  PyStrMore.concat (PyStr.chunks n s) = s
  /\ Forall (fun c => (0 < String.length c <= n)%nat) (PyStr.chunks n s)
  /\ (String.length s <= n * List.length (PyStr.chunks n s))%nat
  /\ (s <> EmptyString ->
      (n * (List.length (PyStr.chunks n s) - 1) < String.length s)%nat).
Proof.
  intros Hn. unfold PyStr.chunks. now apply chunks_go_spec.
Qed.

Lemma chunks_partition_witness :
  (0 < 3)%nat
  /\ PyStrMore.concat (PyStr.chunks 3 "abcdefgh") = "abcdefgh"
  /\ List.length (PyStr.chunks 3 "abcdefgh") = 3%nat.
Proof.
  split; [lia|].
  destruct (chunks_partition 3 "abcdefgh") as (Hcat & _); [lia|].
  split; [exact Hcat | reflexivity].
Defined.

Section AnyWorld.

Variable w : World.
Variable config : AgentcyConfig.

Lemma summarize_chunks_chats (chunks summaries : list string) :
  adds_at_most is_chat (List.length chunks)
    (summarize_chunks w chunks summaries).
Proof.
  revert summaries; induction chunks as [|chunk rest IH]; intros summaries;
    cbn [summarize_chunks List.length].
  - apply at_most_ret.
  - apply (at_most_bind is_chat 1 (List.length rest));
      [|intros s; apply IH|lia].
    apply at_most_perform. simpl. lia.
Qed.

Lemma summarize_chunks_only_chats (chunks summaries : list string) :
  only_adds (fun c => is_chat c = true) (summarize_chunks w chunks summaries).
Proof.
  revert summaries; induction chunks as [|chunk rest IH]; intros summaries;
    cbn [summarize_chunks].
  - apply only_adds_ret.
  - apply only_adds_bind; [now apply only_adds_perform | intros s; apply IH].
Qed.

Lemma summarize_text_only_chats (content : string) :
  only_adds (fun c => is_chat c = true) (summarize_text w config content).
Proof.
  unfold summarize_text.
  apply only_adds_try_except; [|intros e; apply only_adds_ret].
  unfold summarize_body. apply only_adds_bind; [apply only_adds_lift|].
  intros _. destruct (Nat.ltb _ _).
  - apply only_adds_bind; [apply summarize_chunks_only_chats|].
    intros summaries. destruct (Nat.ltb _ _);
      [now apply only_adds_perform | apply only_adds_ret].
  - now apply only_adds_perform.
Qed.

Lemma summarize_text_chat_bound (content : string) :
  adds_at_most is_chat (List.length (PyStr.chunks max_chunk_size content) + 1)
    (summarize_text w config content).
Proof.
  unfold summarize_text.
  apply (at_most_try_except is_chat
           (List.length (PyStr.chunks max_chunk_size content) + 1) 0);
    [|intros e; apply at_most_ret|lia].
  unfold summarize_body.
  apply (at_most_bind is_chat 0
           (List.length (PyStr.chunks max_chunk_size content) + 1));
    [apply at_most_lift| |lia].
  intros _. destruct (Nat.ltb _ _).
  - apply (at_most_bind is_chat
             (List.length (PyStr.chunks max_chunk_size content)) 1);
      [apply summarize_chunks_chats| |lia].
    intros summaries. destruct (Nat.ltb _ _); [|apply at_most_ret].
    apply at_most_perform. simpl. lia.
  - apply at_most_perform. simpl. lia.
Qed.

(** X4.  [summarize_text] talks to the chat model and to nothing else, at most
    once per chunk plus once for the summary of summaries.  A text of at
    most 15000 characters goes to the model whole, in a single call, and
    the model's answer is the result; when anything raises, the result is
    the failure text, which quotes no more than the first 1000 characters
    of the text. *)
Theorem summarize_text_calls (content : string) (log : list call) :
  let calls := calls_from (summarize_text w config content) log in
  Forall (fun c => is_chat c = true) calls
  /\ (how_many is_chat calls
      <= List.length (PyStr.chunks max_chunk_size content) + 1)%nat
  /\ ((String.length content <= max_chunk_size)%nat ->
      (forall e, openai_client w (openai_api_key config) = Raise e ->
         calls = [])
      /\ (openai_client w (openai_api_key config) = Return tt ->
          calls = [COpenAIChat summarize_system content]
          /\ forall answer,
               openai_chat w log summarize_system content = Return answer ->
               fst (summarize_text w config content log) = Return answer))
  /\ (forall e, fst (summarize_body w config content log) = Raise e ->
        fst (summarize_text w config content log)
        = Return ("Summarization failed: " +:+ str e
                  +:+ ". Original content (truncated): "
                  +:+ PyStr.take 1000 content +:+ "...")
        /\ (String.length (PyStr.take 1000 content) <= 1000)%nat).
Proof.
  intros calls. split; [|split; [|split]].
  - apply only_adds_calls_from, summarize_text_only_chats.
  - apply at_most_calls_from, summarize_text_chat_bound.
  - intros Hlen. apply Nat.ltb_ge in Hlen.
    unfold calls, calls_from, summarize_text, try_except, summarize_body,
      bind, lift, chat, perform, ret.
    rewrite Hlen. split.
    + intros e ->. cbn [snd]. now rewrite drop_all.
    + intros ->. cbn [fst snd]. split.
      * destruct (openai_chat w log summarize_system content); cbn [snd];
          now rewrite drop_app_length.
      * intros answer ->. reflexivity.
  - intros e He. split.
    + unfold summarize_text, try_except.
      destruct (summarize_body w config content log) as [[s|e'] log'];
        simpl in He; [discriminate|]. now injection He as ->.
    + rewrite PyStrFacts.length_take. apply Nat.le_min_l.
Qed.

(** X1.  What [search] makes of the three steps of its [try] block: one request
    and no more; the decoded JSON when all three steps succeed; the error
    dictionary when a step raises a request exception; and any other
    exception unchanged, out of [search]. *)
Theorem search_outcomes (query : string) (log : list call) :
  snd (search w query log) = log ++ [CSerperPost query]
  /\ (forall r sr, requests_post_serper w log query = Return r ->
        raise_for_status r = None -> json r = Return sr ->
        fst (search w query log) = Return sr)
  /\ (forall r e, requests_post_serper w log query = Return r ->
        raise_for_status r = Some e ->
        fst (search_body w query log) = Raise e)
  /\ (forall e, fst (search_body w query log) = Raise e ->
        fst (search w query log)
        = if is_RequestException e then Return (search_error e) else Raise e).
Proof.
  split; [apply ToolFacts.search_calls|]. split; [|split].
  - intros r sr Hpost Hstatus Hjson.
    unfold search, try_except_request, try_except, search_body, bind, perform,
      lift. cbv beta. now rewrite Hpost, Hstatus, Hjson.
  - intros r e Hpost Hstatus.
    unfold search_body, bind, perform, lift. cbv beta.
    now rewrite Hpost, Hstatus.
  - intros e He. unfold search, try_except_request, try_except.
    destruct (search_body w query log) as [[sr|e'] log'];
      simpl in He; [discriminate|]. injection He as ->.
    unfold search_error. now destruct (is_RequestException e).
Qed.

(** X5.  When the search result carries an error, because the request failed or
    because the API answered with an "error" entry, [advanced_research]
    returns "Research failed: " and that error after the single search
    request: no page is fetched, no clock is read, no report is written. *)
Theorem research_failed_is_quiet (query : string) (log : list call)
    (sr : search_results) (err : string) :
  fst (search w query log) = Return sr ->
  sr_error sr = Some err ->
  advanced_research w config query log
  = (Return ("Research failed: " +:+ err), log ++ [CSerperPost query]).
Proof.
  intros Hsr Herr. unfold advanced_research, bind.
  pose proof (ToolFacts.search_calls w query log) as Hlog.
  destruct (search w query log) as [[sr'|e] log']; simpl in Hsr, Hlog;
    [|discriminate].
  injection Hsr as ->. subst log'. now rewrite Herr.
Qed.

End AnyWorld.

Lemma research_failed_is_quiet_witness :
  advanced_research MoreWorlds.offline Worlds.full_config "coffee trends" []
  = (Return "Research failed: Search failed: Connection timed out",
     [CSerperPost "coffee trends"]).
Proof.
  apply (research_failed_is_quiet MoreWorlds.offline Worlds.full_config
           "coffee trends" []
           (search_error (Exn RequestException "Connection timed out"))
           "Search failed: Connection timed out");
    reflexivity.
Defined.

Lemma summarize_text_calls_witness :
  calls_from (summarize_text Worlds.calm Worlds.full_config "short text") []
  = [COpenAIChat summarize_system "short text"].
Proof.
  destruct (summarize_text_calls Worlds.calm Worlds.full_config "short text" [])
    as (_ & _ & Hshort & _).
  destruct Hshort as (_ & Hok).
  - apply Nat.ltb_ge. vm_compute. reflexivity.
  - now destruct Hok.
Defined.

Lemma search_outcomes_witness :
  fst (search MoreWorlds.offline "coffee trends" [])
  = Return (search_error (Exn RequestException "Connection timed out")).
Proof.
  destruct (search_outcomes MoreWorlds.offline "coffee trends" [])
    as (_ & _ & _ & Hraise).
  apply (Hraise (Exn RequestException "Connection timed out")). reflexivity.
Defined.

End SummaryFacts.

(* ===================================================================== *)
(** ** The report, the pages and the images, once more *)
(* ===================================================================== *)

Module PageFacts.
Import Py Config Effects Tools LogProps MoreProps EffectFacts PyStrMoreFacts.

Section AnyWorld.

Variable w : World.
Variable config : AgentcyConfig.

Lemma summarize_text_pages (content : string) :
  adds_at_most is_page_request 0 (summarize_text w config content).
Proof. now apply ToolFacts.summarize_text_at_most. Qed.

Lemma scrape_basic_one_page (url : string) :
  adds_at_most is_page_request 1 (scrape_basic w config url).
Proof.
  unfold scrape_basic.
  apply (at_most_try_except is_page_request 1 0);
    [|intros e; apply at_most_ret|lia].
  unfold scrape_body. apply (at_most_bind is_page_request 1 0); [| |lia].
  - destruct (PyStr.truthy_opt _); apply at_most_perform; simpl; lia.
  - intros r. destruct (Z.eqb _ _); [|apply at_most_ret].
    apply (at_most_bind is_page_request 0 0); [apply at_most_lift| |lia].
    intros text. destruct (Nat.ltb _ _);
      [apply summarize_text_pages | apply at_most_ret].
Qed.

Lemma process_results_pages (query : string) (results : list organic_result)
    (research_data : list string) (start : nat) :
  adds_at_most is_page_request (List.length results)
    (process_results w config query research_data start results).
Proof.
  revert research_data start; induction results as [|r rest IH];
    intros research_data start; cbn [process_results List.length].
  - apply at_most_ret.
  - apply (at_most_bind is_page_request 1 (List.length rest));
      [|intros data; apply IH|lia].
    unfold process_result. destruct (promising _ _ _ _); [|apply at_most_ret].
    apply (at_most_bind is_page_request 1 0);
      [apply scrape_basic_one_page| |lia].
    intros s. destruct (usable s); apply at_most_ret.
Qed.

Lemma report_body_pages (query : string) (sr : search_results) :
  adds_at_most is_page_request 5 (report_body w config query sr).
Proof.
  unfold report_body.
  apply (at_most_bind is_page_request 0 5); [| |lia].
  { apply at_most_perform. simpl. lia. }
  intros generated. apply (at_most_bind is_page_request 5 0); [| |lia].
  { destruct (sr_organic sr) as [organic|]; [|apply at_most_ret].
    intros log.
    destruct (process_results_pages query (List.firstn 5 organic)
                ([ "# Research Report: " +:+ query +:+ nl;
                   "Generated on: " +:+ generated +:+ nl ]
                 ++ ["## Key Findings" +:+ nl]) 0 log)
      as (new & Hlog & Hnew).
    exists new. split; [exact Hlog|].
    pose proof (firstn_le_length 5 organic). lia. }
  intros data. apply (at_most_bind is_page_request 0 0); [| |lia].
  { apply at_most_perform. simpl. lia. }
  intros timestamp. apply (at_most_bind is_page_request 0 0); [| |lia].
  { apply at_most_perform. simpl. lia. }
  intros _. apply at_most_ret.
Qed.

(** X2.  One research call fetches at most five pages, and one scrape exactly
    one: the page request is the first thing [scrape_basic] does, through
    Browserless when that key is set and directly otherwise, never both,
    and everything after it is a call to the chat model. *)
Theorem page_requests_bounded (query url : string) (log : list call) :
  (how_many is_page_request
     (calls_from (advanced_research w config query) log) <= 5)%nat
  /\ (exists chats,
        calls_from (scrape_basic w config url) log
        = (page_request w config url log).1 :: chats
        /\ Forall (fun c => is_chat c = true) chats)
  /\ (page_request w config url log).1
     = (if PyStr.truthy_opt (browserless_api_key config)
        then CBrowserlessPost (PyStr.fmt_opt (browserless_api_key config)) url
        else CHttpGet url).
Proof.
  split; [|split].
  - apply at_most_calls_from. unfold advanced_research.
    apply (at_most_bind is_page_request 0 5); [| |lia].
    + intros log0. exists [CSerperPost query].
      split; [apply ToolFacts.search_calls | unfold how_many; simpl; lia].
    + intros sr. destruct (sr_error sr);
        [apply at_most_ret | apply report_body_pages].
  - unfold calls_from, scrape_basic, try_except.
    rewrite ToolFacts.scrape_body_request.
    set (request := page_request w config url log).
    unfold bind, perform, lift, ret.
    destruct request.2 as [r|e]; cbn [snd].
    + destruct (Z.eqb (status_code r) 200); cbn [snd].
      * destruct (soup_get_text w (content r)) as [text|e]; cbn [snd].
        -- destruct (Nat.ltb 8000 (String.length text)).
           ++ destruct (SummaryFacts.summarize_text_only_chats w config text
                          (log ++ [request.1])) as (new & Hnew & Hchats).
              exists new. split; [|exact Hchats].
              destruct (summarize_text w config text (log ++ [request.1]))
                as [[s|e] log'] eqn:E; simpl in Hnew; subst log';
                cbn [snd]; rewrite <- (app_assoc log); apply drop_app_length.
           ++ exists []. split; [cbn [snd]; apply drop_app_length | constructor].
        -- exists []. split; [cbn [snd]; apply drop_app_length | constructor].
      * exists []. split; [cbn [snd]; apply drop_app_length | constructor].
    + exists []. split; [cbn [snd]; apply drop_app_length | constructor].
  - unfold page_request. now destruct (PyStr.truthy_opt _).
Qed.

(** X6.  A query without a word, empty or blank once lowercased, makes the
    guard of the loop false for every result, so that research call fetches
    no page; and the words the guard does test are never empty and contain
    no whitespace. *)
Theorem blank_query_scrapes_nothing (query : string) (log : list call) :
  (blank (str_isspace w) (str_lower w query) = true ->
   how_many is_page_request
     (calls_from (advanced_research w config query) log) = 0%nat)
  /\ Forall (fun keyword =>
               keyword <> EmptyString
               /\ PyStr.forallb (fun c => negb (str_isspace w c)) keyword = true)
       (PyStr.split (str_isspace w) (str_lower w query)).
Proof.
  split; [|now apply split_go_words].
  intros Hblank.
  assert (Hguard : forall title snippet, promising w query title snippet = false).
  { intros title snippet. unfold promising, PyStr.split.
    now rewrite (split_go_blank _ [] _ Hblank). }
  assert (Hloop : forall results data start,
             adds_at_most is_page_request 0
               (process_results w config query data start results)).
  { induction results as [|r rest IH]; intros data start;
      cbn [process_results]; [apply at_most_ret|].
    apply (at_most_bind is_page_request 0 0); [|intros d; apply IH|lia].
    unfold process_result. rewrite Hguard. apply at_most_ret. }
  apply Nat.le_0_r, at_most_calls_from. unfold advanced_research.
  apply (at_most_bind is_page_request 0 0); [| |lia].
  - intros log0. exists [CSerperPost query].
    split; [apply ToolFacts.search_calls | unfold how_many; simpl; lia].
  - intros sr. destruct (sr_error sr); [apply at_most_ret|].
    unfold report_body.
    apply (at_most_bind is_page_request 0 0); [| |lia].
    { apply at_most_perform. simpl. lia. }
    intros generated. apply (at_most_bind is_page_request 0 0); [| |lia].
    { destruct (sr_organic sr); [apply Hloop | apply at_most_ret]. }
    intros data. apply (at_most_bind is_page_request 0 0); [| |lia].
    { apply at_most_perform. simpl. lia. }
    intros timestamp. apply (at_most_bind is_page_request 0 0); [| |lia].
    { apply at_most_perform. simpl. lia. }
    intros _. apply at_most_ret.
Qed.

End AnyWorld.

Lemma blank_query_scrapes_nothing_witness :
  blank (str_isspace Worlds.calm) (str_lower Worlds.calm "   ") = true
  /\ how_many is_page_request
       (calls_from (advanced_research Worlds.calm Worlds.full_config "   ") [])
     = 0%nat.
Proof.
  split; [reflexivity|].
  destruct (blank_query_scrapes_nothing Worlds.calm Worlds.full_config "   " [])
    as (Hnone & _).
  apply Hnone. reflexivity.
Defined.

End PageFacts.

Module SavedFacts.
Import Py Config Effects Tools LogProps MoreProps EffectFacts PyStrMoreFacts.

Section AnyWorld.

Variable w : World.
Variable config : AgentcyConfig.

Lemma process_results_extends (query : string) (results : list organic_result)
    (research_data : list string) (start : nat) (log : list call)
    (data : list string) :
  fst (process_results w config query research_data start results log)
  = Return data ->
  exists more, data = research_data ++ more.
Proof.
  revert research_data start log; induction results as [|r rest IH];
    intros research_data start log; cbn [process_results].
  - intros [= <-]. exists []. now rewrite app_nil_r.
  - unfold bind.
    destruct (ToolFacts.scrape_basic_returns w config (default "" (o_link r)) log)
      as [s Hs].
    pose proof (ReportFacts.process_result_contributed w config query
                  research_data start r log s Hs) as Hstep.
    destruct (process_result w config query research_data start r log)
      as [[d|e] log']; simpl in Hstep; [|discriminate].
    injection Hstep as ->. intros H. apply IH in H as [more ->].
    eexists. now rewrite <- app_assoc.
Qed.

Lemma join_starts (sep first second : string) (rest : list string) :
  PyStr.startswith (PyStr.join sep (first :: second :: rest)) first = true.
Proof. cbn [PyStr.join]. apply startswith_app. Qed.

Lemma research_path (directory timestamp : string) :
  path_join directory ("research_" +:+ timestamp +:+ ".md")
  = directory +:+ "/" +:+ "research_" +:+ timestamp +:+ ".md".
Proof. reflexivity. Qed.

(** X7.  When [advanced_research] returns a report, the report is what it has
    just saved: its last call writes exactly the returned text to
    research_<timestamp>.md in the research directory, and the text starts
    with the title line naming the query. *)
Theorem report_saved_is_returned (query : string) (log : list call)
    (sr : search_results) (report : string) :
  fst (search w query log) = Return sr ->
  sr_error sr = None ->
  fst (advanced_research w config query log) = Return report ->
  (exists log',
     last (snd (advanced_research w config query log))
     = Some (CFileWrite
               (research_dir config +:+ "/" +:+ "research_"
                +:+ now_strftime w log' "%Y%m%d_%H%M%S" +:+ ".md")
               report))
  /\ PyStr.startswith report ("# Research Report: " +:+ query +:+ nl) = true.
Proof.
  intros Hsr Herr. unfold advanced_research, bind.
  destruct (search w query log) as [[sr'|e] log0]; simpl in Hsr;
    [|discriminate].
  injection Hsr as ->. rewrite Herr.
  unfold report_body, now, bind, perform. cbv beta iota.
  set (title := "# Research Report: " +:+ query +:+ nl).
  set (generated :=
         "Generated on: " +:+ now_strftime w log0 "%Y-%m-%d %H:%M:%S" +:+ nl).
  set (log1 := log0 ++ [CNow "%Y-%m-%d %H:%M:%S"]).
  destruct (sr_organic sr) as [organic|].
  - destruct (process_results w config query
                ([title; generated] ++ ["## Key Findings" +:+ nl]) 0
                (List.firstn 5 organic) log1) as [[data|e] log2] eqn:E;
      [|discriminate].
    apply (f_equal fst) in E. simpl in E.
    apply process_results_extends in E as [more ->].
    rewrite research_path.
    destruct (file_write w _ _ _) as [[]|e]; cbn [fst snd ret]; [|discriminate].
    intros [= <-]. split; [eexists; apply last_snoc|].
    destruct (sr_related sr); apply join_starts.
  - cbn [ret]. rewrite research_path.
    destruct (file_write w _ _ _) as [[]|e]; cbn [fst snd ret]; [|discriminate].
    intros [= <-]. split; [eexists; apply last_snoc|].
    destruct (sr_related sr); apply join_starts.
Qed.

End AnyWorld.

Lemma report_saved_is_returned_witness :
  exists report log',
    fst (advanced_research Worlds.calm Worlds.full_config "coffee trends" [])
    = Return report
    /\ last (snd (advanced_research Worlds.calm Worlds.full_config
                    "coffee trends" []))
       = Some (CFileWrite
                 ("output/research" +:+ "/" +:+ "research_"
                  +:+ now_strftime Worlds.calm log' "%Y%m%d_%H%M%S" +:+ ".md")
                 report).
Proof.
  destruct (advanced_research Worlds.calm Worlds.full_config "coffee trends" [])
    as [[report|e] log1] eqn:E; [|vm_compute in E; discriminate].
  exists report.
  destruct (report_saved_is_returned Worlds.calm Worlds.full_config
              "coffee trends" [] Worlds.coffee_results report)
    as ([log' Hlast] & _).
  - reflexivity.
  - reflexivity.
  - now rewrite E.
  - exists log'. split; [reflexivity|]. rewrite E in Hlast. exact Hlast.
Defined.

End SavedFacts.

Module ImageMoreFacts.
Import Py Config Effects Tools LogProps MoreProps EffectFacts PyStrMoreFacts.

Lemma fold_left_append (pieces : list string) (acc : string) :
  fold_left (fun result item => result +:+ item) pieces acc
  = acc +:+ PyStrMore.concat pieces.
Proof.
  revert acc; induction pieces as [|p rest IH]; intros acc; simpl.
  - now rewrite append_empty_r.
  - now rewrite IH, append_assoc.
Qed.

Section AnyWorld.

Variable w : World.
Variable config : AgentcyConfig.

Lemma safe_prompt_fixed (prompt : string) :
  (String.length prompt <= 30)%nat ->
  PyStr.forallb (safe_char w) prompt = true ->
  (forall c, PyStrMore.last_char prompt = Some c -> str_isspace w c = false) ->
  safe_prompt w prompt = prompt.
Proof.
  intros Hlen Hsafe Hlast. unfold safe_prompt.
  rewrite (take_fixed 30 prompt Hlen).
  change (fun c : ascii => str_isalnum w c || Ascii.eqb c " "
                           || Ascii.eqb c "-" || Ascii.eqb c "_")
    with (safe_char w).
  rewrite (filter_fixed _ _ Hsafe). now apply rstrip_fixed.
Qed.

(** X8.  [safe_prompt] never ends in whitespace, leaves a prompt alone that is
    already a safe name (at most 30 characters, all of them alphanumeric,
    space, hyphen or underscore, the last one not whitespace), and is
    therefore idempotent: a name it produced passes through unchanged. *)
Theorem safe_prompt_idempotent (prompt : string) :
  safe_prompt w (safe_prompt w prompt) = safe_prompt w prompt
  /\ (forall c, PyStrMore.last_char (safe_prompt w prompt) = Some c ->
        str_isspace w c = false)
  /\ ((String.length prompt <= 30)%nat ->
      PyStr.forallb (safe_char w) prompt = true ->
      (forall c, PyStrMore.last_char prompt = Some c ->
         str_isspace w c = false) ->
      safe_prompt w prompt = prompt).
Proof.
  assert (Hlast : forall c, PyStrMore.last_char (safe_prompt w prompt) = Some c ->
                            str_isspace w c = false).
  { intros c. unfold safe_prompt. apply rstrip_last. }
  split; [|split; [exact Hlast | apply safe_prompt_fixed]].
  apply safe_prompt_fixed;
    [apply ImageFacts.safe_prompt_length | apply ImageFacts.safe_prompt_chars
     | exact Hlast].
Qed.

(** X9.  Without the replicate package or without the token neither image tool
    touches the outside world: the log is unchanged and the result is the
    tool's "unavailable" message. *)
Theorem image_tools_unavailable
    (prompt image_path original_prompt : string) (log : list call) :
  replicate_available w = false
  \/ PyStr.truthy_opt (replicate_api_token config) = false ->
  snd (generate_image w config prompt log) = log
  /\ snd (critique_image w config image_path original_prompt log) = log
  /\ (exists s, fst (generate_image w config prompt log) = Return s
        /\ PyStr.startswith s "Image generation unavailable: " = true)
  /\ (exists s,
        fst (critique_image w config image_path original_prompt log) = Return s
        /\ PyStr.startswith s "Image critique unavailable: " = true).
Proof.
  intros H.
  unfold generate_image, critique_image, try_except, generate_image_body,
    critique_image_body.
  destruct (replicate_available w); cbn [negb].
  - destruct H as [H|H]; [discriminate|]. rewrite H. cbn [negb ret fst snd].
    repeat split; eexists; split; reflexivity.
  - cbn [ret fst snd]. repeat split; eexists; split; reflexivity.
Qed.

(** X10.  The message "Image generated and saved: <path>" is returned only after
    the download was written to exactly that path, as the tool's last call;
    the other outcomes that name no saved file ("Image generated but
    download failed", "Image generation failed") come without any file
    write. *)
Theorem saved_message_means_written (prompt : string) (log : list call)
    (s : string) :
  fst (generate_image w config prompt log) = Return s ->
  (PyStr.startswith s "Image generated and saved: " = true ->
   exists log' data,
     s = "Image generated and saved: "
         +:+ image_filename w config prompt (now_strftime w log' "%Y%m%d%H%M%S")
     /\ last (snd (generate_image w config prompt log))
        = Some (CFileWrite
                  (image_filename w config prompt
                     (now_strftime w log' "%Y%m%d%H%M%S")) data))
  /\ (PyStr.startswith s "Image generated but download failed: " = true
      \/ s = "Image generation failed" ->
      how_many is_file_write
        (calls_from (generate_image w config prompt) log) = 0%nat).
Proof.
  unfold calls_from, generate_image, try_except, generate_image_body, now, bind,
    perform, ret.
  destruct (negb (replicate_available w)).
  { cbn [fst snd]. intros [= <-]. split; [discriminate|].
    intros [H|H]; discriminate. }
  destruct (negb (PyStr.truthy_opt (replicate_api_token config))).
  { cbn [fst snd]. intros [= <-]. split; [discriminate|].
    intros [H|H]; discriminate. }
  cbv beta iota.
  destruct (replicate_run w log sdxl_model prompt) as [[|image_url output]|e].
  - cbn [fst snd]. intros [= <-]. split; [discriminate|]. intros _.
    now rewrite drop_app_length.
  - destruct (requests_get w _ image_url) as [r|e].
    + destruct (Z.eqb (status_code r) 200).
      * destruct (file_write w _ _ _) as [[]|e]; cbn [fst snd]; intros [= <-].
        -- split.
           ++ intros _. eexists _, _. split; [reflexivity | apply last_snoc].
           ++ intros [H|H]; discriminate.
        -- split; [discriminate|]. intros [H|H]; discriminate.
      * cbn [fst snd]. intros [= <-]. split; [discriminate|]. intros _.
        rewrite <- !app_assoc, drop_app_length. reflexivity.
    + cbn [fst snd]. intros [= <-]. split; [discriminate|].
      intros [H|H]; discriminate.
  - cbn [fst snd]. intros [= <-]. split; [discriminate|].
    intros [H|H]; discriminate.
Qed.

(** X11.  [critique_image], once the package and the token are there: a missing
    image file is reported after the existence check alone, the model is
    only ever run on a file that exists, and the critique returned is the
    pieces of the model's output joined in order. *)
Theorem critique_image_outcomes (image_path original_prompt : string)
    (log : list call) :
  replicate_available w = true ->
  PyStr.truthy_opt (replicate_api_token config) = true ->
  (path_exists w log image_path = false ->
   critique_image w config image_path original_prompt log
   = (Return ("Image file not found: " +:+ image_path),
      log ++ [CPathExists image_path]))
  /\ ((0 < how_many is_replicate_run
             (calls_from (critique_image w config image_path original_prompt)
                log))%nat ->
      path_exists w log image_path = true)
  /\ (forall output,
        path_exists w log image_path = true ->
        file_open_read w (log ++ [CPathExists image_path]) image_path
        = Return tt ->
        replicate_run w
          ((log ++ [CPathExists image_path]) ++ [CFileOpenRead image_path])
          llava_model (critique_prompt original_prompt) = Return output ->
        fst (critique_image w config image_path original_prompt log)
        = Return (PyStrMore.concat output)).
Proof.
  intros Hav Htok.
  unfold calls_from, critique_image, try_except, critique_image_body, bind,
    perform, ret.
  rewrite Hav, Htok. cbn [negb]. cbv beta iota.
  split; [|split].
  - intros ->. reflexivity.
  - destruct (path_exists w log image_path); [reflexivity|].
    cbn [negb snd]. rewrite drop_app_length. unfold how_many. simpl. lia.
  - intros output -> Hopen Hrun. cbn [negb]. rewrite Hopen, Hrun.
    cbn [fst]. now rewrite fold_left_append.
Qed.

End AnyWorld.

Lemma image_tools_unavailable_witness :
  snd (generate_image Worlds.calm
         (AgentcyConfig_init MoreWorlds.complete_environ) "A cup of coffee" [])
  = [].
Proof.
  destruct (image_tools_unavailable Worlds.calm
              (AgentcyConfig_init MoreWorlds.complete_environ)
              "A cup of coffee" "out.png" "cup" []) as (Hlog & _).
  - right. reflexivity.
  - exact Hlog.
Defined.

Lemma saved_message_means_written_witness :
  exists log' data,
    last (snd (generate_image Worlds.calm Worlds.full_config
                 "A cup of coffee" []))
    = Some (CFileWrite
              (image_filename Worlds.calm Worlds.full_config "A cup of coffee"
                 (now_strftime Worlds.calm log' "%Y%m%d%H%M%S")) data).
Proof.
  destruct (saved_message_means_written Worlds.calm Worlds.full_config
              "A cup of coffee" []
              "Image generated and saved: output/images/A cup of coffee_20240101120000.png")
    as (Hsaved & _).
  - vm_compute; reflexivity.
  - destruct Hsaved as (log' & data & _ & Hlast); [vm_compute; reflexivity|].
    exists log', data. exact Hlast.
Defined.

Lemma critique_image_outcomes_witness :
  critique_image MoreWorlds.offline Worlds.full_config "out.png" "cup" []
  = (Return "Image file not found: out.png", [CPathExists "out.png"]).
Proof.
  destruct (critique_image_outcomes MoreWorlds.offline Worlds.full_config
              "out.png" "cup" []) as (Hmissing & _).
  - reflexivity.
  - reflexivity.
  - now apply Hmissing.
Defined.

Lemma safe_prompt_idempotent_witness :
  (String.length "A cup of coffee" <= 30)%nat
  /\ safe_prompt Worlds.calm "A cup of coffee" = "A cup of coffee".
Proof.
  split; [simpl; lia|].
  destruct (safe_prompt_idempotent Worlds.calm "A cup of coffee")
    as (_ & _ & Hfixed).
  apply Hfixed.
  - simpl; lia.
  - reflexivity.
  - intros c [= <-]. reflexivity.
Defined.

End ImageMoreFacts.

(* ===================================================================== *)
(** ** Frameworks, function definitions, agents and [main] *)
(* ===================================================================== *)

Module SetupFacts.
Import Py Config Props MoreProps PyStrMoreFacts.
Import MarketingFrameworks Functions.

Lemma render_items_contains (items : list (string * string)) (sep k v : string) :
  (k, v) ∈ items ->
  PyStr.contains k (PyStr.join sep (render_items items)) = true
  /\ PyStr.contains v (PyStr.join sep (render_items items)) = true.
Proof.
  intros Hin.
  assert (Hitem : (k +:+ ": " +:+ v) ∈ render_items items).
  { unfold render_items. apply list_elem_of_In, in_map_iff.
    exists (k, v). split; [reflexivity | now apply list_elem_of_In]. }
  split; (eapply contains_trans; [|apply contains_join, Hitem]).
  - apply contains_app_l, contains_refl.
  - apply contains_app_r, contains_app_r, contains_refl.
Qed.

(** X12.  Each guidance text names everything its table lists: every
    copywriting principle, and every framework of the marketing and media
    tables together with its description. *)
Theorem guidance_names_everything :
  (forall principle, principle ∈ COPYWRITING_PRINCIPLES ->
     PyStr.contains principle get_copywriting_guidance = true)
  /\ (forall k v, (k, v) ∈ MARKETING_FRAMEWORKS ->
        PyStr.contains k get_marketing_guidance = true
        /\ PyStr.contains v get_marketing_guidance = true)
  /\ (forall k v, (k, v) ∈ MEDIA_FRAMEWORKS ->
        PyStr.contains k get_media_guidance = true
        /\ PyStr.contains v get_media_guidance = true).
Proof.
  split; [|split].
  - intros principle Hin. unfold get_copywriting_guidance.
    now apply contains_app_r, contains_join.
  - intros k v Hin. unfold get_marketing_guidance.
    destruct (render_items_contains MARKETING_FRAMEWORKS "; " k v Hin).
    split; now apply contains_app_r.
  - intros k v Hin. unfold get_media_guidance.
    destruct (render_items_contains MEDIA_FRAMEWORKS "; " k v Hin).
    split; now apply contains_app_r.
Qed.

(** X13.  The functions announced to the agents and the functions the user proxy
    can execute are the same: a name is in [_get_function_definitions]
    exactly when [function_map] has it, no name is announced twice, and
    the properties each definition declares, all of them required, are the
    parameters of the method the name is mapped to. *)
Theorem function_definitions_match_map :
  (forall name,
      name ∈ (fd_name <$> _get_function_definitions)
      <-> is_Some (Chat.function_map !! name))
  /\ NoDup (fd_name <$> _get_function_definitions)
  /\ (forall d, d ∈ _get_function_definitions ->
        exists t, Chat.function_map !! fd_name d = Some t
                  /\ fd_properties d = parameters t
                  /\ fd_required d = parameters t).
Proof.
  split; [|split].
  - intros name. rewrite <- elem_of_dom.
    unfold Chat.function_map. rewrite !dom_insert_L, dom_singleton_L.
    rewrite !elem_of_union, !elem_of_singleton.
    cbn [fmap list_fmap _get_function_definitions fd_name].
    rewrite !elem_of_cons, elem_of_nil. tauto.
  - cbn [fmap list_fmap _get_function_definitions fd_name].
    repeat constructor; rewrite ?elem_of_cons, ?elem_of_nil;
      intros H; repeat destruct H as [H|H]; discriminate || exact H.
  - intros d Hd. unfold _get_function_definitions in Hd.
    rewrite !elem_of_cons, elem_of_nil in Hd.
    destruct Hd as [->|[->|[->|[]]]]; eexists; repeat split; reflexivity.
Qed.

(** X14.  The agents of the group chat: nine of them, no two with the same
    name, the user proxy first and the only proxy, the only agent with a
    function map; and the agents built with the function definitions are
    assistants of the chat. *)
Theorem agents_registry :
  List.length Chat.agents = 9%nat
  /\ NoDup (Chat.agent_name <$> Chat.agents)
  /\ List.filter Chat.is_user_proxy Chat.agents = [Chat.user_proxy]
  /\ hd_error Chat.agents = Some Chat.user_proxy
  /\ (forall a, a ∈ Chat.agents ->
        Chat.agent_function_map a <> ∅ -> a = Chat.user_proxy)
  /\ (forall name, name ∈ agents_with_functions ->
        exists a, a ∈ Chat.agents /\ Chat.agent_name a = name
                  /\ Chat.is_user_proxy a = false).
Proof.
  split; [reflexivity|]. split; [|split; [reflexivity|split; [reflexivity|split]]].
  - cbn. repeat constructor; rewrite ?elem_of_cons, ?elem_of_nil;
      intros H; repeat destruct H as [H|H]; discriminate || exact H.
  - intros a Ha Hmap. unfold Chat.agents in Ha.
    rewrite !elem_of_cons, elem_of_nil in Ha.
    repeat destruct Ha as [Ha|Ha]; try contradiction; subst a;
      try reflexivity; exfalso; now apply Hmap.
  - intros name Hname. unfold agents_with_functions in Hname.
    rewrite !elem_of_cons, elem_of_nil in Hname.
    repeat destruct Hname as [Hname|Hname]; try contradiction; subst name;
      eexists (Chat.assistant _ _);
      (split; [|split; reflexivity]);
      unfold Chat.agents; rewrite !elem_of_cons; auto 12.
Qed.

(** X15.  The project brief quotes the brand and the objective as typed, so a
    brand or an objective that contains TERMINATE makes the opening message
    of the session satisfy the user proxy's termination predicate. *)
Theorem brief_embeds_input (brand_name project_objective : string) :
  PyStr.contains brand_name
    (Session.project_brief brand_name project_objective) = true
  /\ PyStr.contains project_objective
       (Session.project_brief brand_name project_objective) = true
  /\ (has_sentinel brand_name \/ has_sentinel project_objective ->
      forall msg : gmap string pyval,
        Chat.is_termination_msg
          (<["content" := PStr (Session.project_brief brand_name
                                  project_objective)]> msg)
        = Return true).
Proof.
  assert (Hb : PyStr.contains brand_name
                 (Session.project_brief brand_name project_objective) = true).
  { unfold Session.project_brief.
    eapply contains_trans;
      [|apply contains_join with (part := "        Brand: " +:+ brand_name)].
    - apply contains_app_r, contains_refl.
    - apply list_elem_of_In. do 3 right. left. reflexivity. }
  assert (Ho : PyStr.contains project_objective
                 (Session.project_brief brand_name project_objective) = true).
  { unfold Session.project_brief.
    eapply contains_trans;
      [|apply contains_join
          with (part := "        Objective: " +:+ project_objective)].
    - apply contains_app_r, contains_refl.
    - apply list_elem_of_In. do 4 right. left. reflexivity. }
  split; [exact Hb|]. split; [exact Ho|].
  intros Hs msg. rewrite OrchestratorFacts.is_termination_msg_content.
  f_equal. unfold has_sentinel in Hs.
  rewrite <- !PyStrFacts.contains_spec in Hs.
  destruct Hs as [Hs|Hs]; eapply contains_trans; eauto.
Qed.

Lemma brief_embeds_input_witness :
  Chat.is_termination_msg
    {[ "content" := PStr (Session.project_brief "TERMINATEd Coffee" "launch") ]}
  = Return true.
Proof.
  destruct (brief_embeds_input "TERMINATEd Coffee" "launch") as (_ & _ & H).
  apply (H ltac:(left; exists "", "d Coffee"; reflexivity) ∅).
Defined.

End SetupFacts.

(* ===================================================================== *)
(** ** [main]: what is asked, what is printed, when a session starts *)
(* ===================================================================== *)

Module MainFacts.
Import Py Config Props MoreProps PyStrMoreFacts.
Import Terminal Main.

(** What a computation on the terminal reads, starts and writes. *)
Section Bounded.

Context {A B : Type}.

Lemma bounded_ret (a : A) : bounded 0 0 (ret a).
Proof.
  intros c. unfold ret. cbn [snd]. split; [|split].
  - exists []. split; [reflexivity | simpl; lia].
  - exists []. split; [now rewrite app_nil_r | simpl; lia].
  - exists []. now rewrite app_nil_r.
Qed.

Lemma bounded_outcome (r : result A) : bounded 0 0 (fun c => (r, c)).
Proof.
  intros c. cbn [snd]. split; [|split].
  - exists []. split; [reflexivity | simpl; lia].
  - exists []. split; [now rewrite app_nil_r | simpl; lia].
  - exists []. now rewrite app_nil_r.
Qed.

Lemma bounded_weaken (r r' k k' : nat) (m : IO A) :
  (r <= r')%nat -> (k <= k')%nat -> bounded r k m -> bounded r' k' m.
Proof.
  intros Hr Hk Hm c. destruct (Hm c) as ((read & ? & ?) & (started & ? & ?) & ?).
  split; [|split]; [exists read | exists started |]; auto with lia.
Qed.

Lemma bounded_bind (r1 r2 k1 k2 : nat) (m : IO A) (f : A -> IO B) :
  bounded r1 k1 m -> (forall a, bounded r2 k2 (f a)) ->
  bounded (r1 + r2) (k1 + k2) (bind m f).
Proof.
  intros Hm Hf c. unfold bind.
  destruct (Hm c) as ((read & Hin & Hr) & (started & Hch & Hk) & (shown & Hout)).
  destruct (m c) as [[a|e] c1]; cbn [snd] in *.
  - destruct (Hf a c1)
      as ((read' & Hin' & Hr') & (started' & Hch' & Hk') & (shown' & Hout')).
    split; [|split].
    + exists (read ++ read'). rewrite <- app_assoc, <- Hin', <- Hin.
      split; [reflexivity | rewrite length_app; lia].
    + exists (started ++ started'). rewrite Hch', Hch, <- app_assoc.
      split; [reflexivity | rewrite length_app; lia].
    + exists (shown ++ shown'). now rewrite Hout', Hout, <- app_assoc.
  - split; [|split]; [exists read | exists started | exists shown];
      auto with lia.
Qed.

End Bounded.

Lemma bounded_then {A B} (r k : nat) (m : IO A) (f : A -> IO B) :
  bounded 0 0 m -> (forall a, bounded r k (f a)) -> bounded r k (bind m f).
Proof. intros Hm Hf. apply (bounded_bind 0 r 0 k); assumption. Qed.

Lemma bounded_try_except {A} (r k : nat) (m : IO A) (handler : exn -> IO A) :
  bounded r k m -> (forall e, bounded 0 0 (handler e)) ->
  bounded r k (try_except m handler).
Proof.
  intros Hm Hh c. unfold try_except.
  destruct (Hm c) as ((read & Hin & Hr) & (started & Hch & Hk) & (shown & Hout)).
  destruct (m c) as [[a|e] c1]; cbn [snd] in *.
  - split; [|split]; [exists read | exists started | exists shown]; auto.
  - destruct (Hh e c1)
      as ((read' & Hin' & Hr') & (started' & Hch' & Hk') & (shown' & Hout')).
    split; [|split].
    + exists (read ++ read'). rewrite <- app_assoc, <- Hin', <- Hin.
      split; [reflexivity | rewrite length_app; lia].
    + exists (started ++ started'). rewrite Hch', Hch, <- app_assoc.
      split; [reflexivity | rewrite length_app; lia].
    + exists (shown ++ shown'). now rewrite Hout', Hout, <- app_assoc.
Qed.

(** Where the exceptions of a computation come from. *)
Lemma raises_only_bind {A B} (Q : exn -> Prop) (m : IO A) (f : A -> IO B) :
  raises_only Q m -> (forall a, raises_only Q (f a)) ->
  raises_only Q (bind m f).
Proof.
  intros Hm Hf c e. unfold bind. specialize (Hm c).
  destruct (m c) as [[a|e'] c1]; cbn [fst] in *; [apply Hf|].
  intros [= <-]. now apply Hm.
Qed.

Lemma raises_only_try_except {A} (Q : exn -> Prop) (m : IO A)
    (handler : exn -> IO A) :
  (forall e, raises_only Q (handler e)) -> raises_only Q (try_except m handler).
Proof.
  intros Hh c e. unfold try_except.
  destruct (m c) as [[a|e'] c1]; cbn [fst]; [discriminate | apply Hh].
Qed.

Lemma stdin_printed (lines : list string) (c : console) :
  stdin (printed lines c) = stdin c.
Proof. reflexivity. Qed.

Lemma chats_printed (lines : list string) (c : console) :
  chats (printed lines c) = chats c.
Proof. reflexivity. Qed.

Lemma stdout_printed (lines : list string) (c : console) :
  stdout (printed lines c) = stdout c ++ lines.
Proof. reflexivity. Qed.

Lemma printed_printed (lines lines' : list string) (c : console) :
  printed lines' (printed lines c) = printed (lines ++ lines') c.
Proof. unfold printed. cbn. now rewrite <- app_assoc. Qed.

Section AnySession.

Variable h : Host.
Variable isspace : ascii -> bool.
Variable initiate_chat : string -> result unit.

Local Abbreviation main := (Main.main h isspace initiate_chat).
Local Abbreviation main_body := (Main.main_body h isspace initiate_chat).
Local Abbreviation run_creative_session :=
  (Main.run_creative_session h initiate_chat).

Lemma truthy_strip (s : string) :
  PyStr.truthy (PyStrMore.strip isspace s) = negb (blank isspace s).
Proof.
  unfold blank. destruct (PyStr.forallb isspace s) eqn:E.
  - apply strip_blank in E. now rewrite E.
  - destruct (PyStrMore.strip isspace s) eqn:Es; [|reflexivity].
    apply strip_blank in Es. congruence.
Qed.

Lemma brand_of_strip (typed : string) :
  (if PyStr.truthy (PyStrMore.strip isspace typed)
   then PyStrMore.strip isspace typed else "YourBrand")
  = brand_of isspace typed.
Proof.
  unfold brand_of. rewrite truthy_strip. now destruct (blank isspace typed).
Qed.

(** Printing. *)
Lemma bounded_print (s : string) : bounded 0 0 (print h s).
Proof.
  intros c. unfold print. destruct (write h (stdout c) s) as [[]|e];
    cbn [snd stdin stdout chats]; (split; [|split]).
  - exists []. split; [reflexivity | simpl; lia].
  - exists []. split; [now rewrite app_nil_r | simpl; lia].
  - now exists [s].
  - exists []. split; [reflexivity | simpl; lia].
  - exists []. split; [now rewrite app_nil_r | simpl; lia].
  - exists []. now rewrite app_nil_r.
Qed.

Lemma raises_only_print (s : string) :
  raises_only (write_error h) (print h s).
Proof.
  intros c e. unfold print.
  destruct (write h (stdout c) s) as [[]|e'] eqn:E; cbn [fst];
    [discriminate|].
  intros [= <-]. now exists (stdout c), s.
Qed.

Lemma print_writable (s : string) (c : console) :
  writable h -> print h s c = (Return tt, printed [s] c).
Proof. intros Hw. unfold print, printed. now rewrite Hw. Qed.

Lemma bind_print_writable {B} (s : string) (k : unit -> IO B) (c : console) :
  writable h -> bind (print h s) k c = k tt (printed [s] c).
Proof. intros Hw. unfold bind. now rewrite print_writable. Qed.

(** Reading. *)
Lemma bounded_input (prompt : string) : bounded 1 0 (input h prompt).
Proof.
  unfold input. apply (bounded_bind 0 1 0 0); [apply bounded_print|].
  intros _ c. destruct (stdin c) as [|line rest] eqn:E;
    cbn [snd stdin stdout chats]; (split; [|split]).
  - exists []. split; [now rewrite E | simpl; lia].
  - exists []. split; [now rewrite app_nil_r | simpl; lia].
  - exists []. now rewrite app_nil_r.
  - exists [line]. split; [reflexivity | simpl; lia].
  - exists []. split; [now rewrite app_nil_r | simpl; lia].
  - exists []. now rewrite app_nil_r.
Qed.

Lemma input_writable {B} (prompt line : string) (rest : list string)
    (k : string -> IO B) (c : console) :
  writable h -> stdin c = line :: rest ->
  bind (input h prompt) k c
  = k line {| stdin := rest; stdout := stdout c ++ [prompt];
              dirs := dirs c; chats := chats c |}.
Proof.
  intros Hw Hin. unfold input, bind. rewrite print_writable by assumption.
  unfold printed. cbn [stdin stdout dirs chats]. now rewrite Hin.
Qed.

(** Start-up. *)
Lemma bounded_make_dir (dir_path : string) : bounded 0 0 (make_dir h dir_path).
Proof.
  intros c. unfold make_dir. destruct (mkdir h (dirs c) dir_path) as [[]|e];
    cbn [snd stdin stdout chats]; (split; [|split]).
  - exists []. split; [reflexivity | simpl; lia].
  - exists []. split; [now rewrite app_nil_r | simpl; lia].
  - exists []. now rewrite app_nil_r.
  - exists []. split; [reflexivity | simpl; lia].
  - exists []. split; [now rewrite app_nil_r | simpl; lia].
  - exists []. now rewrite app_nil_r.
Qed.

Lemma bounded_AgentcyCore_init (environ : gmap string string) :
  bounded 0 0 (Chat.AgentcyCore_init h environ).
Proof.
  unfold Chat.AgentcyCore_init, Chat.AgentcyConfig_new, Chat.validate_io.
  apply bounded_then.
  - repeat (apply bounded_then; [apply bounded_make_dir | intros _]).
    apply bounded_ret.
  - intros config. apply bounded_then.
    + destruct (missing_keys config); [apply bounded_ret|].
      apply bounded_then; [apply bounded_print | intros _; apply bounded_ret].
    + intros valid. destruct (negb valid); [apply bounded_outcome|].
      apply bounded_then; [apply bounded_outcome | intros _; apply bounded_ret].
Qed.

(** The constructor leaves the typed lines and the chats alone. *)
Lemma AgentcyCore_init_console (environ : gmap string string) (c : console) :
  stdin (snd (Chat.AgentcyCore_init h environ c)) = stdin c
  /\ chats (snd (Chat.AgentcyCore_init h environ c)) = chats c.
Proof.
  destruct (bounded_AgentcyCore_init environ c)
    as ((read & Hin & Hr) & (started & Hch & Hk) & _).
  destruct read; [|simpl in Hr; lia]. destruct started; [|simpl in Hk; lia].
  rewrite app_nil_r in Hch. now split.
Qed.

(** The session. *)
Lemma bounded_run_creative_session (core : Chat.AgentcyCore)
    (brand_name project_objective : string) :
  bounded 0 1 (run_creative_session core brand_name project_objective).
Proof.
  unfold Main.run_creative_session.
  repeat (apply bounded_then; [apply bounded_print | intros _]).
  apply (bounded_bind 0 0 1 0).
  - intros c. unfold chat. cbn [snd stdin stdout chats]. split; [|split].
    + exists []. split; [reflexivity | simpl; lia].
    + eexists [_]. split; [reflexivity | simpl; lia].
    + exists []. now rewrite app_nil_r.
  - intros _.
    repeat (apply bounded_then; [apply bounded_print | intros _]).
    apply bounded_ret.
Qed.

Lemma run_creative_session_writable (core : Chat.AgentcyCore)
    (brand_name project_objective : string) (c : console) :
  writable h ->
  let out := run_creative_session core brand_name project_objective c in
  stdin (snd out) = stdin c
  /\ chats (snd out)
     = chats c ++ [Session.project_brief brand_name project_objective].
Proof.
  intros Hw. cbv zeta. unfold Main.run_creative_session.
  rewrite !bind_print_writable by assumption.
  unfold bind, chat, ret. cbn [stdin stdout dirs chats printed].
  destruct (initiate_chat (Session.project_brief brand_name project_objective))
    as [[]|e]; cbn [fst snd stdin chats]; [|now split].
  rewrite !print_writable by assumption. now split.
Qed.

Lemma bounded_main_body (environ : gmap string string) :
  bounded 2 1 (main_body environ).
Proof.
  unfold Main.main_body.
  apply bounded_then; [apply bounded_AgentcyCore_init | intros agentcy].
  apply (bounded_bind 1 1 0 1); [apply bounded_input | intros typed].
  cbv zeta.
  apply (bounded_bind 1 0 0 1); [apply bounded_input | intros typed'].
  destruct (negb (PyStr.truthy (PyStrMore.strip isspace typed'))).
  - apply (bounded_weaken 0 0 0 1); [lia | lia | apply bounded_print].
  - apply (bounded_bind 0 0 1 0);
      [apply bounded_run_creative_session | intros _; apply bounded_ret].
Qed.

Lemma bounded_main (environ : gmap string string) : bounded 2 1 (main environ).
Proof.
  unfold Main.main.
  repeat (apply bounded_then; [apply bounded_print | intros _]).
  apply bounded_try_except; [apply bounded_main_body|].
  intros e. apply bounded_then; [apply bounded_print | intros _].
  apply bounded_print.
Qed.

(** With a terminal that takes every line, [main] gets as far as the
    [try] and returns from it. *)
Lemma main_writable (environ : gmap string string) (c : console) :
  writable h ->
  main environ c
  = match main_body environ (printed banner c) with
    | (Return _, c') => (Return tt, c')
    | (Raise e, c') => (Return tt, printed (report e) c')
    end.
Proof.
  intros Hw. unfold Main.main.
  rewrite !bind_print_writable by assumption. rewrite !printed_printed.
  change ([_] ++ [_] ++ [_])%list with banner.
  unfold try_except.
  destruct (Main.main_body h isspace initiate_chat environ (printed banner c))
    as [[[]|e] c1]; [reflexivity|].
  rewrite bind_print_writable, print_writable by assumption.
  now rewrite printed_printed.
Qed.

(** X16.  [main] lets an exception out only when a write to the terminal
    raises it, in the banner or in the report of a caught exception: a
    failed start-up, the end of the input and a failing chat are all
    caught.  The banner is printed before the [try], so an exception of its
    first line leaves [main] at once.  On a terminal that takes every line
    [main] returns, with the banner as the first thing written.  In every
    case it reads at most two lines, in order, starts at most one chat and
    only adds to what is written. *)
Theorem main_returns_unless_print_raises (environ : gmap string string)
    (c : console) :
  let out := main environ c in
  (exists read, stdin c = read ++ stdin (snd out)
                /\ (List.length read <= 2)%nat)
  /\ (exists started, chats (snd out) = chats c ++ started
                      /\ (List.length started <= 1)%nat)
  /\ (exists shown, stdout (snd out) = stdout c ++ shown)
  /\ (forall e, fst out = Raise e -> write_error h e)
  /\ (forall e,
        write h (stdout c)
          "🎨 Welcome to Agentcy 2.0 - Multi-Agent Creative Collaboration Platform"
        = Raise e ->
        out = (Raise e, c))
  /\ (writable h ->
      fst out = Return tt
      /\ exists shown, stdout (snd out) = stdout c ++ banner ++ shown).
Proof.
  intros out. destruct (bounded_main environ c) as (Hin & Hch & Hout).
  split; [exact Hin|]. split; [exact Hch|]. split; [exact Hout|].
  split; [|split].
  - intros e. unfold out, Main.main.
    repeat (apply raises_only_bind; [apply raises_only_print | intros _]).
    apply raises_only_try_except. intros e'.
    apply raises_only_bind; [apply raises_only_print | intros _].
    apply raises_only_print.
  - intros e He. unfold out, Main.main. unfold bind at 1, print at 1.
    now rewrite He.
  - intros Hw. unfold out. rewrite main_writable by assumption.
    destruct (bounded_main_body environ (printed banner c))
      as (_ & _ & (shown & Hshown)).
    destruct (Main.main_body h isspace initiate_chat environ (printed banner c))
      as [[[]|e] c1]; cbn [fst snd] in *; (split; [reflexivity|]).
    + exists shown. rewrite Hshown. unfold printed. cbn [stdout].
      now rewrite <- app_assoc.
    + exists (shown ++ report e). unfold printed at 1. cbn [stdout].
      rewrite Hshown. unfold printed. cbn [stdout].
      now rewrite <- !app_assoc.
Qed.

(** X17.  Whatever the constructor raises, [main] reports it and asks
    nothing: on a terminal that takes every line it prints the two lines of
    the report after what the constructor printed, reads no line, starts no
    chat and returns.  A directory that cannot be made is reported in this
    way whether or not the keys are set.  When the directories can be made
    and a required key is absent, exactly three lines follow the banner:
    the missing-keys line of [validate], the error line with the text of
    the [ValueError], and the advice. *)
Theorem main_without_keys (environ : gmap string string) (c : console) :
  writable h ->
  let started := Chat.AgentcyCore_init h environ (printed banner c) in
  let out := main environ c in
  (forall e, fst started = Raise e ->
     out = (Return tt, printed (report e) (snd started))
     /\ stdin (snd out) = stdin c
     /\ chats (snd out) = chats c)
  /\ (forall e, fst (Chat.AgentcyConfig_new h environ (printed banner c))
                = Raise e ->
        fst out = Return tt
        /\ stdout (snd out) = stdout c ++ banner ++ report e)
  /\ (dirs_creatable h ->
      key_absent environ "OPENAI_API_KEY" \/ key_absent environ "SERPER_API_KEY" ->
      fst out = Return tt
      /\ stdin (snd out) = stdin c
      /\ chats (snd out) = chats c
      /\ stdout (snd out)
         = stdout c ++ banner
           ++ [ Chat.missing_keys_message;
                Tools.nl +:+ "❌ Error: Configuration validation failed";
                "Please check your configuration and try again." ]).
Proof.
  intros Hw started out.
  assert (Hreport : forall e, fst started = Raise e ->
            out = (Return tt, printed (report e) (snd started))).
  { intros e He. unfold out. rewrite main_writable by assumption.
    unfold Main.main_body. rewrite (ConfigFacts.bind_run (Chat.AgentcyCore_init h environ)).
    fold started. destruct started as [[core|e'] c1]; cbn [fst snd] in *;
      [discriminate|].
    now injection He as ->. }
  destruct (AgentcyCore_init_console environ (printed banner c))
    as (Hin & Hch). fold started in Hin, Hch.
  rewrite stdin_printed in Hin. rewrite chats_printed in Hch.
  pose proof (ConfigFacts.AgentcyCore_init_outcome h environ (printed banner c))
    as Hinit.
  destruct (ConfigFacts.AgentcyConfig_new_spec h environ (printed banner c))
    as (_ & Hmade_out & _ & Hconf & _ & Hdirs).
  cbv zeta in Hinit. fold started in Hinit.
  split; [|split].
  - intros e He. split; [now apply Hreport|].
    rewrite (Hreport e He). cbn [snd].
    now rewrite stdin_printed, chats_printed, Hin, Hch.
  - intros e He. rewrite He in Hinit.
    assert (Hs : fst started = Raise e) by now rewrite Hinit.
    rewrite (Hreport e Hs). cbn [fst snd]. split; [reflexivity|].
    rewrite Hinit. cbn [snd].
    now rewrite stdout_printed, Hmade_out, stdout_printed, <- app_assoc.
  - intros Hd Habs. specialize (Hdirs Hd). rewrite Hdirs in Hinit.
    apply ConfigFacts.validate_false in Habs. rewrite Habs in Hinit.
    rewrite Hw in Hinit. destruct Hinit as (Hraise & _ & _ & Hshown).
    rewrite (Hreport _ Hraise). cbn [fst snd].
    split; [reflexivity|].
    rewrite stdin_printed, chats_printed, stdout_printed.
    split; [exact Hin|]. split; [exact Hch|].
    rewrite Hshown, Hmade_out, stdout_printed. unfold report.
    now rewrite <- !app_assoc.
Qed.

(** X18.  On a host where start-up succeeds (both required keys, the
    directories made, the tools and agents built) and the terminal takes
    every line, with two lines typed, [main] consumes both and starts a
    chat exactly when the objective is not blank.  The chat then opens with
    the project brief of the stripped objective and of the stripped brand,
    "YourBrand" standing in for a blank brand; a blank objective is
    answered by one line and nothing else happens. *)
Theorem main_session (environ : gmap string string) (c : console)
    (typed_brand typed_objective : string) (rest : list string) :
  keys_present environ ->
  writable h ->
  dirs_creatable h ->
  construct h (AgentcyConfig_init environ) = Return tt ->
  stdin c = typed_brand :: typed_objective :: rest ->
  let out := snd (main environ c) in
  stdin out = rest
  /\ (blank isspace typed_objective = true ->
      chats out = chats c
      /\ stdout out
         = stdout c ++ banner
           ++ [ Tools.nl +:+ "📍 Enter the brand or company name: ";
                "🎯 Enter your goal, brief, or problem statement: ";
                "❌ Project objective is required!" ])
  /\ (blank isspace typed_objective = false ->
      chats out
      = chats c
        ++ [ Session.project_brief (brand_of isspace typed_brand)
               (PyStrMore.strip isspace typed_objective) ]).
Proof.
  intros Hkeys Hw Hd Hbuild Hin.
  pose proof (ConfigFacts.AgentcyCore_init_outcome h environ (printed banner c))
    as Hinit.
  destruct (ConfigFacts.AgentcyConfig_new_spec h environ (printed banner c))
    as (Hmade_in & Hmade_out & Hmade_ch & _ & _ & Hdirs).
  cbv zeta in Hinit. rewrite (Hdirs Hd) in Hinit.
  apply ConfigFacts.validate_true in Hkeys. rewrite Hkeys, Hbuild in Hinit.
  cbv zeta. rewrite main_writable by assumption.
  unfold Main.main_body.
  rewrite (ConfigFacts.bind_run (Chat.AgentcyCore_init h environ)), Hinit.
  set (c1 := snd (Chat.AgentcyConfig_new h environ (printed banner c))) in *.
  assert (Hin1 : stdin c1 = typed_brand :: typed_objective :: rest)
    by (rewrite Hmade_in; exact Hin).
  rewrite (input_writable _ typed_brand (typed_objective :: rest)) by assumption.
  rewrite (input_writable _ typed_objective rest) by (assumption || reflexivity).
  cbv zeta. rewrite brand_of_strip, truthy_strip.
  destruct (blank isspace typed_objective) eqn:Eb; cbn [negb].
  - rewrite print_writable by assumption. cbn [snd printed stdin stdout chats].
    split; [reflexivity|]. split; [|discriminate]. intros _.
    split; [exact Hmade_ch|]. rewrite Hmade_out. unfold printed. cbn [stdout].
    now rewrite <- !app_assoc.
  - match goal with
    | |- context [Main.run_creative_session _ _ ?core ?bn ?po] =>
        set (session := Main.run_creative_session h initiate_chat core bn po)
    end.
    match goal with
    | |- context [bind session _ ?c0] =>
        destruct (run_creative_session_writable
                    {| Chat.config := AgentcyConfig_init environ;
                       Chat.group_chat := Chat.setup_agents |}
                    (brand_of isspace typed_brand)
                    (PyStrMore.strip isspace typed_objective) c0 Hw)
          as (Hsin & Hsch);
        fold session in Hsin, Hsch;
        unfold bind, ret; destruct (session c0) as [[r|e] c2]
    end; cbn [fst snd stdin stdout chats printed] in *.
    + split; [exact Hsin|]. split; [discriminate|]. intros _.
      now rewrite Hsch, Hmade_ch.
    + split; [exact Hsin|]. split; [discriminate|]. intros _.
      now rewrite Hsch, Hmade_ch.
Qed.

End AnySession.

(** The terminal cannot show the banner: the exception leaves [main]. *)
Lemma main_returns_unless_print_raises_witness :
  Main.main MoreWorlds.mute Worlds.ascii_isspace MoreWorlds.quiet_chat
    MoreWorlds.complete_environ MoreWorlds.typed_session
  = (Raise (Exn OtherException "'ascii' codec can't encode character"),
     MoreWorlds.typed_session)
  /\ fst (Main.main MoreWorlds.helpful Worlds.ascii_isspace MoreWorlds.quiet_chat
            MoreWorlds.complete_environ MoreWorlds.typed_session)
     = Return tt.
Proof.
  split.
  - destruct (main_returns_unless_print_raises MoreWorlds.mute
                Worlds.ascii_isspace MoreWorlds.quiet_chat
                MoreWorlds.complete_environ MoreWorlds.typed_session)
      as (_ & _ & _ & _ & Hbanner & _).
    now apply Hbanner.
  - destruct (main_returns_unless_print_raises MoreWorlds.helpful
                Worlds.ascii_isspace MoreWorlds.quiet_chat
                MoreWorlds.complete_environ MoreWorlds.typed_session)
      as (_ & _ & _ & _ & _ & Hreturns).
    apply Hreturns. intros written s. reflexivity.
Defined.

(** No key is set; and, with both keys set, the directory is locked. *)
Lemma main_without_keys_witness :
  writable MoreWorlds.helpful
  /\ stdin (snd (Main.main MoreWorlds.helpful Worlds.ascii_isspace
                   MoreWorlds.quiet_chat ∅ MoreWorlds.typed_session))
     = ["  Acme  "; "Launch the new roast"]
  /\ stdout (snd (Main.main MoreWorlds.locked Worlds.ascii_isspace
                    MoreWorlds.quiet_chat MoreWorlds.complete_environ
                    MoreWorlds.typed_session))
     = banner
       ++ report (Exn OSError "[Errno 30] Read-only file system: 'output'").
Proof.
  assert (Hw : writable MoreWorlds.helpful) by (intros written s; reflexivity).
  assert (Hl : writable MoreWorlds.locked) by (intros written s; reflexivity).
  split; [exact Hw|]. split.
  - destruct (main_without_keys MoreWorlds.helpful Worlds.ascii_isspace
                MoreWorlds.quiet_chat ∅ MoreWorlds.typed_session Hw)
      as (_ & _ & Hkeys).
    destruct Hkeys as (_ & Hin & _).
    + intros made d. reflexivity.
    + left. left. reflexivity.
    + exact Hin.
  - destruct (main_without_keys MoreWorlds.locked Worlds.ascii_isspace
                MoreWorlds.quiet_chat MoreWorlds.complete_environ
                MoreWorlds.typed_session Hl)
      as (_ & Hdir & _).
    destruct (Hdir (Exn OSError "[Errno 30] Read-only file system: 'output'"))
      as (_ & Hout); [reflexivity|].
    exact Hout.
Defined.

Lemma main_session_witness :
  keys_present MoreWorlds.complete_environ
  /\ writable MoreWorlds.helpful
  /\ dirs_creatable MoreWorlds.helpful
  /\ chats (snd (Main.main MoreWorlds.helpful Worlds.ascii_isspace
                   MoreWorlds.quiet_chat MoreWorlds.complete_environ
                   MoreWorlds.typed_session))
     = [ Session.project_brief "Acme" "Launch the new roast" ].
Proof.
  assert (Hk : keys_present MoreWorlds.complete_environ).
  { intros [[H|H]|[H|H]]; vm_compute in H; discriminate. }
  assert (Hw : writable MoreWorlds.helpful) by (intros written s; reflexivity).
  assert (Hd : dirs_creatable MoreWorlds.helpful)
    by (intros made d; reflexivity).
  split; [exact Hk|]. split; [exact Hw|]. split; [exact Hd|].
  destruct (main_session MoreWorlds.helpful Worlds.ascii_isspace
              MoreWorlds.quiet_chat MoreWorlds.complete_environ
              MoreWorlds.typed_session
              "  Acme  " "Launch the new roast" [] Hk Hw Hd eq_refl eq_refl)
    as (_ & _ & Hchat).
  rewrite (Hchat eq_refl). reflexivity.
Defined.

End MainFacts.
